(** * openclaw-wheel: the wheel-strategy plugin (plugin.py), embedded in Rocq

    The plugin recommends option-selling trades from quotes of two providers:
    Interactive Brokers (primary, session based) and yfinance (secondary,
    snapshots).  This file embeds class [IBWheel] of [plugin.py]:

    - Python floats are IEEE-754 binary64 numbers, here Rocq's primitive
      [float]; [round], [round(_, 2)] and [int] are written out on the exact
      value of the float;
    - exceptions are an [outcome]; the methods run in a small state-and-
      exception monad over a [World] holding the session flags of the object
      and the log of the calls made to the two providers;
    - the providers are scripted by an environment [Env], the deterministic
      fakes that drive the code without a network;
    - a pandas table is a list of rows; [sort_values] and [argsort], which
      the plugin calls with the default kind of sort, not a stable one, are
      any implementation of what pandas promises of them;
    - the log messages and the waiting time of [ib.sleep] are left out; the
      text formats of floats are functions of the environment. *)

From Stdlib Require Import ZArith QArith Qabs Floats List String Ascii Bool Lia.
From Stdlib Require Import Permutation Sorted DecimalString.
Import ListNotations.

Close Scope Q_scope.

Set Warnings "-inexact-float".

(** ** Exceptions *)

Module Py.

Inductive exn : Type :=
| ValueError (msg : string)
| OverflowError (msg : string)
| ZeroDivisionError (msg : string)
| IndexError (msg : string)
| ProviderError (msg : string).

(** [str(e)] *)
Definition str (e : exn) : string :=
  match e with
  | ValueError m | OverflowError m | ZeroDivisionError m
  | IndexError m | ProviderError m => m
  end.

Inductive outcome (A : Type) : Type :=
| Return (a : A)
| Raise (e : exn).

Arguments Return {A} a.
Arguments Raise {A} e.

End Py.

Import Py.

(** ** Python floats *)

Module PyFloat.

Local Open Scope float_scope.

(** [bool(x)]: every float but [0.0] and [-0.0] is true, NaN included. *)
Definition truthy (x : float) : bool := negb (x =? 0).

(** [math.isnan] is [PrimFloat.is_nan]; [pd.notna] of a cell that may be
    missing ([row.get] gives [None]). *)
Definition notna (c : option float) : bool :=
  match c with
  | Some x => negb (is_nan x)
  | None => false
  end.

(** Truth value of [d.get(key)]: [None] is false. *)
Definition truthy_opt (c : option float) : bool :=
  match c with
  | Some x => truthy x
  | None => false
  end.

(** [a or b] on two [d.get(...)] results. *)
Definition or_else (a b : option float) : option float :=
  if truthy_opt a then a else b.

(** The order numpy sorts floats by: [<=] with NaN after everything. *)
Definition fle (x y : float) : bool :=
  if is_nan y then true else if is_nan x then false else x <=? y.

(** The exact value of a finite float as a fraction [a / d], [d] a power of
    two; [None] for NaN and the infinities. *)
Definition exact (x : float) : option (Z * positive) :=
  match Prim2SF x with
  | S754_zero _ => Some (0%Z, 1%positive)
  | S754_finite s m e =>
      let a := match e with
               | Zneg k => (Zpos m, Pos.pow 2 k)
               | _ => (Z.shiftl (Zpos m) e, 1%positive)
               end in
      Some (if s then Z.opp (fst a) else fst a, snd a)
  | _ => None
  end.


(** Nearest integer to [a / d], a tie going to the even one. *)
Definition round_half_even (a : Z) (d : positive) : Z :=
  let q := Z.div a (Zpos d) in
  let r := Z.modulo a (Zpos d) in
  match Z.compare (2 * r) (Zpos d) with
  | Lt => q
  | Gt => Z.succ q
  | Eq => if Z.even q then q else Z.succ q
  end.

Definition cannot_convert (x : float) : exn :=
  if is_nan x
  then ValueError "cannot convert float NaN to integer"
  else OverflowError "cannot convert float infinity to integer".

(** [round(x)]: an [int]; NaN and the infinities raise. *)
Definition round (x : float) : outcome Z :=
  match exact x with
  | Some (a, d) => Return (round_half_even a d)
  | None => Raise (cannot_convert x)
  end.

(** [int(x)]: truncation toward zero; NaN and the infinities raise. *)
Definition int (x : float) : outcome Z :=
  match exact x with
  | Some (a, d) => Return (Z.quot a (Zpos d))
  | None => Raise (cannot_convert x)
  end.

(** [float(n)] of an [int], correctly rounded; too large an [int] raises. *)
Definition of_int (n : Z) : outcome float :=
  let f := SF2Prim (binary_normalize prec emax n 0 false) in
  if is_infinity f
  then Raise (OverflowError "int too large to convert to float")
  else Return f.

(** The float nearest to the fraction [n / d]. *)
Definition of_frac (s : bool) (n d : positive) : float :=
  SF2Prim (SF64div (S754_finite s n 0) (S754_finite false d 0)).

(** [round(x, 2)]: the exact value is rounded half-even to two decimals and
    the decimal is read back as the nearest float; NaN and the infinities
    round to themselves. *)
Definition round2 (x : float) : float :=
  match exact x with
  | None => x
  | Some (a, d) =>
      match round_half_even (a * 100) d with
      | Z0 => if get_sign x then PrimFloat.neg_zero else PrimFloat.zero
      | Zpos n => of_frac false n 100
      | Zneg n => of_frac true n 100
      end
  end.

(** [x / y]: division by zero raises. *)
Definition div (x y : float) : outcome float :=
  if y =? 0
  then Raise (ZeroDivisionError "float division by zero")
  else Return (x / y).

End PyFloat.

(** ** Comparisons of binary64 numbers *)

(** NaN, and the order [fle], on the specification of binary64. *)
Definition sf_is_nan (f : spec_float) : bool :=
  match f with
  | S754_nan => true
  | _ => false
  end.

Definition SFfle (a b : spec_float) : bool :=
  if sf_is_nan b then true else if sf_is_nan a then false else SFleb a b.

Section FloatOrder.

Import PyFloat.

Local Open Scope float_scope.

Ltac sf_cases :=
  repeat match goal with
  | s : bool |- _ => destruct s
  | |- context [Z.compare ?a ?b] => destruct (Z.compare_spec a b); subst
  | H : context [Z.compare ?a ?b] |- _ => destruct (Z.compare_spec a b); subst
  | |- context [Pos.compare_cont Eq ?a ?b] =>
      change (Pos.compare_cont Eq a b) with (Pos.compare a b);
      destruct (Pos.compare_spec a b); subst
  | H : context [Pos.compare_cont Eq ?a ?b] |- _ =>
      change (Pos.compare_cont Eq a b) with (Pos.compare a b) in H;
      destruct (Pos.compare_spec a b); subst
  end; simpl in *; try reflexivity; try discriminate; try lia.

Lemma SFcompare_refl (f : spec_float) :
  SFcompare f f = if sf_is_nan f then None else Some Eq.
Proof.
  destruct f as [s|s| |s m e]; simpl; try reflexivity.
  - destruct s; reflexivity.
  - rewrite Z.compare_refl, Pos.compare_cont_refl. destruct s; reflexivity.
Qed.

Lemma SFfle_total (a b : spec_float) : SFfle a b = true \/ SFfle b a = true.
Proof.
  unfold SFfle, SFleb.
  destruct a as [sa|sa| |sa ma ea], b as [sb|sb| |sb mb eb]; simpl; auto;
    sf_cases; auto.
Qed.

Lemma SFfle_trans (a b c : spec_float) :
  SFfle a b = true -> SFfle b c = true -> SFfle a c = true.
Proof.
  unfold SFfle, SFleb.
  destruct a as [sa|sa| |sa ma ea], b as [sb|sb| |sb mb eb], c as [sc|sc| |sc mc ec];
    simpl; intros H1 H2; try reflexivity; try discriminate; sf_cases.
Qed.

Lemma SFltb_zero_neq (f : spec_float) :
  SFltb (S754_zero false) f = true -> SFeqb f (S754_zero false) = false.
Proof.
  destruct f as [s|s| |s m e]; simpl; try discriminate; try reflexivity;
    destruct s; unfold SFltb, SFeqb; simpl; congruence.
Qed.

Lemma SFleb_not_ltb (a b : spec_float) : SFleb a b = true -> SFltb b a = false.
Proof.
  unfold SFleb, SFltb.
  destruct a as [sa|sa| |sa ma ea], b as [sb|sb| |sb mb eb]; simpl; intros H;
    try reflexivity; try discriminate; sf_cases.
Qed.

Lemma Prim2SF_zero : Prim2SF 0 = S754_zero false.
Proof. reflexivity. Qed.

Lemma is_nan_spec (x : float) : is_nan x = sf_is_nan (Prim2SF x).
Proof.
  unfold is_nan. rewrite FloatAxioms.eqb_spec. unfold SFeqb. rewrite SFcompare_refl.
  destruct (Prim2SF x); reflexivity.
Qed.

Lemma fle_spec (x y : float) : fle x y = SFfle (Prim2SF x) (Prim2SF y).
Proof.
  unfold fle, SFfle. now rewrite !is_nan_spec, FloatAxioms.leb_spec.
Qed.

Lemma fle_total (x y : float) : fle x y = true \/ fle y x = true.
Proof. rewrite !fle_spec. apply SFfle_total. Qed.

Lemma fle_trans (x y z : float) : fle x y = true -> fle y z = true -> fle x z = true.
Proof. rewrite !fle_spec. apply SFfle_trans. Qed.

Lemma fle_refl (x : float) : fle x x = true.
Proof. destruct (fle_total x x); assumption. Qed.

(** Away from NaN, [fle] is [<=]. *)
Lemma fle_leb (x y : float) :
  is_nan x = false -> is_nan y = false -> fle x y = (x <=? y).
Proof. intros Hx Hy. unfold fle. now rewrite Hx, Hy. Qed.

Lemma SFfle_false (a b : spec_float) :
  SFfle a b = false ->
  sf_is_nan b = false /\ (sf_is_nan a = true \/ SFltb b a = true).
Proof.
  unfold SFfle, SFleb, SFltb.
  destruct a as [sa|sa| |sa ma ea], b as [sb|sb| |sb mb eb]; simpl; intros H;
    try discriminate; (split; [reflexivity|]); auto; right; sf_cases.
Qed.

(** What [fle] says of two floats that are numbers. *)
Lemma fle_true_leb (x y : float) :
  fle x y = true -> is_nan y = false -> is_nan x = false /\ (x <=? y) = true.
Proof.
  unfold fle. intros H N. rewrite N in H.
  destruct (is_nan x); [discriminate|]. now split.
Qed.

Lemma fle_false_ltb (x y : float) :
  fle x y = false -> is_nan y = false /\ (is_nan x = true \/ (y <? x) = true).
Proof.
  rewrite fle_spec, !is_nan_spec, FloatAxioms.ltb_spec. apply SFfle_false.
Qed.

Lemma ltb_zero_neq (x : float) : (0 <? x) = true -> (x =? 0) = false.
Proof.
  rewrite FloatAxioms.ltb_spec, FloatAxioms.eqb_spec, Prim2SF_zero. apply SFltb_zero_neq.
Qed.

Lemma leb_not_ltb (x y : float) : (x <=? y) = true -> (y <? x) = false.
Proof. rewrite FloatAxioms.leb_spec, FloatAxioms.ltb_spec. apply SFleb_not_ltb. Qed.

Lemma ltb_zero_truthy (x : float) : (0 <? x) = true -> truthy x = true.
Proof. intros H. unfold truthy. now rewrite ltb_zero_neq. Qed.

Lemma ltb_zero_not_nan (x : float) : (0 <? x) = true -> is_nan x = false.
Proof.
  rewrite FloatAxioms.ltb_spec, is_nan_spec, Prim2SF_zero.
  destruct (Prim2SF x); simpl; try reflexivity. discriminate.
Qed.

End FloatOrder.

(** ** pandas tables as lists *)

Module Pandas.

Import PyFloat.

(** [values[i]] *)
Definition value_at (values : list float) (i : nat) : float := nth i values nan.

(** Positions in ascending order of their values, NaN last. *)
Definition ascending (values : list float) (positions : list nat) : Prop :=
  StronglySorted (fun i j => fle (value_at values i) (value_at values j) = true)
                 positions.

(** The sorting of pandas.  The plugin calls [sort_values] and [argsort]
    with the default [kind='quicksort'], which is not stable: the order of
    rows of equal key is that of the implementation in use.  So both are
    taken from the runtime, with what pandas promises of them:
    - [sort_values] puts the rows in ascending order of the key, NaN last;
      [sort_order] is that order, as positions in the table;
    - [Series.argsort()] returns as many positions as there are values, each
      one that [iloc] accepts; when no value is NaN they are the positions in
      ascending order of the values.  With NaN among the values the versions
      of pandas differ (a mark of -1, or NaN last), and nothing more is
      taken for granted. *)
Record Sorting : Type := {
  sort_order : list float -> list nat;
  sort_order_perm :
    forall values, Permutation (sort_order values) (seq 0 (List.length values));
  sort_order_ascending :
    forall values, ascending values (sort_order values);
  argsort : list float -> list Z;
  argsort_length :
    forall values, List.length (argsort values) = List.length values;
  argsort_range :
    forall values p, In p (argsort values) ->
      (- Z.of_nat (List.length values) <= p < Z.of_nat (List.length values))%Z;
  argsort_ascending :
    forall values,
      (forall x, In x values -> is_nan x = false) ->
      exists positions,
        argsort values = map Z.of_nat positions /\
        Permutation positions (seq 0 (List.length values)) /\
        ascending values positions
}.

(** [df.take(positions)] *)
Definition take {A : Type} (rows : list A) (positions : list nat) : list A :=
  flat_map (fun i => match nth_error rows i with
                     | Some r => [r]
                     | None => []
                     end) positions.

(** [df.sort_values(key)] *)
Definition sort_values (pd : Sorting) {A : Type} (key : A -> float) (rows : list A) : list A :=
  take rows (sort_order pd (map key rows)).

(** A position of [iloc] among [n] rows: a negative one counts from the
    end. *)
Definition locate (n : nat) (p : Z) : option nat :=
  if ((0 <=? p) && (p <? Z.of_nat n))%Z then Some (Z.to_nat p)
  else if ((- Z.of_nat n <=? p) && (p <? 0))%Z then Some (Z.to_nat (p + Z.of_nat n))
  else None.

(** [df.iloc[positions]]: a position out of range raises. *)
Fixpoint iloc {A : Type} (rows : list A) (positions : list Z) : outcome (list A) :=
  match positions with
  | [] => Return []
  | p :: rest =>
      match locate (List.length rows) p with
      | None => Raise (IndexError "positional indexers are out-of-bounds")
      | Some i =>
          match nth_error rows i, iloc rows rest with
          | Some r, Return rs => Return (r :: rs)
          | None, _ => Raise (IndexError "positional indexers are out-of-bounds")
          | _, Raise e => Raise e
          end
      end
  end.

End Pandas.

(** ** Implementations of the sorting *)

(** numpy's [argsort] of the default kind, as its generic code for floats
    has it: quicksort on the positions with the median of three as pivot,
    insertion sort for a range of up to 17 entries.  ([depth] stands for the
    recursion limit, past which numpy turns to heapsort; the tables here stay
    far below it and the range is then sorted by insertion.  Where numpy has
    vector code for the processor it sorts by that instead, stably no more
    than here.) *)
Module Numpy.

Import PyFloat Pandas.

Local Open Scope float_scope.

(** The order of floats in numpy's sorts: NaN is greater than any number. *)
Definition less (a b : float) : bool :=
  (a <? b) || (is_nan b && negb (is_nan a)).

Definition get (tosort : list nat) (i : nat) : nat := nth i tosort 0%nat.

Fixpoint set (tosort : list nat) (i x : nat) : list nat :=
  match tosort, i with
  | [], _ => []
  | _ :: rest, O => x :: rest
  | y :: rest, S i' => y :: set rest i' x
  end.

Definition swap (tosort : list nat) (i j : nat) : list nat :=
  set (set tosort i (get tosort j)) j (get tosort i).

Section Quicksort.

Variable v : list float.

(** [v[*p]] *)
Definition at_ (tosort : list nat) (p : nat) : float := value_at v (get tosort p).

Definition order3 (tosort : list nat) (lo hi : nat) : list nat :=
  if less (at_ tosort hi) (at_ tosort lo) then swap tosort hi lo else tosort.

(** [do ++pi; while (v[*pi] < vp)] *)
Fixpoint scan_up (fuel : nat) (tosort : list nat) (vp : float) (pi : nat) : nat :=
  match fuel with
  | O => pi
  | S fuel' =>
      if less (at_ tosort (S pi)) vp then scan_up fuel' tosort vp (S pi) else S pi
  end.

(** [do --pj; while (vp < v[*pj])] *)
Fixpoint scan_down (fuel : nat) (tosort : list nat) (vp : float) (pj : nat) : nat :=
  match fuel with
  | O => pj
  | S fuel' =>
      if less vp (at_ tosort (pj - 1)) then scan_down fuel' tosort vp (pj - 1)
      else (pj - 1)%nat
  end.

Fixpoint partition (fuel : nat) (tosort : list nat) (vp : float) (pi pj : nat) : list nat * nat :=
  match fuel with
  | O => (tosort, pi)
  | S fuel' =>
      let pi := scan_up (List.length tosort) tosort vp pi in
      let pj := scan_down (List.length tosort) tosort vp pj in
      if Nat.leb pj pi then (tosort, pi)
      else partition fuel' (swap tosort pi pj) vp pi pj
  end.

Fixpoint insert_position (vi : nat) (sorted : list nat) : list nat :=
  match sorted with
  | [] => [vi]
  | k :: rest =>
      if less (value_at v vi) (value_at v k) then k :: insert_position vi rest
      else vi :: sorted
  end.

(** The insertion sort of the positions [pl..pr]: an entry moves down past
    the entries of greater value. *)
Definition insertion_sort (tosort : list nat) (pl pr : nat) : list nat :=
  let range := firstn (S pr - pl) (skipn pl tosort) in
  (firstn pl tosort
   ++ rev (fold_left (fun sorted vi => insert_position vi sorted) range [])
   ++ skipn (S pr) tosort)%list.

Fixpoint quicksort (depth : nat) (tosort : list nat) (pl pr : nat) : list nat :=
  match depth with
  | O => insertion_sort tosort pl pr
  | S depth' =>
      if Nat.ltb 16 (pr - pl) then
        let pm := (pl + Nat.div2 (pr - pl))%nat in
        let tosort := order3 tosort pl pm in
        let tosort := order3 tosort pm pr in
        let tosort := order3 tosort pl pm in
        let vp := at_ tosort pm in
        let tosort := swap tosort pm (pr - 1) in
        let (tosort, pi) := partition (List.length tosort) tosort vp pl (pr - 1) in
        let tosort := swap tosort pi (pr - 1) in
        let tosort := quicksort depth' tosort pl (pi - 1) in
        quicksort depth' tosort (S pi) pr
      else insertion_sort tosort pl pr
  end.

End Quicksort.

(** [np.argsort(v)] with [kind='quicksort'] *)
Definition aquicksort (v : list float) : list nat :=
  quicksort v (2 * Nat.log2 (List.length v)) (seq 0 (List.length v)) 0
            (List.length v - 1).

End Numpy.

Module Sorts.

Import PyFloat Pandas.

(** A stable sort, by insertion. *)

Section InsertionSort.

Import PyFloat.

Context {A : Type} (key : A -> float).

Fixpoint insert (x : A) (l : list A) : list A :=
  match l with
  | [] => [x]
  | y :: l' => if fle (key x) (key y) then x :: l else y :: insert x l'
  end.

(** A stable sort by [key]: rows of equal key keep their order. *)
Definition sort (l : list A) : list A := fold_right insert [] l.

Let le (a b : A) : Prop := fle (key a) (key b) = true.

Lemma insert_perm (x : A) (l : list A) : Permutation (x :: l) (insert x l).
Proof.
  induction l as [|y l IH]; simpl; [reflexivity|].
  destruct (fle (key x) (key y)); [reflexivity|].
  rewrite perm_swap. now apply perm_skip.
Qed.

Lemma sort_perm (l : list A) : Permutation l (sort l).
Proof.
  induction l as [|x l IH]; simpl; [constructor|].
  rewrite <- insert_perm. now apply perm_skip.
Qed.

Lemma insert_sorted (x : A) (l : list A) :
  StronglySorted le l -> StronglySorted le (insert x l).
Proof.
  induction 1 as [|y l Hs IH Hy]; simpl.
  - repeat constructor.
  - destruct (fle (key x) (key y)) eqn:E.
    + constructor; [now constructor|].
      constructor; [exact E|].
      rewrite Forall_forall in *. intros z Hz. unfold le.
      apply fle_trans with (key y); [exact E|now apply Hy].
    + constructor; [exact IH|].
      rewrite Forall_forall in *. intros z Hz.
      apply (Permutation_in _ (Permutation_sym (insert_perm x l))) in Hz.
      destruct Hz as [<-|Hz]; [|now apply Hy].
      unfold le. destruct (fle_total (key x) (key y)); congruence.
Qed.

Lemma sort_sorted (l : list A) : StronglySorted le (sort l).
Proof.
  induction l as [|x l IH]; simpl; [constructor|now apply insert_sorted].
Qed.

End InsertionSort.

Section Orders.

(** The positions the stable sort puts the values in. *)
Definition stable_order (values : list float) : list nat :=
  map fst (sort snd (combine (seq 0 (List.length values)) values)).

Lemma map_fst_combine_seq (s : nat) (values : list float) :
  map fst (combine (seq s (List.length values)) values) = seq s (List.length values).
Proof.
  revert s. induction values as [|x values IH]; intros s; simpl; [reflexivity|].
  now rewrite IH.
Qed.

Lemma in_combine_seq (s i : nat) (x : float) (values : list float) :
  In (i, x) (combine (seq s (List.length values)) values) ->
  (s <= i)%nat /\ nth (i - s) values nan = x.
Proof.
  revert s. induction values as [|y values IH]; intros s; simpl; [intros []|].
  intros [[= <- <-]|H].
  - rewrite Nat.sub_diag. now split.
  - apply IH in H. destruct H as [Hs Hn]. split; [lia|].
    replace (i - s)%nat with (S (i - S s))%nat by lia. exact Hn.
Qed.

Lemma stable_order_perm (values : list float) :
  Permutation (stable_order values) (seq 0 (List.length values)).
Proof.
  unfold stable_order. rewrite <- (map_fst_combine_seq 0 values) at 2.
  apply Permutation_map, Permutation_sym, sort_perm.
Qed.

Lemma stable_order_ascending (values : list float) :
  ascending values (stable_order values).
Proof.
  unfold ascending, stable_order.
  pose proof (sort_sorted (@snd nat float) (combine (seq 0 (List.length values)) values)) as S.
  assert (V : forall p, In p (sort snd (combine (seq 0 (List.length values)) values)) ->
                        value_at values (fst p) = snd p).
  { intros [i x] Hp.
    apply (Permutation_in _ (Permutation_sym (sort_perm snd _))) in Hp.
    apply in_combine_seq in Hp. destruct Hp as [_ Hn].
    now rewrite Nat.sub_0_r in Hn. }
  induction S as [|p l Hs IH Hp]; simpl; constructor.
  - apply IH. intros q Hq. apply V. now right.
  - rewrite Forall_forall in *. intros i Hi.
    apply in_map_iff in Hi. destruct Hi as (q & <- & Hq).
    rewrite (V p (or_introl eq_refl)), (V q (or_intror Hq)). now apply Hp.
Qed.

(** Whether [positions] is an answer a sort may give for [values]. *)
Definition ascendingb (values : list float) : list nat -> bool :=
  fix go (positions : list nat) : bool :=
    match positions with
    | [] => true
    | i :: rest =>
        match rest with
        | [] => true
        | j :: _ => fle (value_at values i) (value_at values j) && go rest
        end
    end.

Definition valid (values : list float) (positions : list nat) : bool :=
  Nat.eqb (List.length positions) (List.length values)
  && forallb (fun i => existsb (Nat.eqb i) positions) (seq 0 (List.length values))
  && ascendingb values positions.

(** The answer of [order] where it is an answer of a sort, that of the
    stable sort elsewhere. *)
Definition checked (order : list float -> list nat) (values : list float) : list nat :=
  if valid values (order values) then order values else stable_order values.

Lemma ascendingb_ascending (values : list float) (positions : list nat) :
  ascendingb values positions = true -> ascending values positions.
Proof.
  intros H. apply Sorted_StronglySorted.
  { intros i j k. apply fle_trans. }
  induction positions as [|i rest IH]; [constructor|].
  simpl in H. destruct rest as [|j rest'].
  - repeat constructor.
  - apply andb_prop in H. destruct H as [H1 H2].
    constructor; [now apply IH|]. now constructor.
Qed.

Lemma valid_perm (values : list float) (positions : list nat) :
  valid values positions = true ->
  Permutation positions (seq 0 (List.length values)).
Proof.
  unfold valid. intros H.
  apply andb_prop in H. destruct H as [H _].
  apply andb_prop in H. destruct H as [Hl Hi].
  apply Nat.eqb_eq in Hl.
  apply Permutation_sym, NoDup_Permutation_bis.
  - apply seq_NoDup.
  - rewrite length_seq. lia.
  - intros i Hin. rewrite forallb_forall in Hi.
    apply Hi in Hin. apply existsb_exists in Hin.
    destruct Hin as (j & Hj & E). apply Nat.eqb_eq in E. now subst j.
Qed.

Lemma checked_perm (order : list float -> list nat) (values : list float) :
  Permutation (checked order values) (seq 0 (List.length values)).
Proof.
  unfold checked. destruct (valid values (order values)) eqn:V.
  - now apply valid_perm.
  - apply stable_order_perm.
Qed.

Lemma checked_ascending (order : list float -> list nat) (values : list float) :
  ascending values (checked order values).
Proof.
  unfold checked. destruct (valid values (order values)) eqn:V.
  - apply ascendingb_ascending.
    unfold valid in V. apply andb_prop in V. apply V.
  - apply stable_order_ascending.
Qed.

Variable order : list float -> list nat.

Hypothesis order_perm :
  forall values, Permutation (order values) (seq 0 (List.length values)).

Hypothesis order_ascending : forall values, ascending values (order values).

Lemma positions_length (values : list float) :
  List.length (map Z.of_nat (order values)) = List.length values.
Proof.
  rewrite length_map, (Permutation_length (order_perm values)). apply length_seq.
Qed.

Lemma positions_range (values : list float) (p : Z) :
  In p (map Z.of_nat (order values)) ->
  (- Z.of_nat (List.length values) <= p < Z.of_nat (List.length values))%Z.
Proof.
  intros H. apply in_map_iff in H. destruct H as (i & <- & Hi).
  apply (Permutation_in _ (order_perm values)) in Hi.
  apply in_seq in Hi. lia.
Qed.

Lemma positions_ascending (values : list float) :
  (forall x, In x values -> is_nan x = false) ->
  exists positions,
    map Z.of_nat (order values) = map Z.of_nat positions /\
    Permutation positions (seq 0 (List.length values)) /\
    ascending values positions.
Proof. intros _. exists (order values). now repeat split. Qed.

(** The sorting that [order] gives, with NaN last in [argsort] too. *)
Definition nan_last : Sorting :=
  {| sort_order := order;
     sort_order_perm := order_perm;
     sort_order_ascending := order_ascending;
     argsort := fun values => map Z.of_nat (order values);
     argsort_length := positions_length;
     argsort_range := positions_range;
     argsort_ascending := positions_ascending |}.

End Orders.

(** pandas on a stable sort. *)
Definition stable : Sorting :=
  nan_last stable_order stable_order_perm stable_order_ascending.

(** The order of [nargsort]: the values that are numbers sorted by numpy,
    then the positions of NaN. *)
Definition numbers (values : list float) : list nat :=
  filter (fun i => negb (is_nan (value_at values i))) (seq 0 (List.length values)).

Definition missing (values : list float) : list nat :=
  filter (fun i => is_nan (value_at values i)) (seq 0 (List.length values)).

Definition nargsort (values : list float) : list nat :=
  (map (fun k => nth k (numbers values) 0%nat)
       (Numpy.aquicksort (map (value_at values) (numbers values)))
   ++ missing values)%list.

(** pandas on numpy's quicksort. *)
Definition quicksort : Sorting :=
  nan_last (checked nargsort) (checked_perm nargsort) (checked_ascending nargsort).

End Sorts.

(** ** Python strings *)

Module PyStr.

Definition upper_ascii (c : ascii) : ascii :=
  let n := nat_of_ascii c in
  if andb (Nat.leb 97 n) (Nat.leb n 122) then ascii_of_nat (n - 32) else c.

(** [s.upper()]; bytes outside a-z are left as they are. *)
Fixpoint upper (s : string) : string :=
  match s with
  | EmptyString => EmptyString
  | String c s' => String (upper_ascii c) (upper s')
  end.

(** [s[-n:]] *)
Definition suffix (n : nat) (s : string) : string :=
  substring (String.length s - n) n s.

End PyStr.

(** ** The providers and the world *)

(** [yf.Ticker(symbol).info]: the two price keys the plugin reads. *)
Record Info : Type := {
  currentPrice : option float;
  regularMarketPrice : option float
}.

(** A row of [opt_chain.puts] or [opt_chain.calls]; a cell is [None] when the
    table has no such column. *)
Record OptionRow : Type := {
  row_strike : float;
  row_bid : option float;
  row_ask : option float;
  row_lastPrice : option float;
  row_impliedVolatility : option float;
  row_delta : option float;
  row_theta : option float;
  row_gamma : option float;
  row_vega : option float;
  row_contractSymbol : string
}.

(** [ticker.option_chain()]: a table is [None] or a list of rows. *)
Record OptionChain : Type := {
  puts : option (list OptionRow);
  calls : option (list OptionRow)
}.

(** An entry of [ib.accountSummary(account)]. *)
Record AccountValue : Type := {
  tag : string;
  value : string
}.

(** An entry of [ib.portfolio()]. *)
Record PortfolioItem : Type := {
  contract_is_stock : bool;
  contract_symbol : string;
  position : float;
  averageCost : float;
  marketValue : float;
  unrealizedPNL : float
}.

(** The scripted answers of the two providers and of the runtime. *)
Record Env : Type := {
  (** [ib.connect(...)] followed by [ib.isConnected()] *)
  ib_connect : outcome bool;
  ib_qualifyContracts : string -> outcome unit;
  (** [ticker.marketPrice()] and [ticker.close] at the n-th poll *)
  ib_marketPrice : string -> nat -> outcome float;
  ib_close : string -> nat -> outcome float;
  ib_managedAccounts : outcome (list string);
  ib_accountSummary : string -> outcome (list AccountValue);
  ib_portfolio : outcome (list PortfolioItem);
  yf_info : string -> outcome Info;
  (** [ticker.option_chain(date)] *)
  yf_option_chain : string -> option string -> outcome OptionChain;
  (** [float(s)] of a string, and the formats [:.2f] and [str] of a float *)
  float_of_str : string -> outcome float;
  format_2f : float -> string;
  format_float : float -> string;
  (** [sort_values] and [argsort] of the pandas in use *)
  pandas : Pandas.Sorting
}.

(** A request sent to a provider. *)
Inductive Call : Type :=
| IBConnect
| IBDisconnect
| IBQualifyContracts (symbol : string)
| IBReqMarketDataType (mode : nat)
| IBReqMktData (symbol : string)
| IBCancelMktData (symbol : string)
| IBManagedAccounts
| IBAccountSummary (account : string)
| IBPortfolio
| YFInfo (symbol : string)
| YFOptionChain (symbol : string) (date : option string).

(** The state an [IBWheel] object runs on: its [_connected] flag, whether
    the session is connected, and the requests sent so far, newest first. *)
Record World : Type := {
  _connected : bool;
  isConnected : bool;
  sent : list Call
}.

(** ** State and exceptions *)

Definition M (A : Type) : Type := World -> outcome A * World.

Definition ret {A : Type} (a : A) : M A := fun w => (Return a, w).

Definition raise {A : Type} (e : exn) : M A := fun w => (Raise e, w).

Definition bind {A B : Type} (m : M A) (k : A -> M B) : M B :=
  fun w =>
    match m w with
    | (Return a, w') => k a w'
    | (Raise e, w') => (Raise e, w')
    end.

(** [try: m  except Exception as e: handler e] *)
Definition try_except {A : Type} (m : M A) (handler : exn -> M A) : M A :=
  fun w =>
    match m w with
    | (Return a, w') => (Return a, w')
    | (Raise e, w') => handler e w'
    end.

Definition lift {A : Type} (o : outcome A) : M A := fun w => (o, w).

(** Send a request: it is logged, then answers or raises. *)
Definition call {A : Type} (c : Call) (answer : outcome A) : M A :=
  fun w =>
    (answer,
     {| _connected := _connected w; isConnected := isConnected w;
        sent := c :: sent w |}).

Definition get_world : M World := fun w => (Return w, w).

Definition set_connected (b : bool) : M unit :=
  fun w =>
    (Return tt,
     {| _connected := b; isConnected := isConnected w; sent := sent w |}).

Definition set_isConnected (b : bool) : M unit :=
  fun w =>
    (Return tt,
     {| _connected := _connected w; isConnected := b; sent := sent w |}).

Notation "x <- m ;; k" := (bind m (fun x => k))
  (at level 61, m at next level, right associativity).
Notation "m ;;; k" := (bind m (fun _ => k))
  (at level 61, right associativity).

(** ** The dictionaries the methods return *)

Record Account : Type := {
  net_liquidation : option float;
  cash : option float;
  excess_liquidity : option float;
  margin : option float
}.

Record Position : Type := {
  pos_symbol : string;
  shares : float;
  avg_cost : float;
  market_value : float;
  unrealized_pnl : float
}.

Record Portfolio : Type := {
  account : Account;
  positions : list Position
}.

Record OptionData : Type := {
  opt_symbol : string;
  opt_stock_price : float;
  opt_expiration : string;
  opt_strike : float;
  opt_bid : float;
  opt_ask : float;
  opt_last : float;
  opt_iv : float;
  opt_delta : float;
  opt_theta : float;
  opt_gamma : float;
  opt_vega : float;
  opt_premium : float
}.

Inductive Action : Type := SELL_PUT | SELL_CALL.

(** [max_contracts] and [max_premium] are keys of the SELL_PUT dictionary
    only. *)
Record Recommendation : Type := {
  action : Action;
  rec_symbol : string;
  rec_stock_price : float;
  rec_strike : float;
  rec_premium : float;
  rec_return_pct : float;
  rec_max_contracts : option Z;
  rec_max_premium : option float;
  description : string
}.

Inductive pydict : Type :=
| ErrorDict (error : string)
| OptionDict (d : OptionData)
| PortfolioDict (p : Portfolio)
| RecommendationDict (r : Recommendation).

(** ['error' in d] *)
Definition has_error (d : pydict) : bool :=
  match d with
  | ErrorDict _ => true
  | _ => false
  end.

(** [d.get('premium', 0)] and [d.get('strike', 0)] *)
Definition get_premium (d : pydict) : float :=
  match d with
  | OptionDict o => opt_premium o
  | RecommendationDict r => rec_premium r
  | _ => 0%float
  end.

Definition get_strike (d : pydict) : float :=
  match d with
  | OptionDict o => opt_strike o
  | RecommendationDict r => rec_strike r
  | _ => 0%float
  end.

(** ** class IBWheel *)

Module IBWheel.

Import PyFloat Pandas PyStr.

Local Open Scope string_scope.
Local Open Scope float_scope.

(** [_ensure_connection]; the client id, perturbed by the clock, is not part
    of the model. *)
Definition _ensure_connection (env : Env) : M bool :=
  w <- get_world ;;
  if _connected w && isConnected w then ret true
  else
    try_except
      (up <- call IBConnect (ib_connect env) ;;
       set_isConnected up ;;;
       set_connected up ;;;
       ret up)
      (fun _ => ret false).

(** [disconnect] *)
Definition disconnect : M unit :=
  w <- get_world ;;
  if _connected w then
    call IBDisconnect (Return tt) ;;;
    set_isConnected false ;;;
    set_connected false
  else ret tt.

(** One polling loop of [get_stock_price]: up to [n] reads, from poll [i] on;
    the first price that is true and not NaN is returned. *)
Fixpoint poll (read : nat -> outcome float) (n i : nat) : outcome (option float) :=
  match n with
  | O => Return None
  | S n' =>
      match read i with
      | Raise e => Raise e
      | Return p =>
          if truthy p && negb (is_nan p) then Return (Some p)
          else poll read n' (S i)
      end
  end.

(** The body of the first [try] of [get_stock_price]: live data, then frozen
    data; [None] when both loops run out. *)
Definition primary_price (env : Env) (symbol : string) : M (option float) :=
  call (IBQualifyContracts symbol) (ib_qualifyContracts env symbol) ;;;
  call (IBReqMarketDataType 1) (Return tt) ;;;
  call (IBReqMktData symbol) (Return tt) ;;;
  live <- lift (poll (ib_marketPrice env symbol) 10 0) ;;
  match live with
  | Some price =>
      call (IBCancelMktData symbol) (Return tt) ;;;
      ret (Some price)
  | None =>
      call (IBReqMarketDataType 2) (Return tt) ;;;
      call (IBReqMktData symbol) (Return tt) ;;;
      frozen <- lift (poll (ib_close env symbol) 10 0) ;;
      match frozen with
      | Some price =>
          call (IBCancelMktData symbol) (Return tt) ;;;
          ret (Some price)
      | None =>
          call (IBCancelMktData symbol) (Return tt) ;;;
          ret None
      end
  end.

(** The second [try] of [get_stock_price]: the yfinance snapshot. *)
Definition secondary_price (env : Env) (symbol : string) : M (option float) :=
  try_except
    (info <- call (YFInfo symbol) (yf_info env symbol) ;;
     let price := or_else (currentPrice info) (regularMarketPrice info) in
     if truthy_opt price then ret price else ret None)
    (fun _ => ret None).

Definition get_stock_price (env : Env) (symbol : string) : M (option float) :=
  up <- _ensure_connection env ;;
  found <- (if up
            then try_except (primary_price env symbol) (fun _ => ret None)
            else ret None) ;;
  match found with
  | Some price => ret (Some price)
  | None => secondary_price env symbol
  end.

(** The target strike of [_get_option_chain_yf], before and after
    [round]. *)
Definition target_strike_raw (option_type : string) (stock_price otm_pct : float) : float :=
  if String.eqb (upper option_type) "PUT"
  then stock_price * (1 - otm_pct / 100)
  else stock_price * (1 + otm_pct / 100).

Definition target_strike (option_type : string) (stock_price otm_pct : float) : outcome Z :=
  round (target_strike_raw option_type stock_price otm_pct).

(** The table of the requested type. *)
Definition select_table (option_type : string) (opt_chain : OptionChain) : option (list OptionRow) :=
  if String.eqb (upper option_type) "PUT" then puts opt_chain else calls opt_chain.

(** [|strike - target|] of a row. *)
Definition distance (target : float) (row : OptionRow) : float :=
  abs (row_strike row - target).

(** Sort by strike, then take the row that comes first when the distances to
    the target are sorted. *)
Definition closest_rows (pd : Sorting) (options : list OptionRow) (target : float) : outcome (list OptionRow) :=
  let options := sort_values pd row_strike options in
  iloc options (firstn 1 (argsort pd (map (distance target) options))).

(** [float(row[c]) if pd.notna(row.get(c)) and row[c] > 0 else 0] *)
Definition positive_cell (c : option float) : float :=
  match c with
  | Some x => if notna c && (0 <? x) then x else 0
  | None => 0
  end.

(** [float(row[c]) if pd.notna(row.get(c)) else 0] *)
Definition cell_or_zero (c : option float) : float :=
  match c with
  | Some x => if notna c then x else 0
  | None => 0
  end.

(** The mid price from the cleaned bid, ask and last. *)
Definition mid_price (bid ask last : float) : float :=
  if (bid =? 0) && (ask =? 0) && (0 <? last) then last
  else if (0 <? bid) && (0 <? ask) then (bid + ask) / 2
  else if 0 <? bid then bid
  else if 0 <? ask then ask
  else 0.

Definition expiration_of (contractSymbol : string) : string :=
  if negb (String.eqb contractSymbol "") && Nat.leb 8 (String.length contractSymbol)
  then suffix 8 contractSymbol
  else "".

(** The dictionary built from the selected row. *)
Definition option_data (symbol : string) (stock_price : float) (row : OptionRow) : OptionData :=
  let bid := positive_cell (row_bid row) in
  let ask := positive_cell (row_ask row) in
  let last := cell_or_zero (row_lastPrice row) in
  let mid := mid_price bid ask last in
  {| opt_symbol := symbol;
     opt_stock_price := stock_price;
     opt_expiration := expiration_of (row_contractSymbol row);
     opt_strike := row_strike row;
     opt_bid := bid;
     opt_ask := ask;
     opt_last := last;
     opt_iv := cell_or_zero (row_impliedVolatility row);
     opt_delta := cell_or_zero (row_delta row);
     opt_theta := cell_or_zero (row_theta row);
     opt_gamma := cell_or_zero (row_gamma row);
     opt_vega := cell_or_zero (row_vega row);
     opt_premium := mid * 100 |}.

Definition _get_option_chain_yf (env : Env) (symbol : string) (otm_pct : float)
    (option_type : string) : M pydict :=
  try_except
    (info <- call (YFInfo symbol) (yf_info env symbol) ;;
     match or_else (currentPrice info) (regularMarketPrice info) with
     | None => ret (ErrorDict "無法取得股價")
     | Some stock_price =>
         if negb (truthy stock_price) then ret (ErrorDict "無法取得股價")
         else
           target <- lift (target_strike option_type stock_price otm_pct) ;;
           opt_chain <- call (YFOptionChain symbol None) (yf_option_chain env symbol None) ;;
           match select_table option_type opt_chain with
           | None | Some [] => ret (ErrorDict "無期權數據")
           | Some options =>
               target <- lift (of_int target) ;;
               closest <- lift (closest_rows (pandas env) options target) ;;
               match closest with
               | [] => ret (ErrorDict "找不到合適的 strike")
               | row :: _ => ret (OptionDict (option_data symbol stock_price row))
               end
           end
     end)
    (fun e => ret (ErrorDict (str e))).

Definition get_option_chain (env : Env) (symbol : string) (otm_pct : float)
    (option_type : string) (expiration : option string) : M pydict :=
  result <- _get_option_chain_yf env symbol otm_pct option_type ;;
  if negb (has_error result) then ret result
  else ret result.

(** The loop of [get_portfolio] over the account summary: the four known
    tags are kept, a later value replacing an earlier one. *)
Fixpoint account_summary (env : Env) (values : list AccountValue) (acc : Account) : outcome Account :=
  match values with
  | [] => Return acc
  | v :: rest =>
      let known :=
        String.eqb (tag v) "NetLiquidation" || String.eqb (tag v) "TotalCashValue"
        || String.eqb (tag v) "ExcessLiquidity" || String.eqb (tag v) "FullInitMarginReq" in
      if known then
        match float_of_str env (value v) with
        | Raise e => Raise e
        | Return x =>
            account_summary env rest
              (if String.eqb (tag v) "NetLiquidation" then
                 {| net_liquidation := Some x; cash := cash acc;
                    excess_liquidity := excess_liquidity acc; margin := margin acc |}
               else if String.eqb (tag v) "TotalCashValue" then
                 {| net_liquidation := net_liquidation acc; cash := Some x;
                    excess_liquidity := excess_liquidity acc; margin := margin acc |}
               else if String.eqb (tag v) "ExcessLiquidity" then
                 {| net_liquidation := net_liquidation acc; cash := cash acc;
                    excess_liquidity := Some x; margin := margin acc |}
               else
                 {| net_liquidation := net_liquidation acc; cash := cash acc;
                    excess_liquidity := excess_liquidity acc; margin := Some x |})
        end
      else account_summary env rest acc
  end.

Definition empty_account : Account :=
  {| net_liquidation := None; cash := None; excess_liquidity := None; margin := None |}.

(** The stock entries of [ib.portfolio()]. *)
Definition stock_positions (items : list PortfolioItem) : list Position :=
  map (fun pos =>
         {| pos_symbol := contract_symbol pos;
            shares := position pos;
            avg_cost := averageCost pos;
            market_value := marketValue pos;
            unrealized_pnl := unrealizedPNL pos |})
      (filter contract_is_stock items).

Definition get_portfolio (env : Env) : M pydict :=
  up <- _ensure_connection env ;;
  if negb up then ret (ErrorDict "無法連接 IB")
  else
    try_except
      (accounts <- call IBManagedAccounts (ib_managedAccounts env) ;;
       match accounts with
       | [] => raise (IndexError "list index out of range")
       | account_id :: _ =>
           values <- call (IBAccountSummary account_id) (ib_accountSummary env account_id) ;;
           acc <- lift (account_summary env values empty_account) ;;
           items <- call IBPortfolio (ib_portfolio env) ;;
           ret (PortfolioDict {| account := acc; positions := stock_positions items |})
       end)
      (fun e => ret (ErrorDict (str e))).

(** The loop of [wheel_recommendation] over [portfolio['positions']]; an
    error dictionary has no such key. *)
Definition has_stock (portfolio : pydict) (symbol : string) : bool :=
  match portfolio with
  | PortfolioDict p =>
      existsb (fun pos => String.eqb (pos_symbol pos) symbol && (0 <? shares pos))
              (positions p)
  | _ => false
  end.

(** The contract count of the SELL_PUT branch; [cash_available] is [None]
    when the argument is left out. *)
Definition max_contracts (cash_available : option float) (stock_price : float) : outcome Z :=
  if truthy_opt cash_available then
    match cash_available with
    | Some cash =>
        match div cash (stock_price * 100) with
        | Return q => int q
        | Raise e => Raise e
        end
    | None => Return 1%Z
    end
  else Return 1%Z.

(** [(premium / collateral * 100) if collateral > 0 else 0] *)
Definition put_return_pct (premium strike : float) : outcome float :=
  let collateral := strike * 100 in
  if 0 <? collateral then
    match div premium collateral with
    | Return q => Return (q * 100)
    | Raise e => Raise e
    end
  else Return 0.

(** [(premium / stock_price * 100) if stock_price > 0 else 0] *)
Definition call_return_pct (premium stock_price : float) : outcome float :=
  if 0 <? stock_price then
    match div premium stock_price with
    | Return q => Return (q * 100)
    | Raise e => Raise e
    end
  else Return 0.

(** [premium * max_contracts], a float by an [int]. *)
Definition times (premium : float) (n : Z) : outcome float :=
  match of_int n with
  | Return f => Return (premium * f)
  | Raise e => Raise e
  end.

Definition describe (env : Env) (kind tail : string) (stock_price strike premium return_pct : float) : string :=
  "現價 $" ++ format_2f env stock_price ++ "，賣出 " ++ format_float env strike
  ++ " " ++ kind ++ "，收 $" ++ format_2f env premium ++ "/合約 ("
  ++ format_2f env return_pct ++ tail.

(** The SELL_PUT branch. *)
Definition sell_put (env : Env) (symbol : string) (cash_available : option float)
    (stock_price : float) : M pydict :=
  contracts <- lift (max_contracts cash_available stock_price) ;;
  put_data <- get_option_chain env symbol 10 "PUT" None ;;
  if has_error put_data then ret put_data
  else
    let premium := get_premium put_data in
    let strike := get_strike put_data in
    return_pct <- lift (put_return_pct premium strike) ;;
    total <- lift (times premium contracts) ;;
    ret (RecommendationDict
           {| action := SELL_PUT;
              rec_symbol := symbol;
              rec_stock_price := stock_price;
              rec_strike := strike;
              rec_premium := round2 premium;
              rec_return_pct := round2 return_pct;
              rec_max_contracts := Some contracts;
              rec_max_premium := Some (round2 total);
              description :=
                describe env "Put" "% 回報)" stock_price strike premium return_pct |}).

(** The SELL_CALL branch. *)
Definition sell_call (env : Env) (symbol : string) (stock_price : float) : M pydict :=
  call_data <- get_option_chain env symbol 10 "CALL" None ;;
  if has_error call_data then ret call_data
  else
    let premium := get_premium call_data in
    let strike := get_strike call_data in
    return_pct <- lift (call_return_pct premium stock_price) ;;
    ret (RecommendationDict
           {| action := SELL_CALL;
              rec_symbol := symbol;
              rec_stock_price := stock_price;
              rec_strike := strike;
              rec_premium := round2 premium;
              rec_return_pct := round2 return_pct;
              rec_max_contracts := None;
              rec_max_premium := None;
              description :=
                describe env "Call" "% 月回報)" stock_price strike premium return_pct |}).

Definition wheel_recommendation (env : Env) (symbol : string)
    (cash_available : option float) : M pydict :=
  stock_price <- get_stock_price env symbol ;;
  if negb (truthy_opt stock_price)
  then ret (ErrorDict ("無法取得 " ++ symbol ++ " 股價"))
  else
    match stock_price with
    | None => ret (ErrorDict ("無法取得 " ++ symbol ++ " 股價"))
    | Some stock_price =>
        portfolio <- get_portfolio env ;;
        if negb (has_stock portfolio symbol)
        then sell_put env symbol cash_available stock_price
        else sell_call env symbol stock_price
    end.

End IBWheel.

(** ** Definitions for the statements *)

Section Statements.

Import PyFloat Pandas PyStr IBWheel.

Local Open Scope string_scope.
Local Open Scope float_scope.

(** The world after the two requests of a resolution. *)
Definition after_resolution (symbol : string) (w : World) : World :=
  {| _connected := _connected w; isConnected := isConnected w;
     sent := YFOptionChain symbol None :: YFInfo symbol :: sent w |}.

(** The pricing ladder in the order the specification gives it, on the raw
    quotes of a row: a quote counts when it is present and above zero. *)
Definition quoted (c : option float) : bool :=
  match c with
  | Some x => 0 <? x
  | None => false
  end.

Definition quote (c : option float) : float :=
  match c with
  | Some x => x
  | None => 0
  end.

Definition pricing_ladder (bid ask last : option float) : float :=
  if quoted bid && quoted ask then (quote bid + quote ask) / 2
  else if quoted bid then quote bid
  else if quoted ask then quote ask
  else if quoted last then quote last
  else 0.

(** The primary source gives no price: no session, an exception, or both
    polling loops run out. *)
Definition primary_fails (env : Env) (symbol : string) (w : World) : Prop :=
  forall w1, _ensure_connection env w = (Return true, w1) ->
             forall p, fst (primary_price env symbol w1) <> Return (Some p).

(** The secondary source gives no price: the snapshot raises, or neither key
    holds a true price. *)
Definition secondary_fails (env : Env) (symbol : string) : Prop :=
  match yf_info env symbol with
  | Return info =>
      truthy_opt (or_else (currentPrice info) (regularMarketPrice info)) = false
  | Raise _ => True
  end.

End Statements.

(** ** Scripted providers *)

Module Fakes.

Local Open Scope string_scope.
Local Open Scope float_scope.

(** A row of a chain of symbol XYZ with the three quotes present. *)
Definition row (strike bid ask last : float) : OptionRow :=
  {| row_strike := strike;
     row_bid := Some bid;
     row_ask := Some ask;
     row_lastPrice := Some last;
     row_impliedVolatility := None;
     row_delta := None;
     row_theta := None;
     row_gamma := None;
     row_vega := None;
     row_contractSymbol := "XYZ261120P00090000" |}.

(** A fresh object: no session yet, nothing sent. *)
Definition fresh : World :=
  {| _connected := false; isConnected := false; sent := [] |}.

(** A gateway answering [connect] by [connect], whose ticker shows
    [marketPrice] and no close, holding [items]; a snapshot service quoting
    [currentPrice] and serving the two tables. *)
Definition provider (connect : outcome bool) (marketPrice : float)
    (items : list PortfolioItem) (info : outcome Info)
    (chain : outcome OptionChain) : Env :=
  {| ib_connect := connect;
     ib_qualifyContracts := fun _ => Return tt;
     ib_marketPrice := fun _ _ => Return marketPrice;
     ib_close := fun _ _ => Return nan;
     ib_managedAccounts := Return ["DU123456"];
     ib_accountSummary := fun _ => Return [];
     ib_portfolio := Return items;
     yf_info := fun _ => info;
     yf_option_chain := fun _ _ => chain;
     float_of_str := fun _ => Raise (ValueError "could not convert string to float");
     format_2f := fun _ => "";
     format_float := fun _ => "";
     pandas := Sorts.stable |}.

Definition quoting (price : float) : outcome Info :=
  Return {| currentPrice := Some price; regularMarketPrice := None |}.

Definition holding (symbol : string) (count : float) : PortfolioItem :=
  {| contract_is_stock := true;
     contract_symbol := symbol;
     position := count;
     averageCost := 95;
     marketValue := count * 100;
     unrealizedPNL := 0 |}.

(** Eighteen strikes five apart, and eighteen two apart. *)
Definition ladder : list OptionRow :=
  map (fun strike => row strike 0 0 0)
      [60; 65; 70; 75; 80; 85; 90; 95; 100; 105; 110; 115; 120; 125; 130; 135;
       140; 145].

Definition evens : list float :=
  [2; 4; 6; 8; 10; 12; 14; 16; 18; 20; 22; 24; 26; 28; 30; 32; 34; 36].

(** No broker session; XYZ at 27.8 with puts at the even strikes; pandas
    sorts with numpy's quicksort. *)
Definition even_strikes : Env :=
  {| ib_connect := Return false;
     ib_qualifyContracts := fun _ => Return tt;
     ib_marketPrice := fun _ _ => Return nan;
     ib_close := fun _ _ => Return nan;
     ib_managedAccounts := Return [];
     ib_accountSummary := fun _ => Return [];
     ib_portfolio := Return [];
     yf_info := fun _ =>
       Return {| currentPrice := Some 27.8; regularMarketPrice := None |};
     yf_option_chain := fun _ _ =>
       Return {| puts := Some (map (fun strike => row strike 0 0 0) evens);
                 calls := None |};
     float_of_str := fun _ => Raise (ValueError "could not convert string to float");
     format_2f := fun _ => "";
     format_float := fun _ => "";
     pandas := Sorts.quicksort |}.

(** No broker session; XYZ at 100 with four puts; no calls table. *)
Definition offline : Env :=
  provider (Return false) nan [] (quoting 100)
    (Return {| puts := Some [row 100 3 3.2 3.1; row 85 1 1.2 1.1;
                             row 90 1.8 2.2 2; row 95 0 0 0];
               calls := None |}).

(** The same service when the chain request fails. *)
Definition no_chain (items : list PortfolioItem) : Env :=
  provider (Return true) 100 items (quoting 100)
    (Raise (ProviderError "No options data")).

(** A live gateway showing XYZ at 100 and holding [items]; the snapshot
    service quotes 100 and serves puts and calls. *)
Definition broker (items : list PortfolioItem) : Env :=
  provider (Return true) 100 items (quoting 100)
    (Return {| puts := Some [row 85 1 1.2 1.1; row 90 1.8 2.2 2; row 95 0.07 0.07 0];
               calls := Some [row 105 2 2.4 2.2; row 110 0.9 1.1 1; row 115 0 0 0.3] |}).

End Fakes.

(** ** The next expiration *)

Module Expirations.

Local Open Scope string_scope.

(** An entry of [ib.reqSecDefOptParams(...)]. *)
Record OptionParams : Type := {
  exchange : string;
  expirations : list string;
  strikes : list float
}.

(** The answers [_get_next_expiration] reads: the two requests, and
    [datetime.now().strftime('%Y%m%d')]. *)
Record ParamsProvider : Type := {
  ib_qualifyStock : string -> outcome unit;
  ib_reqSecDefOptParams : string -> outcome (list OptionParams);
  today : string
}.

Fixpoint insert_str (x : string) (l : list string) : list string :=
  match l with
  | [] => [x]
  | y :: l' => if String.leb x y then x :: l else y :: insert_str x l'
  end.

(** [sorted(l)] of a list of strings. *)
Definition sorted (l : list string) : list string := fold_right insert_str [] l.

(** The bare [except:] turns every exception into [None]. *)
Definition _get_next_expiration (provider : ParamsProvider) (symbol : string) : option string :=
  match ib_qualifyStock provider symbol with
  | Raise _ => None
  | Return _ =>
      match ib_reqSecDefOptParams provider symbol with
      | Raise _ => None
      | Return [] => None
      | Return (chain :: _) =>
          let valid_exps :=
            filter (fun e => String.leb (today provider) e) (expirations chain) in
          match valid_exps with
          | [] => None
          | _ => hd_error (sorted valid_exps)
          end
      end
  end.

End Expirations.

(** ** The strike of a broker contract *)

Module Strikes.

Import PyFloat Expirations.

Local Open Scope float_scope.

(** [max(l, key=key)] on a list with a first element: a later element takes
    the place of the best one when its key is greater. *)
Fixpoint max_by {A : Type} (key : A -> nat) (best : A) (l : list A) : A :=
  match l with
  | [] => best
  | x :: l' => max_by key (if Nat.ltb (key best) (key x) then x else best) l'
  end.

(** [len(c.strikes) if c.strikes else 0] *)
Definition strike_count (c : OptionParams) : nat :=
  match strikes c with
  | [] => 0%nat
  | l => List.length l
  end.

(** The parameter set [_get_option_data] works with; without any set the
    function returns the empty dictionary. *)
Definition richest_chain (chains : list OptionParams) : option OptionParams :=
  match chains with
  | [] => None
  | c :: cs => Some (max_by strike_count c cs)
  end.

(** The strikes made up around a price when the set lists none. *)
Definition price_ladder (price : float) : list float :=
  [price * 0.7; price * 0.8; price * 0.9; price * 0.95;
   price; price * 1.05; price * 1.1; price * 1.2; price * 1.3].

(** The strikes to choose from; [price] is what [get_stock_price] answers,
    which is asked only when the set lists no strike. *)
Definition candidate_strikes (chain : OptionParams) (price : option float)
    (target_strike : float) : list float :=
  match strikes chain with
  | [] =>
      price_ladder (match price with
                    | Some p => if truthy p then p else target_strike
                    | None => target_strike
                    end)
  | l => l
  end.

(** [min(l, key=key)] on a list with a first element: a later element takes
    the place of the best one when its key is less. *)
Fixpoint min_by (key : float -> float) (best : float) (l : list float) : float :=
  match l with
  | [] => best
  | x :: l' => min_by key (if key x <? key best then x else best) l'
  end.

(** [min(strikes, key=lambda s: abs(s - target_strike))]; on an empty list
    [min] raises. *)
Definition closest_strike (strikes : list float) (target_strike : float) : outcome float :=
  match strikes with
  | [] => Raise (ValueError "min() arg is an empty sequence")
  | s :: l => Return (min_by (fun s => abs (s - target_strike)) s l)
  end.

End Strikes.

(** ** The tool functions *)

Module Tools.

Import PyFloat PyStr IBWheel.

Local Open Scope string_scope.
Local Open Scope float_scope.

(** The formats of the tool functions beside those of [Env]: [:.1f], [:.3f]
    and [:,.2f]. *)
Record Formats : Type := {
  format_1f : float -> string;
  format_3f : float -> string;
  format_money : float -> string
}.

(** [IBWheel()]: a new object has its own session, not yet connected.  The
    configuration it loads only feeds the arguments of [connect]. *)
Definition new_wheel : M unit :=
  set_isConnected false ;;; set_connected false.

Definition newline : string := String (ascii_of_nat 10) EmptyString.

(** [data['error']]; the key is there when ['error' in data] holds. *)
Definition error_text (data : pydict) : string :=
  match data with
  | ErrorDict msg => msg
  | _ => ""
  end.

Definition get_price (env : Env) (symbol : string) : M string :=
  new_wheel ;;;
  price <- get_stock_price env (upper symbol) ;;
  disconnect ;;;
  match price with
  | Some p =>
      if truthy p
      then ret ("**" ++ upper symbol ++ "** 現在價格: **$" ++ format_2f env p ++ "**")
      else ret ("無法取得 " ++ symbol ++ " 股價")
  | None => ret ("無法取得 " ++ symbol ++ " 股價")
  end.

(** A dictionary of [get_option_chain] without the key [error] is the
    contract; a lookup of a key that another dictionary lacks raises. *)
Definition get_options (env : Env) (fmt : Formats) (symbol : string)
    (otm_pct : float) (option_type : string) : M string :=
  new_wheel ;;;
  data <- get_option_chain env (upper symbol) otm_pct option_type None ;;
  disconnect ;;;
  if has_error data then ret ("錯誤: " ++ error_text data)
  else
    match data with
    | OptionDict d =>
        ret ("**" ++ upper symbol ++ "** 期權數據 (OTM " ++ format_float env otm_pct
             ++ "% " ++ option_type ++ "):" ++ newline
             ++ "• 股價: $" ++ format_2f env (opt_stock_price d) ++ newline
             ++ "• Strike: $" ++ format_2f env (opt_strike d) ++ newline
             ++ "• Bid: $" ++ format_2f env (opt_bid d)
             ++ " | Ask: $" ++ format_2f env (opt_ask d) ++ newline
             ++ "• IV: " ++ format_1f fmt (opt_iv d * 100) ++ "%" ++ newline
             ++ "• Delta: " ++ format_3f fmt (opt_delta d)
             ++ " | Theta: " ++ format_3f fmt (opt_theta d) ++ newline
             ++ "• 權利金: $" ++ format_2f env (opt_premium d) ++ "/合約")
    | _ => raise (IndexError "stock_price")
    end.

Definition action_name (a : Action) : string :=
  match a with
  | SELL_PUT => "SELL_PUT"
  | SELL_CALL => "SELL_CALL"
  end.

Definition wheel_recommend (env : Env) (symbol : string) : M string :=
  new_wheel ;;;
  data <- wheel_recommendation env (upper symbol) None ;;
  disconnect ;;;
  if has_error data then ret ("錯誤: " ++ error_text data)
  else
    match data with
    | RecommendationDict r =>
        ret ("**" ++ upper symbol ++ "** Wheel 建議:" ++ newline
             ++ "• 動作: **" ++ action_name (action r) ++ "**" ++ newline
             ++ "• " ++ description r)
    | _ => raise (IndexError "action")
    end.

Definition or_zero (c : option float) : float :=
  match c with
  | Some x => x
  | None => 0
  end.

Definition position_line (env : Env) (p : Position) : string :=
  "• " ++ pos_symbol p ++ ": " ++ format_float env (shares p) ++ "股 @ $"
  ++ format_2f env (avg_cost p) ++ " (市值 $" ++ format_2f env (market_value p)
  ++ ", PnL $" ++ format_2f env (unrealized_pnl p) ++ ")".

Definition str_of_nat (n : nat) : string :=
  NilEmpty.string_of_uint (Nat.to_uint n).

(** The lines of [portfolio_status], before the join. *)
Definition status_lines (env : Env) (fmt : Formats) (acc : Account)
    (held : list Position) : list string :=
  ["**帳戶資訊:**";
   "• 淨資產: $" ++ format_money fmt (or_zero (net_liquidation acc));
   "• 現金: $" ++ format_money fmt (or_zero (cash acc));
   "• 保證金: $" ++ format_money fmt (or_zero (margin acc))]
  ++ match held with
     | [] => [newline ++ "目前無股票持倉"]
     | _ =>
         (newline ++ "**持倉 (" ++ str_of_nat (List.length held) ++ "檔):**")
         :: map (position_line env) held
     end.

Definition portfolio_status (env : Env) (fmt : Formats) : M string :=
  new_wheel ;;;
  data <- get_portfolio env ;;
  disconnect ;;;
  if has_error data then ret ("錯誤: " ++ error_text data)
  else
    match data with
    | PortfolioDict p =>
        ret (String.concat newline (status_lines env fmt (account p) (positions p)))
    | _ => ret (String.concat newline (status_lines env fmt empty_account []))
    end.

(** ** The command handler *)

(** [a.isdigit()] and [int(a)], which read Unicode digits. *)
Record StrOps : Type := {
  isdigit : string -> bool;
  int_of_str : string -> outcome Z
}.

(** [sub in s] *)
Definition contains (sub s : string) : bool :=
  match index 0 sub s with
  | Some _ => true
  | None => false
  end.

(** [x in l] for a list of strings. *)
Definition among (x : string) (l : list string) : bool :=
  existsb (String.eqb x) l.

(** What [handle_wheel_command] returns: a text of its own, or the value of
    the call it makes. *)
Inductive ToolCall : Type :=
| Reply (text : string)
| GetPrice (symbol : string)
| GetOptions (symbol : string) (otm : Z) (opt_type : string)
| WheelRecommend (symbol : string)
| PortfolioStatus.

(** The loop over [args[1:]]. *)
Fixpoint parse_args (ops : StrOps) (args : list string) (otm : Z) (opt_type : string) : outcome (Z * string) :=
  match args with
  | [] => Return (otm, opt_type)
  | a :: rest =>
      if isdigit ops a then
        match int_of_str ops a with
        | Return n => parse_args ops rest n opt_type
        | Raise e => Raise e
        end
      else if among (upper a) ["CALL"; "PUT"; "C"; "P"] then
        parse_args ops rest otm
          (if among (upper a) ["CALL"; "PUT"] then upper a
           else if String.eqb (upper a) "C" then "CALL" else "PUT")
      else parse_args ops rest otm opt_type
  end.

Definition handle_wheel_command (ops : StrOps) (command : string)
    (args : list string) : outcome ToolCall :=
  match args with
  | [] => Return (Reply "請提供股票代碼，例如: wheel NVDA")
  | first :: rest =>
      let symbol := upper first in
      if contains "price" command || contains "股價" command then
        Return (GetPrice symbol)
      else if contains "option" command || contains "期權" command then
        match parse_args ops rest 10 "PUT" with
        | Return (otm, opt_type) => Return (GetOptions symbol otm opt_type)
        | Raise e => Raise e
        end
      else if contains "wheel" command then
        Return (WheelRecommend symbol)
      else if contains "portfolio" command || contains "持倉" command
              || contains "帳戶" command then
        Return PortfolioStatus
      else
        Return (Reply ("未知命令: " ++ command
                       ++ "。可用: price, options, wheel, portfolio"))
  end.

End Tools.

(** ** Definitions for the further properties *)

Section FurtherStatements.

Import PyFloat Pandas PyStr IBWheel.

Local Open Scope string_scope.
Local Open Scope float_scope.

(** A computation that leaves the two session flags as they are. *)
Definition neutral {A : Type} (m : M A) : Prop :=
  forall w, _connected (snd (m w)) = _connected w /\
            isConnected (snd (m w)) = isConnected w.

(** A computation that keeps [_connected] equal to the state of the
    session. *)
Definition steady {A : Type} (m : M A) : Prop :=
  forall w, _connected w = isConnected w ->
            _connected (snd (m w)) = isConnected (snd (m w)).

(** [account.get(key)], by the tag that sets the key. *)
Definition account_field (t : string) (acc : Account) : option float :=
  if String.eqb t "NetLiquidation" then net_liquidation acc
  else if String.eqb t "TotalCashValue" then cash acc
  else if String.eqb t "ExcessLiquidity" then excess_liquidity acc
  else if String.eqb t "FullInitMarginReq" then margin acc
  else None.

(** The tags [get_portfolio] reads. *)
Definition known_tag (t : string) : bool :=
  String.eqb t "NetLiquidation" || String.eqb t "TotalCashValue"
  || String.eqb t "ExcessLiquidity" || String.eqb t "FullInitMarginReq".

(** The option type a token of the command stands for. *)
Definition type_word (a : string) : bool :=
  Tools.among (PyStr.upper a) ["CALL"; "PUT"; "C"; "P"].

Definition type_of_word (a : string) : string :=
  if String.eqb (PyStr.upper a) "CALL" || String.eqb (PyStr.upper a) "C"
  then "CALL" else "PUT".

End FurtherStatements.

(** ** More scripted providers *)

Module MoreFakes.

Local Open Scope string_scope.
Local Open Scope float_scope.

(** A live gateway that cannot qualify the symbol; the snapshot quotes
    100. *)
Definition unqualified : Env :=
  {| ib_connect := Return true;
     ib_qualifyContracts := fun _ => Raise (ProviderError "cannot qualify");
     ib_marketPrice := fun _ _ => Return 100;
     ib_close := fun _ _ => Return nan;
     ib_managedAccounts := Return ["DU123456"];
     ib_accountSummary := fun _ => Return [];
     ib_portfolio := Return [];
     yf_info := fun _ => Fakes.quoting 100;
     yf_option_chain := fun _ _ => Raise (ProviderError "No options data");
     float_of_str := fun _ => Raise (ValueError "could not convert string to float");
     format_2f := fun _ => "";
     format_float := fun _ => "";
     pandas := Sorts.stable |}.

(** A live gateway whose ticks only start at the eleventh poll, holding
    fifty shares; the snapshot quotes 100. *)
Definition late_ticks : Env :=
  {| ib_connect := Return true;
     ib_qualifyContracts := fun _ => Return tt;
     ib_marketPrice := fun _ i => Return (if Nat.ltb i 10 then nan else 101);
     ib_close := fun _ i => Return (if Nat.ltb i 10 then nan else 99);
     ib_managedAccounts := Return [];
     ib_accountSummary := fun _ => Return [];
     ib_portfolio := Return [Fakes.holding "XYZ" 50];
     yf_info := fun _ => Fakes.quoting 100;
     yf_option_chain := fun _ _ => Raise (ProviderError "");
     float_of_str := fun _ => Return 0;
     format_2f := fun _ => "";
     format_float := fun _ => "";
     pandas := Sorts.stable |}.

(** A live gateway with an account summary of [values]; [float] reads the
    two texts 1250.5 and 900 and raises on anything else. *)
Definition summary (values : list AccountValue) : Env :=
  {| ib_connect := Return true;
     ib_qualifyContracts := fun _ => Return tt;
     ib_marketPrice := fun _ _ => Return 100;
     ib_close := fun _ _ => Return nan;
     ib_managedAccounts := Return ["DU123456"; "DU999999"];
     ib_accountSummary := fun account =>
       if String.eqb account "DU123456" then Return values
       else Raise (ProviderError "unknown account");
     ib_portfolio := Return [];
     yf_info := fun _ => Fakes.quoting 100;
     yf_option_chain := fun _ _ => Raise (ProviderError "No options data");
     float_of_str := fun s =>
       if String.eqb s "1250.5" then Return 1250.5
       else if String.eqb s "900" then Return 900
       else Raise (ValueError "could not convert string to float");
     format_2f := fun _ => "";
     format_float := fun _ => "";
     pandas := Sorts.stable |}.

(** A live gateway showing 101 where the snapshot quotes 100. *)
Definition two_prices : Env :=
  Fakes.provider (Return true) 101 [] (Fakes.quoting 100)
    (Return {| puts := Some [Fakes.row 85 1 1.2 1.1; Fakes.row 90 1.8 2.2 2];
               calls := None |}).

(** The recommendation it leads to. *)
Definition two_prices_put : Recommendation :=
  {| action := SELL_PUT; rec_symbol := "XYZ"; rec_stock_price := 101;
     rec_strike := 90; rec_premium := 200; rec_return_pct := 2.22;
     rec_max_contracts := Some 1%Z; rec_max_premium := Some 200;
     description := "現價 $，賣出  Put，收 $/合約 (% 回報)" |}.

(** [isdigit] and [int] on ASCII digits. *)
Fixpoint digits (s : string) (acc : Z) : option Z :=
  match s with
  | EmptyString => Some acc
  | String c s' =>
      let n := nat_of_ascii c in
      if Nat.leb 48 n && Nat.leb n 57
      then digits s' (10 * acc + Z.of_nat (n - 48))%Z
      else None
  end.

Definition ascii_digits : Tools.StrOps :=
  {| Tools.isdigit := fun s =>
       negb (String.eqb s "")
       && match digits s 0 with Some _ => true | None => false end;
     Tools.int_of_str := fun s =>
       match digits s 0 with
       | Some n =>
           if String.eqb s ""
           then Raise (ValueError "invalid literal for int() with base 10")
           else Return n
       | None => Raise (ValueError "invalid literal for int() with base 10")
       end |}.

End MoreFakes.

(** * Properties *)

(** ** Rounding *)

Section Rounding.

Import PyFloat.


(** A tie goes to the even neighbour. *)
Lemma round_half_even_tie (a : Z) (d : positive) :
  (2 * (a mod Zpos d) = Zpos d)%Z -> Z.even (round_half_even a d) = true.
Proof.
  intros H. unfold round_half_even. rewrite H, Z.compare_refl.
  destruct (Z.even (a / Zpos d)) eqn:E; [exact E|].
  rewrite Z.even_succ, <- Z.negb_even, E. reflexivity.
Qed.


(** [int] never goes away from zero, and stays less than one off. *)
Lemma int_truncates (x : float) (n : Z) :
  int x = Return n ->
  exists a d, exact x = Some (a, d) /\ n = Z.quot a (Zpos d).
Proof.
  unfold int. destruct (exact x) as [[a d]|]; [|discriminate].
  intros [= <-]. now exists a, d.
Qed.

(** On a float that is not negative, [int] is the floor. *)
Lemma int_floor (x : float) (a : Z) (d : positive) :
  exact x = Some (a, d) -> (0 <= a)%Z -> int x = Return (a / Zpos d)%Z.
Proof.
  intros E Ha. unfold int. rewrite E. f_equal.
  apply Z.quot_div_nonneg; lia.
Qed.

End Rounding.

(** ** Sorting and selection *)

Section SelectionFacts.

Import PyFloat Pandas.

Context {A : Type}.

Lemma take_from (pre rows : list A) :
  take (pre ++ rows) (seq (List.length pre) (List.length rows)) = rows.
Proof.
  revert pre. induction rows as [|x rows IH]; intros pre; [reflexivity|].
  cbn [List.length seq]. unfold take. cbn [flat_map].
  rewrite nth_error_app2, Nat.sub_diag by lia. cbn [nth_error app].
  f_equal.
  specialize (IH (pre ++ [x])%list).
  rewrite <- app_assoc, length_app in IH. cbn [List.length app] in IH.
  rewrite Nat.add_1_r in IH. exact IH.
Qed.

Lemma take_perm (rows : list A) (positions : list nat) :
  Permutation positions (seq 0 (List.length rows)) ->
  Permutation (take rows positions) rows.
Proof.
  intros P. rewrite <- (take_from [] rows) at 2.
  unfold take. now apply Permutation_flat_map.
Qed.

(** [sort_values] keeps the rows. *)
Lemma sort_values_perm (pd : Sorting) (key : A -> float) (rows : list A) :
  Permutation (sort_values pd key rows) rows.
Proof.
  unfold sort_values. apply take_perm.
  rewrite <- (length_map key rows). apply sort_order_perm.
Qed.

Lemma locate_in_range (n : nat) (p : Z) :
  (- Z.of_nat n <= p < Z.of_nat n)%Z ->
  exists i, locate n p = Some i /\ (i < n)%nat.
Proof.
  intros H. unfold locate.
  destruct (Z.leb_spec 0 p) as [H0|H0].
  - destruct (Z.ltb_spec p (Z.of_nat n)); [|lia].
    exists (Z.to_nat p). split; [reflexivity|lia].
  - cbn [andb].
    destruct (Z.leb_spec (- Z.of_nat n) p); [|lia].
    destruct (Z.ltb_spec p 0); [|lia].
    exists (Z.to_nat (p + Z.of_nat n)). split; [reflexivity|lia].
Qed.

Lemma locate_of_nat (n i : nat) :
  (i < n)%nat -> locate n (Z.of_nat i) = Some i.
Proof.
  intros H. unfold locate.
  destruct (Z.leb_spec 0 (Z.of_nat i)); [|lia].
  destruct (Z.ltb_spec (Z.of_nat i) (Z.of_nat n)); [|lia].
  cbn [andb]. now rewrite Nat2Z.id.
Qed.

Lemma value_at_map (key : A -> float) (rows : list A) (i : nat) (r : A) :
  nth_error rows i = Some r -> value_at (map key rows) i = key r.
Proof.
  intros H. unfold value_at.
  rewrite (nth_indep _ nan (key r)).
  - rewrite map_nth. f_equal. now apply nth_error_nth.
  - rewrite length_map. apply nth_error_Some. congruence.
Qed.

End SelectionFacts.

(** ** The option-chain resolver *)

Section ChainResolver.

Import PyFloat Pandas PyStr IBWheel.

Local Open Scope string_scope.
Local Open Scope float_scope.

Ltac run := unfold bind, call, lift, ret, raise, try_except, get_world; simpl.

(** From a table with rows the selection returns one row, a row of the
    table, whatever the sort in use. *)
Lemma closest_rows_selects (pd : Sorting) (options : list OptionRow) (target : float) :
  options <> [] ->
  exists row, closest_rows pd options target = Return [row] /\ In row options.
Proof.
  intros Hne. unfold closest_rows.
  pose proof (sort_values_perm pd row_strike options) as P.
  set (sorted := sort_values pd row_strike options) in *.
  pose proof (argsort_length pd (map (distance target) sorted)) as L.
  pose proof (argsort_range pd (map (distance target) sorted)) as R.
  rewrite length_map in L, R.
  assert (Hn : (0 < List.length sorted)%nat).
  { rewrite (Permutation_length P). destruct options; [easy|simpl; lia]. }
  destruct (argsort pd (map (distance target) sorted)) as [|p rest];
    [simpl in L; lia|].
  cbn [firstn iloc].
  destruct (locate_in_range _ p (R p (or_introl eq_refl))) as (i & -> & Hi).
  destruct (nth_error sorted i) as [row|] eqn:E.
  - exists row. split; [reflexivity|].
    apply (Permutation_in _ P). now apply nth_error_In in E.
  - apply nth_error_None in E. lia.
Qed.

(** When no distance is NaN the row selected is at least distance. *)
Lemma closest_rows_least (pd : Sorting) (options : list OptionRow) (target : float)
    (sel : OptionRow) :
  closest_rows pd options target = Return [sel] ->
  (forall r, In r options -> is_nan (distance target r) = false) ->
  forall r, In r options -> (distance target sel <=? distance target r) = true.
Proof.
  unfold closest_rows. intros Hsel Hnan r Hr.
  pose proof (sort_values_perm pd row_strike options) as P.
  set (sorted := sort_values pd row_strike options) in *.
  assert (N : forall x, In x (map (distance target) sorted) -> is_nan x = false).
  { intros x Hx. apply in_map_iff in Hx. destruct Hx as (q & <- & Hq).
    apply Hnan. now apply (Permutation_in _ P). }
  destruct (argsort_ascending pd _ N) as (ps & E & Pp & Ha).
  rewrite length_map in Pp. rewrite E in Hsel.
  apply (Permutation_in _ (Permutation_sym P)) in Hr.
  apply In_nth_error in Hr. destruct Hr as (i & Hi).
  assert (Hlt : (i < List.length sorted)%nat)
    by (apply nth_error_Some; congruence).
  assert (Hin : In i ps)
    by (apply (Permutation_in _ (Permutation_sym Pp)), in_seq; lia).
  destruct ps as [|k ps']; [destruct Hin|].
  assert (Hk : (k < List.length sorted)%nat).
  { assert (In k (seq 0 (List.length sorted)))
      by (apply (Permutation_in _ Pp); now left).
    apply in_seq in H. lia. }
  cbn [map firstn iloc] in Hsel. rewrite (locate_of_nat _ _ Hk) in Hsel.
  destruct (nth_error sorted k) as [row|] eqn:Ek; [|discriminate].
  injection Hsel as ->.
  assert (F : fle (value_at (map (distance target) sorted) k)
                  (value_at (map (distance target) sorted) i) = true).
  { destruct Hin as [->|Hin]; [apply fle_refl|].
    apply StronglySorted_inv in Ha. destruct Ha as [_ Ha].
    rewrite Forall_forall in Ha. now apply Ha. }
  rewrite (value_at_map _ _ _ _ Ek), (value_at_map _ _ _ _ Hi) in F.
  apply fle_true_leb in F; [apply F|].
  apply Hnan. apply (Permutation_in _ P). now apply nth_error_In in Hi.
Qed.

(** When the snapshot has a price and the table has rows, the resolver
    returns the contract built from the row [closest_rows] selects. *)
Lemma resolver_selects (env : Env) (symbol : string) (otm_pct : float)
    (option_type : string) (w : World) (info : Info) (stock_price : float)
    (t : Z) (tf : float) (chain : OptionChain) (r0 : OptionRow) (rows : list OptionRow) :
  yf_info env symbol = Return info ->
  or_else (currentPrice info) (regularMarketPrice info) = Some stock_price ->
  truthy stock_price = true ->
  target_strike option_type stock_price otm_pct = Return t ->
  of_int t = Return tf ->
  yf_option_chain env symbol None = Return chain ->
  select_table option_type chain = Some (r0 :: rows) ->
  exists row,
    In row (r0 :: rows) /\
    closest_rows (pandas env) (r0 :: rows) tf = Return [row] /\
    _get_option_chain_yf env symbol otm_pct option_type w =
      (Return (OptionDict (option_data symbol stock_price row)),
       after_resolution symbol w).
Proof.
  intros Hinfo Hprice Htruthy Ht Htf Hchain Htable.
  destruct (closest_rows_selects (pandas env) (r0 :: rows) tf) as (row & Hsel & Hin);
    [discriminate|].
  exists row. split; [exact Hin|]. split; [exact Hsel|].
  unfold _get_option_chain_yf. run.
  rewrite Hinfo, Hprice, Htruthy. simpl. rewrite Ht, Hchain, Htable, Htf, Hsel.
  reflexivity.
Qed.

Lemma positive_cell_quoted (c : option float) :
  positive_cell c = (if quoted c then quote c else 0) /\
  (0 <? positive_cell c) = quoted c /\
  (positive_cell c =? 0) = negb (quoted c).
Proof.
  destruct c as [x|]; simpl; [|repeat split].
  destruct (0 <? x) eqn:E.
  - rewrite (ltb_zero_not_nan x E). simpl. rewrite E, (ltb_zero_neq x E). repeat split.
  - rewrite andb_false_r. repeat split.
Qed.

Lemma cell_or_zero_quoted (c : option float) :
  (0 <? cell_or_zero c) = quoted c /\
  (quoted c = true -> cell_or_zero c = quote c).
Proof.
  destruct c as [x|]; simpl; [|split; [reflexivity|discriminate]].
  destruct (is_nan x) eqn:N; simpl.
  - destruct (0 <? x) eqn:E.
    + apply ltb_zero_not_nan in E. congruence.
    + split; [reflexivity|discriminate].
  - split; reflexivity.
Qed.

(** The ladder of the code, on the cleaned quotes, is the ladder of the
    specification on the raw ones. *)
Lemma mid_price_pricing_ladder (bid ask last : option float) :
  mid_price (positive_cell bid) (positive_cell ask) (cell_or_zero last) =
  pricing_ladder bid ask last.
Proof.
  unfold mid_price, pricing_ladder.
  destruct (positive_cell_quoted bid) as (Hb & Hb1 & Hb2).
  destruct (positive_cell_quoted ask) as (Ha & Ha1 & Ha2).
  destruct (cell_or_zero_quoted last) as (Hl1 & Hl2).
  rewrite Hb1, Hb2, Ha1, Ha2, Hl1, Hb, Ha.
  destruct (quoted bid), (quoted ask), (quoted last); simpl; try reflexivity;
    now apply Hl2.
Qed.

End ChainResolver.

(** ** Claims on the option-chain resolver *)

Section ChainClaims.

Import PyFloat Pandas PyStr IBWheel.

Local Open Scope string_scope.
Local Open Scope float_scope.

(** C2, as the code has it: for every non-empty table and every target, and
    whatever sort pandas runs, the selection [closest_rows] returns exactly
    one row [sel], a row of the table; and when no distance to the target is
    NaN, no row of the table is nearer to the target than [sel].  Which of
    two rows at equal distance is selected is left to the sort. *)
Theorem closest_rows_nearest (pd : Sorting) (options : list OptionRow) (target : float) :
  options <> [] ->
  exists sel,
    closest_rows pd options target = Return [sel] /\
    In sel options /\
    ((forall r, In r options -> is_nan (distance target r) = false) ->
     forall r, In r options -> (distance target sel <=? distance target r) = true).
Proof.
  intros Hne.
  destruct (closest_rows_selects pd options target Hne) as (sel & Hsel & Hin).
  exists sel. split; [exact Hsel|]. split; [exact Hin|].
  intros Hnan. now apply closest_rows_least with pd.
Qed.

Lemma closest_rows_nearest_witness :
  [Fakes.row 100 0 0 0; Fakes.row 95 0 0 0] <> [] /\
  exists sel,
    closest_rows Sorts.stable [Fakes.row 100 0 0 0; Fakes.row 95 0 0 0] 97.5
      = Return [sel] /\
    In sel [Fakes.row 100 0 0 0; Fakes.row 95 0 0 0] /\
    ((forall r, In r [Fakes.row 100 0 0 0; Fakes.row 95 0 0 0] ->
                is_nan (distance 97.5 r) = false) ->
     forall r, In r [Fakes.row 100 0 0 0; Fakes.row 95 0 0 0] ->
               (distance 97.5 sel <=? distance 97.5 r) = true).
Proof.
  split; [discriminate|].
  apply (closest_rows_nearest Sorts.stable
           [Fakes.row 100 0 0 0; Fakes.row 95 0 0 0] 97.5).
  discriminate.
Defined.

(** C2 as stated fails on the tie.  With numpy's quicksort, on the eighteen
    strikes 60, 65, ..., 145 and the target 97.5, the strikes 95 and 100 are
    both 2.5 away and the row selected is that of 100, not the first of the
    two in ascending order of strike; the positions numpy returns for the
    distances start with 8, the position of 100.  The same happens through
    the resolver: a snapshot price of 27.8 gives the put target 25, and on
    the strikes 2, 4, ..., 36 the contract returned is the one at 26, where
    24 is as near. *)
Lemma closest_rows_tie_takes_higher_strike :
  closest_rows Sorts.quicksort Fakes.ladder 97.5 = Return [Fakes.row 100 0 0 0] /\
  In (Fakes.row 95 0 0 0) Fakes.ladder /\
  distance 97.5 (Fakes.row 95 0 0 0) = distance 97.5 (Fakes.row 100 0 0 0) /\
  (row_strike (Fakes.row 95 0 0 0) <? row_strike (Fakes.row 100 0 0 0)) = true /\
  Numpy.aquicksort (map (distance 97.5) Fakes.ladder)
    = [8; 7; 6; 9; 5; 10; 4; 11; 3; 12; 2; 13; 1; 14; 15; 0; 16; 17]%nat /\
  target_strike "PUT" 27.8 10 = Return 25%Z /\
  fst (_get_option_chain_yf Fakes.even_strikes "XYZ" 10 "PUT" Fakes.fresh)
    = Return (OptionDict (option_data "XYZ" 27.8 (Fakes.row 26 0 0 0))) /\
  In (Fakes.row 24 0 0 0) (map (fun s => Fakes.row s 0 0 0) Fakes.evens) /\
  distance 25 (Fakes.row 24 0 0 0) = distance 25 (Fakes.row 26 0 0 0).
Proof.
  split; [vm_compute; reflexivity|].
  split; [unfold Fakes.ladder; simpl; tauto|].
  split; [vm_compute; reflexivity|].
  split; [vm_compute; reflexivity|].
  split; [vm_compute; reflexivity|].
  split; [vm_compute; reflexivity|].
  split; [vm_compute; reflexivity|].
  split; [unfold Fakes.evens; simpl; tauto|].
  vm_compute; reflexivity.
Qed.

(** The tie of the specification under the two sorts.  On the two strikes 95
    and 100 both select 95, numpy sorting so short a table by insertion; on
    the eighteen strikes the stable sort selects 95 and numpy's quicksort
    100.  On the strikes 2, 4, ..., 36 and the target 25 they select 24 and
    26.  Away from a tie they agree. *)
Example closest_rows_tie :
  closest_rows Sorts.stable [Fakes.row 100 0 0 0; Fakes.row 95 0 0 0] 97.5
    = Return [Fakes.row 95 0 0 0] /\
  closest_rows Sorts.quicksort [Fakes.row 100 0 0 0; Fakes.row 95 0 0 0] 97.5
    = Return [Fakes.row 95 0 0 0] /\
  closest_rows Sorts.stable Fakes.ladder 97.5 = Return [Fakes.row 95 0 0 0] /\
  closest_rows Sorts.quicksort Fakes.ladder 97.5 = Return [Fakes.row 100 0 0 0] /\
  closest_rows Sorts.stable (map (fun s => Fakes.row s 0 0 0) Fakes.evens) 25
    = Return [Fakes.row 24 0 0 0] /\
  closest_rows Sorts.quicksort (map (fun s => Fakes.row s 0 0 0) Fakes.evens) 25
    = Return [Fakes.row 26 0 0 0] /\
  closest_rows Sorts.stable Fakes.ladder 97 = Return [Fakes.row 95 0 0 0] /\
  closest_rows Sorts.quicksort Fakes.ladder 97 = Return [Fakes.row 95 0 0 0] /\
  closest_rows Sorts.quicksort
    [Fakes.row 90 0 0 0; Fakes.row 110 0 0 0; Fakes.row 100 0 0 0;
     Fakes.row 95 0 0 0; Fakes.row 105 0 0 0] 97
    = Return [Fakes.row 95 0 0 0].
Proof. repeat split; vm_compute; reflexivity. Qed.

End ChainClaims.

Section LadderClaim.

Import PyFloat Pandas PyStr IBWheel.

Local Open Scope string_scope.
Local Open Scope float_scope.

(** C3: the mid price the code computes from the cleaned quotes is, for all
    bid, ask and last (present or not, any value), the ladder of the
    specification: both bid and ask above zero give their mean, else bid alone,
    else ask alone, else last when it is above zero, else 0.  When the snapshot
    has a price and the table has rows the resolver returns a contract, never
    an error, built from a row of the table, and its premium is that mid price
    times 100, also when it is 0. *)
Theorem mid_price_ladder (env : Env) (symbol : string) (otm_pct : float)
    (option_type : string) (w : World) (info : Info) (stock_price : float)
    (t : Z) (tf : float) (chain : OptionChain) (r0 : OptionRow) (rows : list OptionRow) :
  yf_info env symbol = Return info ->
  or_else (currentPrice info) (regularMarketPrice info) = Some stock_price ->
  truthy stock_price = true ->
  target_strike option_type stock_price otm_pct = Return t ->
  of_int t = Return tf ->
  yf_option_chain env symbol None = Return chain ->
  select_table option_type chain = Some (r0 :: rows) ->
  (forall bid ask last,
     mid_price (positive_cell bid) (positive_cell ask) (cell_or_zero last)
     = pricing_ladder bid ask last) /\
  exists row,
    In row (r0 :: rows) /\
    fst (_get_option_chain_yf env symbol otm_pct option_type w)
      = Return (OptionDict (option_data symbol stock_price row)) /\
    opt_premium (option_data symbol stock_price row)
      = pricing_ladder (row_bid row) (row_ask row) (row_lastPrice row) * 100.
Proof.
  intros Hinfo Hprice Htruthy Ht Htf Hchain Htable.
  split; [exact mid_price_pricing_ladder|].
  destruct (resolver_selects env symbol otm_pct option_type w info stock_price
              t tf chain r0 rows Hinfo Hprice Htruthy Ht Htf Hchain Htable)
    as (row & Hin & _ & Hres).
  exists row. split; [exact Hin|]. split; [now rewrite Hres|].
  simpl. now rewrite mid_price_pricing_ladder.
Qed.

(** At 5% out of the money the put nearest to 95 has no quote at all: it is
    returned with premium 0. *)
Lemma mid_price_ladder_witness :
  (forall bid ask last,
     mid_price (positive_cell bid) (positive_cell ask) (cell_or_zero last)
     = pricing_ladder bid ask last) /\
  exists row,
    In row [Fakes.row 100 3 3.2 3.1; Fakes.row 85 1 1.2 1.1;
            Fakes.row 90 1.8 2.2 2; Fakes.row 95 0 0 0] /\
    fst (_get_option_chain_yf Fakes.offline "XYZ" 5 "PUT" Fakes.fresh)
      = Return (OptionDict (option_data "XYZ" 100 row)) /\
    opt_premium (option_data "XYZ" 100 row)
      = pricing_ladder (row_bid row) (row_ask row) (row_lastPrice row) * 100.
Proof.
  apply (mid_price_ladder Fakes.offline "XYZ" 5 "PUT" Fakes.fresh
           {| currentPrice := Some 100; regularMarketPrice := None |} 100
           95%Z 95
           {| puts := Some [Fakes.row 100 3 3.2 3.1; Fakes.row 85 1 1.2 1.1;
                            Fakes.row 90 1.8 2.2 2; Fakes.row 95 0 0 0];
              calls := None |});
    reflexivity.
Defined.

(** The rungs of the ladder on the quotes of the specification. *)
Example pricing_ladder_rungs :
  pricing_ladder (Some 1) (Some 1.5) (Some 9) = 1.25 /\
  pricing_ladder (Some 1) (Some 0) (Some 9) = 1 /\
  pricing_ladder (Some 0) (Some 1.5) (Some 9) = 1.5 /\
  pricing_ladder (Some 0) (Some 0) (Some 2) = 2 /\
  pricing_ladder (Some 0) (Some 0) (Some 0) = 0 /\
  pricing_ladder None (Some nan) None = 0 /\
  fst (_get_option_chain_yf Fakes.offline "XYZ" 5 "PUT" Fakes.fresh)
    = Return (OptionDict (option_data "XYZ" 100 (Fakes.row 95 0 0 0))) /\
  opt_premium (option_data "XYZ" 100 (Fakes.row 95 0 0 0)) = 0.
Proof. repeat split; vm_compute; reflexivity. Qed.

End LadderClaim.

Section TargetClaim.

Import PyFloat Pandas PyStr IBWheel.

Local Open Scope string_scope.
Local Open Scope float_scope.


(** Targets of the 10% default: 45 gives 40 for a put (40.5 is a tie and goes
    to the even side) and 50 for a call; 100 gives 90 and 110. *)
Example target_strike_values :
  target_strike "PUT" 45 10 = Return 40%Z /\
  target_strike "CALL" 45 10 = Return 50%Z /\
  target_strike "PUT" 100 10 = Return 90%Z /\
  target_strike "CALL" 100 10 = Return 110%Z /\
  target_strike "put" 97.3 0 = Return 97%Z.
Proof. repeat split; vm_compute; reflexivity. Qed.

(** A product that is not finite makes [round] raise, which the resolver
    turns into an error dictionary. *)
Example target_strike_overflow :
  target_strike "CALL" 1e308 1e10
    = Raise (OverflowError "cannot convert float infinity to integer").
Proof. vm_compute. reflexivity. Qed.

End TargetClaim.

Section InterfaceClaims.

Import PyFloat Pandas PyStr IBWheel.

Local Open Scope string_scope.
Local Open Scope float_scope.

Ltac run := unfold bind, call, lift, ret, raise, try_except, get_world; simpl.

(** A resolution sends the snapshot request and at most one chain request,
    the latter with no date. *)
Lemma resolver_requests (env : Env) (symbol : string) (otm_pct : float)
    (option_type : string) (w : World) :
  sent (snd (_get_option_chain_yf env symbol otm_pct option_type w))
    = YFInfo symbol :: sent w \/
  sent (snd (_get_option_chain_yf env symbol otm_pct option_type w))
    = YFOptionChain symbol None :: YFInfo symbol :: sent w.
Proof.
  unfold _get_option_chain_yf. run.
  destruct (yf_info env symbol) as [info|e]; simpl; [|now left].
  destruct (or_else (currentPrice info) (regularMarketPrice info)) as [p|]; simpl;
    [|now left].
  destruct (truthy p); simpl; [|now left].
  destruct (target_strike option_type p otm_pct) as [t|e]; simpl; [|now left].
  destruct (yf_option_chain env symbol None) as [chain|e]; simpl; [|now right].
  destruct (select_table option_type chain) as [[|r0 rows]|]; simpl; try now right.
  destruct (of_int t) as [tf|e]; simpl; [|now right].
  destruct (closest_rows (pandas env) (r0 :: rows) tf) as [[|row rest]|e]; simpl; now right.
Qed.

(** C9: [get_option_chain] does not look at [expiration]: any two values give
    the same result and the same world; and a chain request it sends carries
    no date, so the provider serves its default expiration. *)
Theorem get_option_chain_ignores_expiration (env : Env) (symbol : string)
    (otm_pct : float) (option_type : string) (e1 e2 : option string) (w : World) :
  get_option_chain env symbol otm_pct option_type e1 w
    = get_option_chain env symbol otm_pct option_type e2 w /\
  (forall s date,
     In (YFOptionChain s date)
        (sent (snd (get_option_chain env symbol otm_pct option_type e1 w))) ->
     date = None \/ In (YFOptionChain s date) (sent w)).
Proof.
  split; [reflexivity|].
  intros s date.
  assert (E : get_option_chain env symbol otm_pct option_type e1 w
              = _get_option_chain_yf env symbol otm_pct option_type w).
  { unfold get_option_chain. run.
    destruct (_get_option_chain_yf env symbol otm_pct option_type w) as [[d|e] w'];
      [destruct (has_error d)|]; reflexivity. }
  rewrite E.
  destruct (resolver_requests env symbol otm_pct option_type w) as [-> | ->]; simpl.
  - intros [H|H]; [discriminate|now right].
  - intros [H|[H|H]]; [left; congruence|discriminate|now right].
Qed.

Example get_option_chain_expiration_example :
  get_option_chain Fakes.offline "XYZ" 10 "PUT" (Some "20270115") Fakes.fresh
    = get_option_chain Fakes.offline "XYZ" 10 "PUT" None Fakes.fresh /\
  sent (snd (get_option_chain Fakes.offline "XYZ" 10 "PUT" (Some "20270115") Fakes.fresh))
    = [YFOptionChain "XYZ" None; YFInfo "XYZ"].
Proof. split; vm_compute; reflexivity. Qed.




(** Lower case is accepted for PUT, and anything else is a call: here the
    service has no calls table. *)
Example option_type_examples :
  fst (_get_option_chain_yf Fakes.offline "XYZ" 10 "put" Fakes.fresh)
    = Return (OptionDict (option_data "XYZ" 100 (Fakes.row 90 1.8 2.2 2))) /\
  fst (_get_option_chain_yf Fakes.offline "XYZ" 10 "P" Fakes.fresh)
    = Return (ErrorDict "無期權數據") /\
  fst (_get_option_chain_yf Fakes.offline "XYZ" 10 "" Fakes.fresh)
    = Return (ErrorDict "無期權數據").
Proof. repeat split; vm_compute; reflexivity. Qed.

End InterfaceClaims.

(** ** The price resolver *)

Section PriceClaims.

Import PyFloat Pandas PyStr IBWheel.

Local Open Scope string_scope.
Local Open Scope float_scope.

Ltac run := unfold bind, call, lift, ret, raise, try_except, get_world; simpl.

Lemma poll_sound (read : nat -> outcome float) (n i : nat) (p : float) :
  poll read n i = Return (Some p) -> truthy p = true /\ is_nan p = false.
Proof.
  revert i. induction n as [|n IH]; intros i; simpl; [discriminate|].
  destruct (read i) as [x|e]; [|discriminate].
  destruct (truthy x) eqn:T; simpl; [|apply IH].
  destruct (is_nan x) eqn:N; simpl; [apply IH|].
  intros [= <-]. now split.
Qed.

Local Arguments poll : simpl never.

Lemma ensure_connection_returns (env : Env) (w : World) :
  exists up w', _ensure_connection env w = (Return up, w').
Proof.
  unfold _ensure_connection. run.
  destruct (_connected w && isConnected w); [now eexists _, _|].
  destruct (ib_connect env); now eexists _, _.
Qed.

(** A price of the primary source is true and not NaN. *)
Lemma primary_price_sound (env : Env) (symbol : string) (w w' : World) (p : float) :
  primary_price env symbol w = (Return (Some p), w') ->
  truthy p = true /\ is_nan p = false.
Proof.
  unfold primary_price. run.
  destruct (ib_qualifyContracts env symbol); [|discriminate].
  destruct (poll (ib_marketPrice env symbol) 10 0) as [[live|]|e] eqn:L; simpl.
  - intros [= <- _]. now apply poll_sound in L.
  - destruct (poll (ib_close env symbol) 10 0) as [[frozen|]|e] eqn:F; simpl;
      try discriminate.
    intros [= <- _]. now apply poll_sound in F.
  - discriminate.
Qed.

Lemma secondary_price_returns (env : Env) (symbol : string) (w : World) :
  exists r w',
    secondary_price env symbol w = (Return r, w') /\
    (forall p, r = Some p -> truthy p = true) /\
    match yf_info env symbol with
    | Return info =>
        truthy_opt (or_else (currentPrice info) (regularMarketPrice info)) = false ->
        r = None
    | Raise _ => r = None
    end.
Proof.
  unfold secondary_price. run.
  destruct (yf_info env symbol) as [info|e]; simpl.
  - destruct (truthy_opt (or_else (currentPrice info) (regularMarketPrice info))) eqn:T;
      eexists _, _; (split; [reflexivity|]); split; try discriminate.
    + intros p E. now rewrite E in T.
    + reflexivity.
  - eexists _, _. split; [reflexivity|]. split; [discriminate|reflexivity].
Qed.

Lemma get_stock_price_cases (env : Env) (symbol : string) (w : World) :
  (exists w1 w2 p,
     _ensure_connection env w = (Return true, w1) /\
     primary_price env symbol w1 = (Return (Some p), w2) /\
     get_stock_price env symbol w = (Return (Some p), w2)) \/
  (exists w1,
     primary_fails env symbol w /\
     get_stock_price env symbol w = secondary_price env symbol w1).
Proof.
  unfold get_stock_price, primary_fails. run.
  destruct (ensure_connection_returns env w) as (up & w1 & E). rewrite E.
  destruct up.
  - destruct (primary_price env symbol w1) as [[[p|]|e] w2] eqn:P.
    + left. now exists w1, w2, p.
    + right. exists w2. split; [|reflexivity].
      intros w1' [= <-] p. now rewrite P.
    + right. exists w2. split; [|reflexivity].
      intros w1' [= <-] p. now rewrite P.
  - right. exists w1. split; [|reflexivity]. intros w1' [=].
Qed.

(** C4, as the code has it: [get_stock_price] always returns, a price or
    [None]; a price it returns is never zero, and one taken from the primary
    source is not NaN either; when both sources fail the result is [None].
    The sign and the finiteness of the price are not looked at. *)
Theorem get_stock_price_never_zero (env : Env) (symbol : string) (w : World) :
  (exists r, fst (get_stock_price env symbol w) = Return r) /\
  (forall p, fst (get_stock_price env symbol w) = Return (Some p) -> (p =? 0) = false) /\
  (forall w1 w2 p,
     _ensure_connection env w = (Return true, w1) ->
     primary_price env symbol w1 = (Return (Some p), w2) ->
     get_stock_price env symbol w = (Return (Some p), w2) /\ is_nan p = false) /\
  (primary_fails env symbol w -> secondary_fails env symbol ->
   fst (get_stock_price env symbol w) = Return None).
Proof.
  destruct (get_stock_price_cases env symbol w)
    as [(w1 & w2 & p & E & P & G)|(w1 & Hfail & G)].
  - destruct (primary_price_sound _ _ _ _ _ P) as [T N].
    split; [|split; [|split]].
    + exists (Some p). now rewrite G.
    + rewrite G. simpl. intros q [= <-]. unfold truthy in T.
      now destruct (p =? 0).
    + intros w1' w2' p' E' P'. rewrite E in E'. injection E' as <-.
      rewrite P in P'. injection P' as <- <-. now split.
    + intros F _. exfalso. apply (F w1 E p). now rewrite P.
  - destruct (secondary_price_returns env symbol w1) as (r & w' & S & T & N).
    rewrite S in G. split; [|split; [|split]].
    + exists r. now rewrite G.
    + rewrite G. simpl. intros q [= ->]. specialize (T q eq_refl).
      unfold truthy in T. now destruct (q =? 0).
    + intros w1' w2' p' E' P'. exfalso. apply (Hfail w1' E' p'). now rewrite P'.
    + intros _ F. rewrite G. simpl. f_equal. unfold secondary_fails in F.
      destruct (yf_info env symbol); [now apply N|exact N].
Qed.

(** C4 as stated fails: a gateway whose ticker shows -1, or infinity, has
    that price returned, though it is not positive, or not finite. *)
Lemma get_stock_price_negative :
  fst (get_stock_price
         (Fakes.provider (Return true) (-1) [] (Fakes.quoting 100) (Raise (ProviderError "")))
         "XYZ" Fakes.fresh) = Return (Some (-1)) /\
  (0 <? -1) = false /\
  fst (get_stock_price
         (Fakes.provider (Return true) infinity [] (Fakes.quoting 100) (Raise (ProviderError "")))
         "XYZ" Fakes.fresh) = Return (Some infinity) /\
  is_finite infinity = false.
Proof. repeat split; vm_compute; reflexivity. Qed.

(** The primary source filters NaN out, the secondary one does not: NaN is
    true in Python, so a NaN in the snapshot is returned as the price. *)
Example get_stock_price_nan_snapshot :
  fst (get_stock_price
         (Fakes.provider (Return false) nan [] (Fakes.quoting nan) (Raise (ProviderError "")))
         "XYZ" Fakes.fresh) = Return (Some nan) /\
  fst (get_stock_price
         (Fakes.provider (Return true) nan [] (Fakes.quoting 0) (Raise (ProviderError "")))
         "XYZ" Fakes.fresh) = Return None /\
  fst (get_stock_price
         (Fakes.provider (Return true) nan [] (Raise (ProviderError "timeout")) (Raise (ProviderError "")))
         "XYZ" Fakes.fresh) = Return None.
Proof. repeat split; vm_compute; reflexivity. Qed.

End PriceClaims.

(** ** The recommendation *)

Section Recommendation.

Import PyFloat Pandas PyStr IBWheel.

Local Open Scope string_scope.
Local Open Scope float_scope.

(** Once the price and the portfolio are known, the share count picks the
    branch. *)
Lemma wheel_recommendation_branches (env : Env) (symbol : string)
    (cash_available : option float) (w w1 w2 : World) (p : float) (portfolio : pydict) :
  get_stock_price env symbol w = (Return (Some p), w1) ->
  truthy p = true ->
  get_portfolio env w1 = (Return portfolio, w2) ->
  wheel_recommendation env symbol cash_available w =
    if has_stock portfolio symbol
    then sell_call env symbol p w2
    else sell_put env symbol cash_available p w2.
Proof.
  intros Hp Ht Hf. unfold wheel_recommendation, bind.
  rewrite Hp. cbn [truthy_opt]. rewrite Ht. cbn [negb]. rewrite Hf.
  now destruct (has_stock portfolio symbol).
Qed.

Lemma has_error_inv (d : pydict) : has_error d = true -> exists msg, d = ErrorDict msg.
Proof. destruct d; try discriminate. now eexists. Qed.

(** An error of the resolver ends either branch. *)
Lemma sell_put_error (env : Env) (symbol : string) (cash_available : option float)
    (p : float) (w w' : World) (n : Z) (d : pydict) :
  max_contracts cash_available p = Return n ->
  get_option_chain env symbol 10 "PUT" None w = (Return d, w') ->
  has_error d = true ->
  sell_put env symbol cash_available p w = (Return d, w').
Proof.
  intros Hn Hd He. unfold sell_put, bind, lift. rewrite Hn, Hd, He. reflexivity.
Qed.

Lemma sell_call_error (env : Env) (symbol : string) (p : float) (w w' : World) (d : pydict) :
  get_option_chain env symbol 10 "CALL" None w = (Return d, w') ->
  has_error d = true ->
  sell_call env symbol p w = (Return d, w').
Proof.
  intros Hd He. unfold sell_call, bind. rewrite Hd, He. reflexivity.
Qed.

(** What a recommendation of either branch is made of. *)
Lemma sell_put_inv (env : Env) (symbol : string) (cash_available : option float)
    (p : float) (w w' : World) (r : Recommendation) :
  sell_put env symbol cash_available p w = (Return (RecommendationDict r), w') ->
  exists n d pct total,
    max_contracts cash_available p = Return n /\
    get_option_chain env symbol 10 "PUT" None w = (Return d, w') /\
    has_error d = false /\
    put_return_pct (get_premium d) (get_strike d) = Return pct /\
    times (get_premium d) n = Return total /\
    action r = SELL_PUT /\
    rec_stock_price r = p /\
    rec_strike r = get_strike d /\
    rec_premium r = round2 (get_premium d) /\
    rec_return_pct r = round2 pct /\
    rec_max_contracts r = Some n /\
    rec_max_premium r = Some (round2 total).
Proof.
  unfold sell_put, bind, lift, ret.
  destruct (max_contracts cash_available p) as [n|e]; [|discriminate].
  destruct (get_option_chain env symbol 10 "PUT" None w) as [[d|e] w1]; [|discriminate].
  destruct (has_error d) eqn:He.
  - destruct (has_error_inv d He) as [msg ->]. discriminate.
  - destruct (put_return_pct (get_premium d) (get_strike d)) as [pct|e] eqn:Hpct;
      [|discriminate].
    destruct (times (get_premium d) n) as [total|e] eqn:Htot; [|discriminate].
    intros [= <- <-]. exists n, d, pct, total. repeat split; assumption.
Qed.

Lemma sell_call_inv (env : Env) (symbol : string) (p : float) (w w' : World)
    (r : Recommendation) :
  sell_call env symbol p w = (Return (RecommendationDict r), w') ->
  exists d pct,
    get_option_chain env symbol 10 "CALL" None w = (Return d, w') /\
    has_error d = false /\
    call_return_pct (get_premium d) p = Return pct /\
    action r = SELL_CALL /\
    rec_stock_price r = p /\
    rec_strike r = get_strike d /\
    rec_premium r = round2 (get_premium d) /\
    rec_return_pct r = round2 pct /\
    rec_max_contracts r = None /\
    rec_max_premium r = None.
Proof.
  unfold sell_call, bind, lift, ret.
  destruct (get_option_chain env symbol 10 "CALL" None w) as [[d|e] w1]; [|discriminate].
  destruct (has_error d) eqn:He.
  - destruct (has_error_inv d He) as [msg ->]. discriminate.
  - destruct (call_return_pct (get_premium d) p) as [pct|e] eqn:Hpct; [|discriminate].
    intros [= <- <-]. exists d, pct. repeat split; assumption.
Qed.

Lemma has_stock_spec (portfolio : pydict) (symbol : string) :
  has_stock portfolio symbol = true <->
  exists folio pos,
    portfolio = PortfolioDict folio /\
    In pos (positions folio) /\
    pos_symbol pos = symbol /\
    (0 <? shares pos) = true.
Proof.
  split.
  - destruct portfolio as [msg|d|folio|r]; simpl; try discriminate.
    intros H. apply existsb_exists in H. destruct H as (pos & Hin & H).
    apply andb_prop in H. destruct H as [Hs Hc]. apply String.eqb_eq in Hs.
    now exists folio, pos.
  - intros (folio & pos & -> & Hin & Hs & Hc). simpl.
    apply existsb_exists. exists pos. split; [exact Hin|].
    rewrite Hc, andb_true_r. now apply String.eqb_eq.
Qed.

End Recommendation.

Section ReturnRate.

Import PyFloat IBWheel.

Local Open Scope float_scope.


(** The guarded division of either branch never raises. *)
Lemma put_return_pct_returns (premium strike : float) :
  put_return_pct premium strike =
  Return (if 0 <? strike * 100 then premium / (strike * 100) * 100 else 0).
Proof.
  unfold put_return_pct, div.
  destruct (0 <? strike * 100) eqn:E; [|reflexivity].
  now rewrite (ltb_zero_neq _ E).
Qed.

Lemma call_return_pct_returns (premium stock_price : float) :
  call_return_pct premium stock_price =
  Return (if 0 <? stock_price then premium / stock_price * 100 else 0).
Proof.
  unfold call_return_pct, div.
  destruct (0 <? stock_price) eqn:E; [|reflexivity].
  now rewrite (ltb_zero_neq _ E).
Qed.

End ReturnRate.

(** ** Claims on the recommendation *)

Section RecommendationClaims.

Import PyFloat Pandas PyStr IBWheel.

Local Open Scope string_scope.
Local Open Scope float_scope.

(** With cash given and not zero, the count is the quotient cut toward
    zero. *)
Lemma max_contracts_given (cash stock_price : float) :
  truthy cash = true ->
  (stock_price * 100 =? 0) = false ->
  max_contracts (Some cash) stock_price = int (cash / (stock_price * 100)).
Proof.
  intros Hc Hp. unfold max_contracts, div. simpl. now rewrite Hc, Hp.
Qed.

Example max_contracts_values :
  max_contracts (Some 10000) 45 = Return 2%Z /\
  max_contracts (Some 20000) 100 = Return 2%Z /\
  max_contracts (Some 99) 1 = Return 0%Z /\
  max_contracts (Some (-150)) 1 = Return (-1)%Z /\
  max_contracts None 45 = Return 1%Z /\
  max_contracts (Some nan) 45 = Raise (ValueError "cannot convert float NaN to integer").
Proof. repeat split; vm_compute; reflexivity. Qed.

(** C1: what the code does when [cash_available] is passed as 0: the test
    [if cash_available:] is false for 0 as it is for [None], so the SELL_PUT
    branch reports one contract, for every spot price, where the count
    [floor (0 / (spot * 100))] is 0. *)
Theorem max_contracts_zero_cash (stock_price : float) :
  max_contracts (Some 0) stock_price = Return 1%Z /\
  max_contracts None stock_price = Return 1%Z /\
  exists r,
    fst (wheel_recommendation (Fakes.broker []) "XYZ" (Some 0) Fakes.fresh)
      = Return (RecommendationDict r) /\
    action r = SELL_PUT /\
    rec_max_contracts r = Some 1%Z /\
    rec_max_premium r = Some 200.
Proof.
  split; [reflexivity|]. split; [reflexivity|].
  eexists. split; [vm_compute; reflexivity|]. repeat split.
Qed.

(** C5: the branch is a function of the share count alone.  Once the price
    is known, the recommendation is the SELL_CALL branch when [has_stock]
    holds and the SELL_PUT branch otherwise; [has_stock] holds exactly when
    the portfolio lists a position in the symbol with a share count above
    zero; an unavailable portfolio (an error dictionary) and positions whose
    count is zero or negative give SELL_PUT; and a recommendation of either
    branch carries the action of its branch. *)
Theorem branch_by_share_count (env : Env) (symbol : string)
    (cash_available : option float) (w w1 w2 : World) (p : float) (portfolio : pydict) :
  get_stock_price env symbol w = (Return (Some p), w1) ->
  truthy p = true ->
  get_portfolio env w1 = (Return portfolio, w2) ->
  wheel_recommendation env symbol cash_available w
    = (if has_stock portfolio symbol
       then sell_call env symbol p w2
       else sell_put env symbol cash_available p w2) /\
  (has_stock portfolio symbol = true <->
   exists folio pos,
     portfolio = PortfolioDict folio /\
     In pos (positions folio) /\
     pos_symbol pos = symbol /\
     (0 <? shares pos) = true) /\
  (has_error portfolio = true -> has_stock portfolio symbol = false) /\
  (forall folio,
     portfolio = PortfolioDict folio ->
     (forall pos, In pos (positions folio) -> pos_symbol pos = symbol ->
                  (shares pos <=? 0) = true) ->
     has_stock portfolio symbol = false) /\
  (forall r w3,
     wheel_recommendation env symbol cash_available w = (Return (RecommendationDict r), w3) ->
     action r = if has_stock portfolio symbol then SELL_CALL else SELL_PUT).
Proof.
  intros Hp Ht Hf.
  pose proof (wheel_recommendation_branches env symbol cash_available w w1 w2 p portfolio
                Hp Ht Hf) as Hb.
  split; [exact Hb|]. split; [apply has_stock_spec|]. split; [|split].
  - intros He. destruct (has_error_inv _ He) as [msg ->]. reflexivity.
  - intros folio -> Hall.
    destruct (has_stock (PortfolioDict folio) symbol) eqn:E; [|reflexivity].
    apply has_stock_spec in E. destruct E as (folio' & pos & [= <-] & Hin & Hs & Hc).
    specialize (Hall pos Hin Hs). apply leb_not_ltb in Hall. congruence.
  - intros r w3. rewrite Hb. destruct (has_stock portfolio symbol); intros H.
    + apply sell_call_inv in H. destruct H as (d & pct & _ & _ & _ & Ha & _). exact Ha.
    + apply sell_put_inv in H.
      destruct H as (n & d & pct & total & _ & _ & _ & _ & _ & Ha & _). exact Ha.
Qed.

(** Fifty shares of XYZ held: the call branch.  *)
Lemma branch_by_share_count_witness :
  get_stock_price (Fakes.broker [Fakes.holding "XYZ" 50]) "XYZ" Fakes.fresh
    = (Return (Some 100),
       snd (get_stock_price (Fakes.broker [Fakes.holding "XYZ" 50]) "XYZ" Fakes.fresh)) /\
  truthy 100 = true /\
  wheel_recommendation (Fakes.broker [Fakes.holding "XYZ" 50]) "XYZ" None Fakes.fresh
    = sell_call (Fakes.broker [Fakes.holding "XYZ" 50]) "XYZ" 100
        (snd (get_portfolio (Fakes.broker [Fakes.holding "XYZ" 50])
                (snd (get_stock_price (Fakes.broker [Fakes.holding "XYZ" 50]) "XYZ"
                        Fakes.fresh)))).
Proof.
  split; [reflexivity|]. split; [reflexivity|].
  exact (proj1 (branch_by_share_count
                  (Fakes.broker [Fakes.holding "XYZ" 50]) "XYZ" None Fakes.fresh
                  (snd (get_stock_price (Fakes.broker [Fakes.holding "XYZ" 50]) "XYZ"
                          Fakes.fresh))
                  (snd (get_portfolio (Fakes.broker [Fakes.holding "XYZ" 50])
                          (snd (get_stock_price (Fakes.broker [Fakes.holding "XYZ" 50])
                                  "XYZ" Fakes.fresh))))
                  100
                  (PortfolioDict
                     {| account := empty_account;
                        positions := stock_positions [Fakes.holding "XYZ" 50] |})
                  eq_refl eq_refl eq_refl)).
Defined.

(** The share counts of the specification: 50 gives SELL_CALL; 0, -10, a
    position in another symbol and a broker that cannot be reached give
    SELL_PUT. *)
Example branch_examples :
  (exists r, fst (wheel_recommendation (Fakes.broker [Fakes.holding "XYZ" 50])
                    "XYZ" None Fakes.fresh) = Return (RecommendationDict r) /\
             action r = SELL_CALL /\ rec_strike r = 110) /\
  (exists r, fst (wheel_recommendation (Fakes.broker [Fakes.holding "XYZ" 0])
                    "XYZ" None Fakes.fresh) = Return (RecommendationDict r) /\
             action r = SELL_PUT /\ rec_strike r = 90) /\
  (exists r, fst (wheel_recommendation (Fakes.broker [Fakes.holding "XYZ" (-10)])
                    "XYZ" None Fakes.fresh) = Return (RecommendationDict r) /\
             action r = SELL_PUT) /\
  (exists r, fst (wheel_recommendation (Fakes.broker [Fakes.holding "ABC" 50])
                    "XYZ" None Fakes.fresh) = Return (RecommendationDict r) /\
             action r = SELL_PUT) /\
  (fst (get_portfolio Fakes.offline Fakes.fresh) = Return (ErrorDict "無法連接 IB") /\
   exists r, fst (wheel_recommendation Fakes.offline "XYZ" None Fakes.fresh)
               = Return (RecommendationDict r) /\
             action r = SELL_PUT).
Proof.
  repeat split; try (eexists; split; [vm_compute; reflexivity|]); repeat split;
    vm_compute; reflexivity.
Qed.

Lemma get_option_chain_resolver (env : Env) (symbol : string) (otm_pct : float)
    (option_type : string) (expiration : option string) (w : World) :
  get_option_chain env symbol otm_pct option_type expiration w
    = _get_option_chain_yf env symbol otm_pct option_type w.
Proof.
  unfold get_option_chain, bind, ret.
  destruct (_get_option_chain_yf env symbol otm_pct option_type w) as [[d|e] w'];
    [destruct (has_error d)|]; reflexivity.
Qed.

(** C7: an error dictionary [d] that the resolver returns ends
    [wheel_recommendation] with [d] itself, in the SELL_PUT branch (which
    calls the resolver once the contract count is computed) and in the
    SELL_CALL branch; the world is the one the resolver left, so nothing is
    requested again: the requests sent since the portfolio was read are those
    of a single resolution. *)
Theorem chain_error_returned (env : Env) (symbol : string)
    (cash_available : option float) (w w1 w2 w3 : World) (p : float)
    (portfolio d : pydict) :
  get_stock_price env symbol w = (Return (Some p), w1) ->
  truthy p = true ->
  get_portfolio env w1 = (Return portfolio, w2) ->
  has_error d = true ->
  (has_stock portfolio symbol = false ->
   forall n, max_contracts cash_available p = Return n ->
   get_option_chain env symbol 10 "PUT" None w2 = (Return d, w3) ->
   wheel_recommendation env symbol cash_available w = (Return d, w3) /\
   (sent w3 = YFInfo symbol :: sent w2 \/
    sent w3 = YFOptionChain symbol None :: YFInfo symbol :: sent w2)) /\
  (has_stock portfolio symbol = true ->
   get_option_chain env symbol 10 "CALL" None w2 = (Return d, w3) ->
   wheel_recommendation env symbol cash_available w = (Return d, w3) /\
   (sent w3 = YFInfo symbol :: sent w2 \/
    sent w3 = YFOptionChain symbol None :: YFInfo symbol :: sent w2)).
Proof.
  intros Hp Ht Hf He.
  pose proof (wheel_recommendation_branches env symbol cash_available w w1 w2 p portfolio
                Hp Ht Hf) as Hb.
  split.
  - intros Hs n Hn Hd. rewrite Hb, Hs. split.
    + now apply sell_put_error with n.
    + rewrite get_option_chain_resolver in Hd.
      pose proof (resolver_requests env symbol 10 "PUT" w2) as R.
      now rewrite Hd in R.
  - intros Hs Hd. rewrite Hb, Hs. split.
    + now apply sell_call_error.
    + rewrite get_option_chain_resolver in Hd.
      pose proof (resolver_requests env symbol 10 "CALL" w2) as R.
      now rewrite Hd in R.
Qed.

(** The chain request fails while nothing is held: the error of the put
    resolution is the result. *)
Lemma chain_error_returned_witness :
  wheel_recommendation (Fakes.no_chain []) "XYZ" None Fakes.fresh
    = (Return (ErrorDict "No options data"),
       snd (wheel_recommendation (Fakes.no_chain []) "XYZ" None Fakes.fresh)) /\
  (sent (snd (wheel_recommendation (Fakes.no_chain []) "XYZ" None Fakes.fresh))
     = YFInfo "XYZ" ::
       sent (snd (get_portfolio (Fakes.no_chain [])
                    (snd (get_stock_price (Fakes.no_chain []) "XYZ" Fakes.fresh)))) \/
   sent (snd (wheel_recommendation (Fakes.no_chain []) "XYZ" None Fakes.fresh))
     = YFOptionChain "XYZ" None :: YFInfo "XYZ" ::
       sent (snd (get_portfolio (Fakes.no_chain [])
                    (snd (get_stock_price (Fakes.no_chain []) "XYZ" Fakes.fresh))))).
Proof.
  exact (proj1 (chain_error_returned
                  (Fakes.no_chain []) "XYZ" None Fakes.fresh
                  (snd (get_stock_price (Fakes.no_chain []) "XYZ" Fakes.fresh))
                  (snd (get_portfolio (Fakes.no_chain [])
                          (snd (get_stock_price (Fakes.no_chain []) "XYZ" Fakes.fresh))))
                  (snd (wheel_recommendation (Fakes.no_chain []) "XYZ" None Fakes.fresh))
                  100
                  (PortfolioDict {| account := empty_account; positions := [] |})
                  (ErrorDict "No options data")
                  eq_refl eq_refl eq_refl eq_refl)
               eq_refl 1%Z eq_refl eq_refl).
Defined.

(** Both branches on a failing chain request; and a count that cannot be
    computed raises before the resolver is called. *)
Example chain_error_examples :
  wheel_recommendation (Fakes.no_chain []) "XYZ" (Some 20000) Fakes.fresh
    = (Return (ErrorDict "No options data"),
       snd (get_option_chain (Fakes.no_chain []) "XYZ" 10 "PUT" None
              (snd (get_portfolio (Fakes.no_chain [])
                      (snd (get_stock_price (Fakes.no_chain []) "XYZ" Fakes.fresh)))))) /\
  wheel_recommendation (Fakes.no_chain [Fakes.holding "XYZ" 50]) "XYZ" None Fakes.fresh
    = (Return (ErrorDict "No options data"),
       snd (get_option_chain (Fakes.no_chain [Fakes.holding "XYZ" 50]) "XYZ" 10 "CALL" None
              (snd (get_portfolio (Fakes.no_chain [Fakes.holding "XYZ" 50])
                      (snd (get_stock_price (Fakes.no_chain [Fakes.holding "XYZ" 50])
                              "XYZ" Fakes.fresh)))))) /\
  wheel_recommendation (Fakes.no_chain []) "XYZ" (Some nan) Fakes.fresh
    = (Raise (ValueError "cannot convert float NaN to integer"),
       snd (get_portfolio (Fakes.no_chain [])
              (snd (get_stock_price (Fakes.no_chain []) "XYZ" Fakes.fresh)))).
Proof. repeat split; vm_compute; reflexivity. Qed.


(** The scenario of the specification: spot 100, nothing held, 20000 of
    cash, a put at 90 quoted 1.8 to 2.2: premium 200, 2.22 per cent on a
    collateral of 9000, two contracts, 400 in all.  A premium of
    0.07 * 100, which is not 7 in binary64, is reported as 7. *)
Example recommendation_scenario :
  (exists r,
     fst (wheel_recommendation (Fakes.broker []) "XYZ" (Some 20000) Fakes.fresh)
       = Return (RecommendationDict r) /\
     action r = SELL_PUT /\ rec_strike r = 90 /\ rec_premium r = 200 /\
     rec_return_pct r = 2.22 /\ rec_max_contracts r = Some 2%Z /\
     rec_max_premium r = Some 400) /\
  put_return_pct 200 0 = Return 0 /\
  put_return_pct 200 (-0) = Return 0 /\
  call_return_pct 100 (-1) = Return 0 /\
  (0.07 * 100 =? 7) = false /\
  round2 (0.07 * 100) = 7 /\
  round2 2.675 = 2.67 /\
  round2 0.125 = 0.12 /\
  round2 (-0.001) = -0.
Proof.
  split; [eexists; split; [vm_compute; reflexivity|]|]; repeat split;
    vm_compute; reflexivity.
Qed.

End RecommendationClaims.

(** * Further properties of the code *)

(** ** The session flags *)

Section Frames.

Import PyFloat Pandas PyStr IBWheel.

Lemma neutral_ret {A : Type} (a : A) : neutral (ret a).
Proof. intros w. now split. Qed.

Lemma neutral_raise {A : Type} (e : exn) : neutral (@raise A e).
Proof. intros w. now split. Qed.

Lemma neutral_lift {A : Type} (o : outcome A) : neutral (lift o).
Proof. intros w. now split. Qed.

Lemma neutral_call {A : Type} (c : Call) (answer : outcome A) : neutral (call c answer).
Proof. intros w. now split. Qed.

Lemma neutral_bind {A B : Type} (m : M A) (k : A -> M B) :
  neutral m -> (forall a, neutral (k a)) -> neutral (bind m k).
Proof.
  intros Hm Hk w. unfold bind. specialize (Hm w).
  destruct (m w) as [[a|e] w1]; simpl in *; [|exact Hm].
  destruct (Hk a w1) as [H1 H2]. destruct Hm as [H3 H4]. split; congruence.
Qed.

Lemma neutral_try_except {A : Type} (m : M A) (handler : exn -> M A) :
  neutral m -> (forall e, neutral (handler e)) -> neutral (try_except m handler).
Proof.
  intros Hm Hh w. unfold try_except. specialize (Hm w).
  destruct (m w) as [[a|e] w1]; simpl in *; [exact Hm|].
  destruct (Hh e w1) as [H1 H2]. destruct Hm as [H3 H4]. split; congruence.
Qed.

Lemma neutral_steady {A : Type} (m : M A) : neutral m -> steady m.
Proof. intros H w E. destruct (H w) as [H1 H2]. congruence. Qed.

Lemma steady_bind {A B : Type} (m : M A) (k : A -> M B) :
  steady m -> (forall a, steady (k a)) -> steady (bind m k).
Proof.
  intros Hm Hk w E. unfold bind. specialize (Hm w E).
  destruct (m w) as [[a|e] w1]; simpl in *; [|exact Hm].
  now apply Hk.
Qed.

Lemma steady_if {A : Type} (b : bool) (m1 m2 : M A) :
  steady m1 -> steady m2 -> steady (if b then m1 else m2).
Proof. now destruct b. Qed.

Lemma neutral_if {A : Type} (b : bool) (m1 m2 : M A) :
  neutral m1 -> neutral m2 -> neutral (if b then m1 else m2).
Proof. now destruct b. Qed.

Ltac neutrality :=
  repeat first
    [ apply neutral_ret | apply neutral_raise | apply neutral_lift
    | apply neutral_call | apply neutral_if
    | apply neutral_bind; [|intros ?] | apply neutral_try_except; [|intros ?]
    | match goal with
      | |- neutral (match ?x with _ => _ end) => destruct x
      end ].

Lemma neutral_primary_price (env : Env) (symbol : string) :
  neutral (primary_price env symbol).
Proof. unfold primary_price. neutrality. Qed.

Lemma neutral_secondary_price (env : Env) (symbol : string) :
  neutral (secondary_price env symbol).
Proof. unfold secondary_price. neutrality. Qed.

Lemma neutral_resolver (env : Env) (symbol : string) (otm_pct : float)
    (option_type : string) :
  neutral (_get_option_chain_yf env symbol otm_pct option_type).
Proof. unfold _get_option_chain_yf. neutrality. Qed.

Lemma neutral_get_option_chain (env : Env) (symbol : string) (otm_pct : float)
    (option_type : string) (expiration : option string) :
  neutral (get_option_chain env symbol otm_pct option_type expiration).
Proof.
  unfold get_option_chain. apply neutral_bind; [apply neutral_resolver|].
  intros d. neutrality.
Qed.

Lemma steady_ensure_connection (env : Env) : steady (_ensure_connection env).
Proof.
  intros w E. unfold _ensure_connection, bind, get_world, try_except, call,
    set_isConnected, set_connected, ret. simpl.
  destruct (_connected w && isConnected w); simpl; [exact E|].
  destruct (ib_connect env); simpl; [reflexivity|exact E].
Qed.

Lemma steady_get_stock_price (env : Env) (symbol : string) :
  steady (get_stock_price env symbol).
Proof.
  unfold get_stock_price.
  apply steady_bind; [apply steady_ensure_connection|]. intros up.
  apply steady_bind.
  - apply neutral_steady. destruct up; [|apply neutral_ret].
    apply neutral_try_except; [apply neutral_primary_price|].
    intros e. apply neutral_ret.
  - intros [p|]; apply neutral_steady;
      [apply neutral_ret|apply neutral_secondary_price].
Qed.

Lemma steady_get_portfolio (env : Env) : steady (get_portfolio env).
Proof.
  unfold get_portfolio.
  apply steady_bind; [apply steady_ensure_connection|]. intros up.
  apply neutral_steady. neutrality.
Qed.

Lemma neutral_sell_put (env : Env) (symbol : string) (cash_available : option float)
    (p : float) :
  neutral (sell_put env symbol cash_available p).
Proof.
  unfold sell_put. apply neutral_bind; [apply neutral_lift|]. intros n.
  apply neutral_bind; [apply neutral_get_option_chain|]. intros d. neutrality.
Qed.

Lemma neutral_sell_call (env : Env) (symbol : string) (p : float) :
  neutral (sell_call env symbol p).
Proof.
  unfold sell_call. apply neutral_bind; [apply neutral_get_option_chain|].
  intros d. neutrality.
Qed.

Lemma steady_wheel_recommendation (env : Env) (symbol : string)
    (cash_available : option float) :
  steady (wheel_recommendation env symbol cash_available).
Proof.
  unfold wheel_recommendation.
  apply steady_bind; [apply steady_get_stock_price|]. intros price.
  apply steady_if; [apply neutral_steady, neutral_ret|].
  destruct price as [p|]; [|apply neutral_steady, neutral_ret].
  apply steady_bind; [apply steady_get_portfolio|]. intros d.
  apply steady_if; apply neutral_steady;
    [apply neutral_sell_put|apply neutral_sell_call].
Qed.

End Frames.

(** ** The session and the price resolver, further *)

Section PriceExtras.

Import PyFloat Pandas PyStr IBWheel.

Local Open Scope string_scope.
Local Open Scope float_scope.

Local Arguments poll : simpl never.

Ltac run := unfold bind, call, lift, ret, raise, try_except, get_world; simpl.

(** X1: [_ensure_connection] never raises.  A true result means that both
    the flag and the session are up afterwards; an object that is connected
    is reused as it is, nothing being sent; otherwise exactly one connect
    request is sent, and when it raises the result is false and the flags
    stay as they were. *)
Theorem ensure_connection_session (env : Env) (w : World) :
  exists up w',
    _ensure_connection env w = (Return up, w') /\
    (up = true -> _connected w' = true /\ isConnected w' = true) /\
    (_connected w && isConnected w = true -> up = true /\ w' = w) /\
    (_connected w && isConnected w = false -> sent w' = IBConnect :: sent w) /\
    (forall e, _connected w && isConnected w = false -> ib_connect env = Raise e ->
               up = false /\ _connected w' = _connected w /\
               isConnected w' = isConnected w).
Proof.
  unfold _ensure_connection, set_isConnected, set_connected. run.
  destruct (_connected w && isConnected w) eqn:C.
  - exists true, w. apply andb_prop in C. destruct C as [C1 C2].
    repeat split; try discriminate; assumption.
  - destruct (ib_connect env) as [up|e0]; simpl.
    + eexists up, _. split; [reflexivity|]. repeat split; try discriminate.
      all: simpl; assumption.
    + eexists false, _. split; [reflexivity|]. repeat split; discriminate.
Qed.

Lemma poll_S (read : nat -> outcome float) (n i : nat) :
  poll read (S n) i =
  match read i with
  | Raise e => Raise e
  | Return p =>
      if truthy p && negb (is_nan p) then Return (Some p) else poll read n (S i)
  end.
Proof. reflexivity. Qed.

Lemma poll_ext (r1 r2 : nat -> outcome float) (n i : nat) :
  (forall j, i <= j < i + n -> r1 j = r2 j) -> poll r1 n i = poll r2 n i.
Proof.
  revert i. induction n as [|n IH]; intros i H; [reflexivity|].
  rewrite !poll_S, (H i) by lia.
  destruct (r2 i) as [p|e]; [|reflexivity].
  destruct (truthy p && negb (is_nan p)); [reflexivity|].
  apply IH. intros j Hj. apply H. lia.
Qed.

(** X2: [get_stock_price] reads only the answer to [connect], the
    qualification of the symbol, the first ten live and the first ten frozen
    ticks, and the snapshot of the symbol: two environments that agree on
    these give the same result and the same world. *)
Theorem get_stock_price_reads (env1 env2 : Env) (symbol : string) (w : World) :
  ib_connect env1 = ib_connect env2 ->
  ib_qualifyContracts env1 symbol = ib_qualifyContracts env2 symbol ->
  (forall i, i < 10 -> ib_marketPrice env1 symbol i = ib_marketPrice env2 symbol i) ->
  (forall i, i < 10 -> ib_close env1 symbol i = ib_close env2 symbol i) ->
  yf_info env1 symbol = yf_info env2 symbol ->
  get_stock_price env1 symbol w = get_stock_price env2 symbol w.
Proof.
  intros Hc Hq Hm Hf Hi.
  assert (Pm : poll (ib_marketPrice env1 symbol) 10 0 = poll (ib_marketPrice env2 symbol) 10 0)
    by (apply poll_ext; intros j Hj; apply Hm; lia).
  assert (Pf : poll (ib_close env1 symbol) 10 0 = poll (ib_close env2 symbol) 10 0)
    by (apply poll_ext; intros j Hj; apply Hf; lia).
  unfold get_stock_price, _ensure_connection, primary_price, secondary_price.
  run. rewrite Hc, Hq, Pm, Pf, Hi. reflexivity.
Qed.

(** A gateway whose ticks start at the eleventh poll, and which holds a
    position, is read like one that never ticks. *)
Lemma get_stock_price_reads_witness :
  get_stock_price MoreFakes.late_ticks "XYZ" Fakes.fresh
  = get_stock_price
      (Fakes.provider (Return true) nan [] (Fakes.quoting 100) (Raise (ProviderError "")))
      "XYZ" Fakes.fresh.
Proof.
  apply get_stock_price_reads; try reflexivity;
    intros i H; do 10 (destruct i as [|i]; [reflexivity|]); lia.
Defined.

(** X3: with a session, the first live tick that is true and not NaN is the
    price: the ticks before it are passed over, the frozen data and the
    snapshot are not asked for, and the subscription is cancelled. *)
Theorem get_stock_price_live_first (env : Env) (symbol : string) (w w1 : World)
    (k : nat) (p : float) :
  _ensure_connection env w = (Return true, w1) ->
  ib_qualifyContracts env symbol = Return tt ->
  k < 10 ->
  (forall i, i < k ->
     exists x, ib_marketPrice env symbol i = Return x /\
               truthy x && negb (is_nan x) = false) ->
  ib_marketPrice env symbol k = Return p ->
  truthy p = true ->
  is_nan p = false ->
  get_stock_price env symbol w =
    (Return (Some p),
     {| _connected := _connected w1; isConnected := isConnected w1;
        sent := IBCancelMktData symbol :: IBReqMktData symbol
                :: IBReqMarketDataType 1 :: IBQualifyContracts symbol :: sent w1 |}).
Proof.
  intros Hc Hq Hk Hbefore Hp Ht Hn.
  assert (P : forall n i, i <= k -> k < i + n ->
                poll (ib_marketPrice env symbol) n i = Return (Some p)).
  { induction n as [|n IH]; intros i H1 H2; [lia|]. rewrite poll_S.
    destruct (Nat.eq_dec i k) as [->|Hne].
    - now rewrite Hp, Ht, Hn.
    - destruct (Hbefore i ltac:(lia)) as (x & -> & ->). apply IH; lia. }
  unfold get_stock_price, primary_price. run. rewrite Hc. simpl.
  rewrite Hq. simpl. rewrite (P 10%nat 0%nat) by lia. reflexivity.
Qed.

Lemma get_stock_price_live_first_witness :
  get_stock_price (Fakes.broker []) "XYZ" Fakes.fresh =
    (Return (Some 100),
     {| _connected := true; isConnected := true;
        sent := [IBCancelMktData "XYZ"; IBReqMktData "XYZ";
                 IBReqMarketDataType 1; IBQualifyContracts "XYZ"; IBConnect] |}).
Proof.
  apply (get_stock_price_live_first (Fakes.broker []) "XYZ" Fakes.fresh
           {| _connected := true; isConnected := true; sent := [IBConnect] |} 0 100);
    try reflexivity; [lia|intros i H; lia].
Defined.

Lemma primary_requests (env : Env) (symbol : string) (w : World) :
  exists new,
    sent (snd (primary_price env symbol w)) = (new ++ sent w)%list /\
    match fst (primary_price env symbol w) with
    | Return _ => hd_error new = Some (IBCancelMktData symbol)
    | Raise _ => ~ In (IBCancelMktData symbol) new
    end.
Proof.
  unfold primary_price. run.
  destruct (ib_qualifyContracts env symbol) as [u|e]; simpl.
  - destruct (poll (ib_marketPrice env symbol) 10 0) as [[p|]|e]; simpl.
    + now exists [IBCancelMktData symbol; IBReqMktData symbol;
                  IBReqMarketDataType 1; IBQualifyContracts symbol].
    + destruct (poll (ib_close env symbol) 10 0) as [[p|]|e]; simpl.
      * now exists [IBCancelMktData symbol; IBReqMktData symbol; IBReqMarketDataType 2;
                    IBReqMktData symbol; IBReqMarketDataType 1; IBQualifyContracts symbol].
      * now exists [IBCancelMktData symbol; IBReqMktData symbol; IBReqMarketDataType 2;
                    IBReqMktData symbol; IBReqMarketDataType 1; IBQualifyContracts symbol].
      * exists [IBReqMktData symbol; IBReqMarketDataType 2;
                IBReqMktData symbol; IBReqMarketDataType 1; IBQualifyContracts symbol].
        split; [reflexivity|]. simpl. intuition discriminate.
    + exists [IBReqMktData symbol; IBReqMarketDataType 1; IBQualifyContracts symbol].
      split; [reflexivity|]. simpl. intuition discriminate.
  - exists [IBQualifyContracts symbol]. split; [reflexivity|].
    simpl. intuition discriminate.
Qed.

(** X4: in [get_stock_price] the market-data subscription is cancelled when
    the primary path runs to its end, with or without a price, and only then:
    when a request or a poll raises, the exception is swallowed, the snapshot
    is asked instead, and no cancel request is sent at all. *)
Theorem subscription_cancelled_unless_raised (env : Env) (symbol : string)
    (w w1 : World) :
  _ensure_connection env w = (Return true, w1) ->
  exists new,
    (forall r, fst (primary_price env symbol w1) = Return r ->
       hd_error new = Some (IBCancelMktData symbol) /\
       sent (snd (primary_price env symbol w1)) = (new ++ sent w1)%list) /\
    (forall e, fst (primary_price env symbol w1) = Raise e ->
       get_stock_price env symbol w
         = secondary_price env symbol (snd (primary_price env symbol w1)) /\
       sent (snd (get_stock_price env symbol w))
         = (YFInfo symbol :: new ++ sent w1)%list /\
       ~ In (IBCancelMktData symbol) new).
Proof.
  intros Hc. destruct (primary_requests env symbol w1) as (new & Hs & Hm).
  exists new. split.
  - intros r Hr. rewrite Hr in Hm. now split.
  - intros e He. rewrite He in Hm.
    assert (G : get_stock_price env symbol w
                = secondary_price env symbol (snd (primary_price env symbol w1))).
    { unfold get_stock_price. run. rewrite Hc. simpl.
      destruct (primary_price env symbol w1) as [[r|e'] w2]; simpl in *;
        [discriminate|reflexivity]. }
    split; [exact G|]. split; [|exact Hm].
    rewrite G. unfold secondary_price. run.
    destruct (yf_info env symbol) as [info|e1]; simpl;
      [destruct (truthy_opt (or_else (currentPrice info) (regularMarketPrice info)))|];
      simpl; now rewrite Hs.
Qed.

(** The qualification fails: the snapshot answers, and nothing is
    cancelled. *)
Lemma subscription_cancelled_unless_raised_witness :
  get_stock_price MoreFakes.unqualified "XYZ" Fakes.fresh
  = (Return (Some 100),
     {| _connected := true; isConnected := true;
        sent := [YFInfo "XYZ"; IBQualifyContracts "XYZ"; IBConnect] |}).
Proof.
  destruct (subscription_cancelled_unless_raised MoreFakes.unqualified "XYZ" Fakes.fresh
              {| _connected := true; isConnected := true; sent := [IBConnect] |}
              eq_refl) as (new & _ & H).
  destruct (H (ProviderError "cannot qualify") eq_refl) as (G & _).
  rewrite G. reflexivity.
Defined.

(** X5: without a session the price is that of the snapshot, after Python's
    [or]: [currentPrice] when it is true, else [regularMarketPrice] when it is
    true, else [None]; a [currentPrice] of 0 or a missing one falls through.
    Only the snapshot request is sent. *)
Theorem get_stock_price_offline (env : Env) (symbol : string) (w w1 : World)
    (info : Info) :
  _ensure_connection env w = (Return false, w1) ->
  yf_info env symbol = Return info ->
  get_stock_price env symbol w =
    (Return (if truthy_opt (currentPrice info) then currentPrice info
             else if truthy_opt (regularMarketPrice info) then regularMarketPrice info
             else None),
     {| _connected := _connected w1; isConnected := isConnected w1;
        sent := YFInfo symbol :: sent w1 |}).
Proof.
  intros Hc Hi. unfold get_stock_price, secondary_price, or_else. run.
  rewrite Hc. simpl. rewrite Hi. simpl.
  destruct (truthy_opt (currentPrice info)) eqn:T1; [now rewrite T1|].
  now destruct (truthy_opt (regularMarketPrice info)).
Qed.

Lemma get_stock_price_offline_witness :
  get_stock_price
    (Fakes.provider (Return false) nan []
       (Return {| currentPrice := Some 0; regularMarketPrice := Some 99.5 |})
       (Raise (ProviderError "")))
    "XYZ" Fakes.fresh
  = (Return (Some 99.5),
     {| _connected := false; isConnected := false;
        sent := [YFInfo "XYZ"; IBConnect] |}).
Proof.
  apply (get_stock_price_offline
           (Fakes.provider (Return false) nan []
              (Return {| currentPrice := Some 0; regularMarketPrice := Some 99.5 |})
              (Raise (ProviderError "")))
           "XYZ" Fakes.fresh
           {| _connected := false; isConnected := false; sent := [IBConnect] |}
           {| currentPrice := Some 0; regularMarketPrice := Some 99.5 |});
    reflexivity.
Defined.

End PriceExtras.

(** ** The option-chain resolver, further *)

Section ResolverExtras.

Import PyFloat Pandas PyStr IBWheel.

Local Open Scope string_scope.
Local Open Scope float_scope.

Ltac run := unfold bind, call, lift, ret, raise, try_except, get_world; simpl.

(** What the resolver returns, case by case. *)
Lemma resolver_cases (env : Env) (symbol : string) (otm_pct : float)
    (option_type : string) (w : World) :
  (exists e, yf_info env symbol = Raise e /\
     fst (_get_option_chain_yf env symbol otm_pct option_type w)
       = Return (ErrorDict (str e))) \/
  (exists info, yf_info env symbol = Return info /\
     truthy_opt (or_else (currentPrice info) (regularMarketPrice info)) = false /\
     fst (_get_option_chain_yf env symbol otm_pct option_type w)
       = Return (ErrorDict "無法取得股價")) \/
  (exists info p, yf_info env symbol = Return info /\
     or_else (currentPrice info) (regularMarketPrice info) = Some p /\
     truthy p = true /\
     ((exists e, target_strike option_type p otm_pct = Raise e /\
         fst (_get_option_chain_yf env symbol otm_pct option_type w)
           = Return (ErrorDict (str e))) \/
      (exists t, target_strike option_type p otm_pct = Return t /\
         ((exists e, yf_option_chain env symbol None = Raise e /\
             fst (_get_option_chain_yf env symbol otm_pct option_type w)
               = Return (ErrorDict (str e))) \/
          (exists chain, yf_option_chain env symbol None = Return chain /\
             (((select_table option_type chain = None \/
                select_table option_type chain = Some []) /\
               fst (_get_option_chain_yf env symbol otm_pct option_type w)
                 = Return (ErrorDict "無期權數據")) \/
              (exists r0 rows, select_table option_type chain = Some (r0 :: rows) /\
                 ((exists e, of_int t = Raise e /\
                     fst (_get_option_chain_yf env symbol otm_pct option_type w)
                       = Return (ErrorDict (str e))) \/
                  (exists tf row, of_int t = Return tf /\ In row (r0 :: rows) /\
                     fst (_get_option_chain_yf env symbol otm_pct option_type w)
                       = Return (OptionDict (option_data symbol p row))))))))))).
Proof.
  destruct (yf_info env symbol) as [info|e] eqn:Hi.
  2:{ left. exists e. split; [reflexivity|].
      unfold _get_option_chain_yf. run. now rewrite Hi. }
  right.
  destruct (or_else (currentPrice info) (regularMarketPrice info)) as [p|] eqn:Hp.
  2:{ left. exists info. split; [reflexivity|]. rewrite Hp. split; [reflexivity|].
      unfold _get_option_chain_yf. run. now rewrite Hi, Hp. }
  destruct (truthy p) eqn:Ht.
  2:{ left. exists info. split; [reflexivity|]. rewrite Hp. simpl.
      split; [exact Ht|].
      unfold _get_option_chain_yf. run. now rewrite Hi, Hp, Ht. }
  right. exists info, p. repeat split; try assumption.
  destruct (target_strike option_type p otm_pct) as [t|e] eqn:Htg.
  2:{ left. exists e. split; [reflexivity|].
      unfold _get_option_chain_yf. run. now rewrite Hi, Hp, Ht, Htg. }
  right. exists t. split; [reflexivity|].
  destruct (yf_option_chain env symbol None) as [chain|e] eqn:Hc.
  2:{ left. exists e. split; [reflexivity|].
      unfold _get_option_chain_yf. run. now rewrite Hi, Hp, Ht, Htg, Hc. }
  right. exists chain. split; [reflexivity|].
  destruct (select_table option_type chain) as [[|r0 rows]|] eqn:Hs.
  - left. split; [now right|].
    unfold _get_option_chain_yf. run. now rewrite Hi, Hp, Ht, Htg, Hc, Hs.
  - right. exists r0, rows. split; [reflexivity|].
    destruct (of_int t) as [tf|e] eqn:Hf.
    + right.
      destruct (resolver_selects env symbol otm_pct option_type w info p t tf chain
                  r0 rows Hi Hp Ht Htg Hf Hc Hs) as (row & Hin & _ & Hr).
      exists tf, row. split; [reflexivity|]. split; [exact Hin|]. now rewrite Hr.
    + left. exists e. split; [reflexivity|].
      unfold _get_option_chain_yf. run. now rewrite Hi, Hp, Ht, Htg, Hc, Hs, Hf.
  - left. split; [now left|].
    unfold _get_option_chain_yf. run. now rewrite Hi, Hp, Ht, Htg, Hc, Hs.
Qed.

Lemma resolver_returns (env : Env) (symbol : string) (otm_pct : float)
    (option_type : string) (w : World) :
  exists d,
    fst (_get_option_chain_yf env symbol otm_pct option_type w) = Return d /\
    ((exists msg, d = ErrorDict msg) \/ (exists o, d = OptionDict o)).
Proof.
  destruct (resolver_cases env symbol otm_pct option_type w)
    as [(e & _ & H)|[(info & _ & _ & H)|(info & p & _ & _ & _ &
         [(e & _ & H)|(t & _ & [(e & _ & H)|(chain & _ &
           [(_ & H)|(r0 & rows & _ & [(e & _ & H)|(tf & row & _ & _ & H)])])])])]];
    rewrite H; eexists; (split; [reflexivity|]); eauto.
Qed.

Lemma get_option_chain_returns (env : Env) (symbol : string) (otm_pct : float)
    (option_type : string) (expiration : option string) (w : World) :
  exists d w',
    get_option_chain env symbol otm_pct option_type expiration w = (Return d, w') /\
    ((exists msg, d = ErrorDict msg) \/ (exists o, d = OptionDict o)).
Proof.
  rewrite get_option_chain_resolver.
  destruct (resolver_returns env symbol otm_pct option_type w) as (d & H & S).
  destruct (_get_option_chain_yf env symbol otm_pct option_type w) as [r w'].
  simpl in H. subst r. now exists d, w'.
Qed.

(** X6: [get_option_chain] and [_get_option_chain_yf] never raise: whatever
    the snapshot service answers or raises, the result is returned, and it is
    an error dictionary or a contract; the flags of the session are left as
    they were and the broker is not asked anything. *)
Theorem get_option_chain_never_raises (env : Env) (symbol : string)
    (otm_pct : float) (option_type : string) (expiration : option string) (w : World) :
  exists d w',
    get_option_chain env symbol otm_pct option_type expiration w = (Return d, w') /\
    _get_option_chain_yf env symbol otm_pct option_type w = (Return d, w') /\
    ((exists msg, d = ErrorDict msg) \/ (exists o, d = OptionDict o)) /\
    _connected w' = _connected w /\
    isConnected w' = isConnected w /\
    (sent w' = YFInfo symbol :: sent w \/
     sent w' = YFOptionChain symbol None :: YFInfo symbol :: sent w).
Proof.
  destruct (get_option_chain_returns env symbol otm_pct option_type expiration w)
    as (d & w' & H & S).
  exists d, w'. split; [exact H|].
  pose proof (neutral_get_option_chain env symbol otm_pct option_type expiration w) as N.
  pose proof (resolver_requests env symbol otm_pct option_type w) as R.
  rewrite get_option_chain_resolver in H.
  rewrite <- (get_option_chain_resolver env symbol otm_pct option_type expiration w) in R.
  rewrite get_option_chain_resolver in N, R. rewrite H in N, R. simpl in N, R.
  destruct N as [N1 N2]. repeat split; assumption.
Qed.

(** X7: the causes of an error of the resolver.  An error dictionary comes
    from the snapshot request raising, from a snapshot without a true price,
    from [round] raising on a target that is not finite, from the chain
    request raising, from a missing or empty table, or from the conversion of
    the target; its text is the text of the exception or the fixed message of
    the case.  With rows in the table the selection always finds one: the
    message of the [closest.empty] test is never produced by that test. *)
Theorem resolver_error_causes (env : Env) (symbol : string) (otm_pct : float)
    (option_type : string) (w : World) (msg : string) :
  fst (_get_option_chain_yf env symbol otm_pct option_type w) = Return (ErrorDict msg) ->
  (exists e, yf_info env symbol = Raise e /\ msg = str e) \/
  (exists info, yf_info env symbol = Return info /\
     truthy_opt (or_else (currentPrice info) (regularMarketPrice info)) = false /\
     msg = "無法取得股價") \/
  (exists info p, yf_info env symbol = Return info /\
     or_else (currentPrice info) (regularMarketPrice info) = Some p /\
     truthy p = true /\
     ((exists e, target_strike option_type p otm_pct = Raise e /\ msg = str e) \/
      (exists e, yf_option_chain env symbol None = Raise e /\ msg = str e) \/
      (exists chain, yf_option_chain env symbol None = Return chain /\
         (select_table option_type chain = None \/
          select_table option_type chain = Some []) /\
         msg = "無期權數據") \/
      (exists t e, target_strike option_type p otm_pct = Return t /\
         of_int t = Raise e /\ msg = str e))).
Proof.
  intros H.
  destruct (resolver_cases env symbol otm_pct option_type w)
    as [(e & Hi & R)|[(info & Hi & Hp & R)|(info & p & Hi & Hp & Ht & C)]].
  - left. exists e. split; [exact Hi|]. congruence.
  - right. left. exists info. repeat split; try assumption. congruence.
  - right. right. exists info, p. repeat split; try assumption.
    destruct C as [(e & Htg & R)|(t & Htg & [(e & Hc & R)|(chain & Hc & C)])].
    + left. exists e. split; [exact Htg|]. congruence.
    + right. left. exists e. split; [exact Hc|]. congruence.
    + destruct C as [(Hs & R)|(r0 & rows & Hs & [(e & Hf & R)|(tf & row & _ & _ & R)])].
      * right. right. left. exists chain. repeat split; try assumption. congruence.
      * right. right. right. exists t, e. repeat split; try assumption. congruence.
      * rewrite R in H. discriminate.
Qed.

(** A spot so large that the call target is infinite: the error is the text
    of the exception of [round]. *)
Lemma resolver_error_causes_witness :
  (exists e, (Fakes.quoting 1e308 : outcome Info) = Raise e /\
     "cannot convert float infinity to integer" = str e) \/
  (exists info, Fakes.quoting 1e308 = Return info /\
     truthy_opt (or_else (currentPrice info) (regularMarketPrice info)) = false /\
     "cannot convert float infinity to integer" = "無法取得股價") \/
  (exists info p, Fakes.quoting 1e308 = Return info /\
     or_else (currentPrice info) (regularMarketPrice info) = Some p /\
     truthy p = true /\
     ((exists e, target_strike "CALL" p 1e10 = Raise e /\
         "cannot convert float infinity to integer" = str e) \/
      (exists e, (Raise (ProviderError "") : outcome OptionChain) = Raise e /\
         "cannot convert float infinity to integer" = str e) \/
      (exists chain, (Raise (ProviderError "") : outcome OptionChain) = Return chain /\
         (select_table "CALL" chain = None \/ select_table "CALL" chain = Some []) /\
         "cannot convert float infinity to integer" = "無期權數據") \/
      (exists t e, target_strike "CALL" p 1e10 = Return t /\
         of_int t = Raise e /\
         "cannot convert float infinity to integer" = str e))).
Proof.
  exact (resolver_error_causes
           (Fakes.provider (Return false) nan [] (Fakes.quoting 1e308)
              (Raise (ProviderError "")))
           "XYZ" 1e10 "CALL" Fakes.fresh
           "cannot convert float infinity to integer" eq_refl).
Defined.

End ResolverExtras.

Section ContractExtras.

Import PyFloat Pandas PyStr IBWheel.

Local Open Scope string_scope.
Local Open Scope float_scope.

Lemma positive_cell_range (c : option float) :
  positive_cell c = 0 \/ (0 <? positive_cell c) = true.
Proof.
  destruct c as [x|]; simpl; [|now left].
  destruct (negb (is_nan x) && (0 <? x)) eqn:E; [|now left].
  right. now apply andb_prop in E.
Qed.

Lemma cell_or_zero_not_nan (c : option float) : is_nan (cell_or_zero c) = false.
Proof.
  destruct c as [x|]; simpl; [|reflexivity].
  destruct (is_nan x) eqn:E; simpl; [reflexivity|exact E].
Qed.

(** X8: in the contract built from a row, bid and ask are each 0 or above
    zero, so never negative and never NaN, and they are 0 exactly when the
    quote of the row is missing, NaN or not above zero; last, implied
    volatility and the four Greeks are never NaN, a missing or NaN cell
    giving 0; the strike is the strike of the row. *)
Theorem option_data_clean (symbol : string) (stock_price : float) (row : OptionRow) :
  (opt_bid (option_data symbol stock_price row) = 0 \/
   (0 <? opt_bid (option_data symbol stock_price row)) = true) /\
  (opt_ask (option_data symbol stock_price row) = 0 \/
   (0 <? opt_ask (option_data symbol stock_price row)) = true) /\
  (quoted (row_bid row) = false -> opt_bid (option_data symbol stock_price row) = 0) /\
  (quoted (row_ask row) = false -> opt_ask (option_data symbol stock_price row) = 0) /\
  (forall x, row_bid row = Some x -> (0 <? x) = true ->
             opt_bid (option_data symbol stock_price row) = x) /\
  (forall x, row_ask row = Some x -> (0 <? x) = true ->
             opt_ask (option_data symbol stock_price row) = x) /\
  is_nan (opt_bid (option_data symbol stock_price row)) = false /\
  is_nan (opt_ask (option_data symbol stock_price row)) = false /\
  is_nan (opt_last (option_data symbol stock_price row)) = false /\
  is_nan (opt_iv (option_data symbol stock_price row)) = false /\
  is_nan (opt_delta (option_data symbol stock_price row)) = false /\
  is_nan (opt_theta (option_data symbol stock_price row)) = false /\
  is_nan (opt_gamma (option_data symbol stock_price row)) = false /\
  is_nan (opt_vega (option_data symbol stock_price row)) = false /\
  opt_strike (option_data symbol stock_price row) = row_strike row /\
  opt_stock_price (option_data symbol stock_price row) = stock_price.
Proof.
  assert (N : forall c, is_nan (positive_cell c) = false).
  { intros c. destruct (positive_cell_range c) as [->|H]; [reflexivity|].
    now apply ltb_zero_not_nan. }
  assert (Q : forall c, quoted c = false -> positive_cell c = 0).
  { intros c H. destruct (positive_cell_quoted c) as (E & _). now rewrite E, H. }
  assert (P : forall c x, c = Some x -> (0 <? x) = true -> positive_cell c = x).
  { intros c x -> H. destruct (positive_cell_quoted (Some x)) as (E & _).
    rewrite E. simpl. now rewrite H. }
  simpl. repeat split;
    auto using positive_cell_range, cell_or_zero_not_nan.
Qed.

Lemma substring_all (s : string) : substring 0 (String.length s) s = s.
Proof. induction s as [|c s IH]; simpl; [reflexivity|now rewrite IH]. Qed.

Lemma substring_tail (s : string) (k : nat) :
  (k <= String.length s)%nat ->
  exists pre,
    s = pre ++ substring k (String.length s - k) s /\
    String.length pre = k /\
    String.length (substring k (String.length s - k) s) = (String.length s - k)%nat.
Proof.
  revert k. induction s as [|c s IH]; intros k Hk.
  - simpl in Hk. assert (k = 0%nat) by lia. subst. now exists "".
  - destruct k as [|k].
    + exists "". rewrite Nat.sub_0_r, substring_all. repeat split.
    + simpl in Hk. destruct (IH k ltac:(lia)) as (pre & E & L1 & L2).
      exists (String c pre). simpl. repeat split.
      * now rewrite <- E.
      * now rewrite L1.
      * exact L2.
Qed.

(** X9: the expiration of a contract is either empty, when the contract
    symbol has fewer than 8 characters, or the last 8 characters of the
    contract symbol: the symbol ends with it and it is 8 long. *)
Theorem expiration_of_suffix (contractSymbol : string) :
  ((String.length contractSymbol < 8)%nat -> expiration_of contractSymbol = "") /\
  ((8 <= String.length contractSymbol)%nat ->
   String.length (expiration_of contractSymbol) = 8%nat /\
   exists pre,
     contractSymbol = pre ++ expiration_of contractSymbol /\
     String.length pre = (String.length contractSymbol - 8)%nat).
Proof.
  unfold expiration_of, suffix. split; intros H.
  - destruct (Nat.leb_spec 8 (String.length contractSymbol)); [lia|].
    now rewrite andb_false_r.
  - assert (E : String.eqb contractSymbol "" = false).
    { apply String.eqb_neq. intros ->. simpl in H. lia. }
    rewrite E, (proj2 (Nat.leb_le _ _) H). cbn [negb andb].
    destruct (substring_tail contractSymbol (String.length contractSymbol - 8)
                ltac:(lia)) as (pre & Hs & L1 & L2).
    replace (String.length contractSymbol - (String.length contractSymbol - 8))%nat
      with 8%nat in * by lia.
    split; [exact L2|]. now exists pre.
Qed.

Example expiration_of_examples :
  expiration_of "AAPL261120P00150000" = "00150000" /\
  expiration_of "20261120" = "20261120" /\
  expiration_of "ABC" = "" /\
  expiration_of "" = "".
Proof. repeat split. Qed.

End ContractExtras.

(** ** The portfolio resolver *)

Section PortfolioExtras.

Import PyFloat Pandas PyStr IBWheel.

Local Open Scope string_scope.
Local Open Scope float_scope.

Ltac run := unfold bind, call, lift, ret, raise, try_except, get_world; simpl.

(** What [get_portfolio] returns, case by case. *)
Lemma get_portfolio_cases (env : Env) (w : World) :
  (exists w1, _ensure_connection env w = (Return false, w1) /\
     get_portfolio env w = (Return (ErrorDict "無法連接 IB"), w1)) \/
  (exists w1, _ensure_connection env w = (Return true, w1) /\
     ((exists e, ib_managedAccounts env = Raise e /\
         fst (get_portfolio env w) = Return (ErrorDict (str e))) \/
      (ib_managedAccounts env = Return [] /\
       fst (get_portfolio env w) = Return (ErrorDict "list index out of range")) \/
      (exists account_id others, ib_managedAccounts env = Return (account_id :: others) /\
         ((exists e, ib_accountSummary env account_id = Raise e /\
             fst (get_portfolio env w) = Return (ErrorDict (str e))) \/
          (exists values, ib_accountSummary env account_id = Return values /\
             ((exists e, account_summary env values empty_account = Raise e /\
                 fst (get_portfolio env w) = Return (ErrorDict (str e))) \/
              (exists acc, account_summary env values empty_account = Return acc /\
                 ((exists e, ib_portfolio env = Raise e /\
                     fst (get_portfolio env w) = Return (ErrorDict (str e))) \/
                  (exists items, ib_portfolio env = Return items /\
                     fst (get_portfolio env w)
                       = Return (PortfolioDict
                                   {| account := acc;
                                      positions := stock_positions items |})))))))))).
Proof.
  destruct (ensure_connection_returns env w) as (up & w1 & Hc).
  unfold get_portfolio. run. rewrite Hc. destruct up; simpl.
  2:{ left. now exists w1. }
  right. exists w1. split; [reflexivity|].
  destruct (ib_managedAccounts env) as [[|account_id others]|e]; simpl.
  - right. left. now split.
  - right. right. exists account_id, others. split; [reflexivity|].
    destruct (ib_accountSummary env account_id) as [values|e]; simpl.
    + right. exists values. split; [reflexivity|].
      destruct (account_summary env values empty_account) as [acc|e]; simpl.
      * right. exists acc. split; [reflexivity|].
        destruct (ib_portfolio env) as [items|e]; simpl.
        -- right. now exists items.
        -- left. now exists e.
      * left. now exists e.
    + left. now exists e.
  - left. now exists e.
Qed.

(** X10: [get_portfolio] never raises: it returns an error dictionary or a
    portfolio.  Without a session the error is the fixed message and the
    broker is asked nothing beyond the connect attempt; with a session and
    no managed account the error is that of the index [0]. *)
Theorem get_portfolio_never_raises (env : Env) (w : World) :
  exists d w',
    get_portfolio env w = (Return d, w') /\
    ((exists msg, d = ErrorDict msg) \/ (exists p, d = PortfolioDict p)) /\
    (forall w1, _ensure_connection env w = (Return false, w1) ->
                d = ErrorDict "無法連接 IB" /\ w' = w1) /\
    (forall w1, _ensure_connection env w = (Return true, w1) ->
                ib_managedAccounts env = Return [] ->
                d = ErrorDict "list index out of range" /\
                sent w' = IBManagedAccounts :: sent w1).
Proof.
  destruct (get_portfolio env w) as [r w'] eqn:G.
  assert (S : exists d, r = Return d /\
                ((exists msg, d = ErrorDict msg) \/ (exists p, d = PortfolioDict p))).
  { destruct (get_portfolio_cases env w)
      as [(w1 & _ & H)|(w1 & _ & [(e & _ & H)|[(_ & H)|(a & o & _ &
           [(e & _ & H)|(vs & _ & [(e & _ & H)|(acc & _ &
             [(e & _ & H)|(items & _ & H)])])])]])];
      rewrite G in H; simpl in H; try (injection H as H _);
      eexists; (split; [eassumption|]); eauto. }
  destruct S as (d & -> & S). exists d, w'. split; [reflexivity|].
  split; [exact S|]. split.
  - intros w1 Hc. revert G. unfold get_portfolio. run. rewrite Hc. simpl.
    intros [= <- <-]. now split.
  - intros w1 Hc Ha. revert G. unfold get_portfolio. run. rewrite Hc. simpl.
    rewrite Ha. simpl. intros [= <- <-]. now split.
Qed.

Lemma account_summary_app (env : Env) (l1 l2 : list AccountValue) (acc : Account) :
  account_summary env (l1 ++ l2) acc =
  match account_summary env l1 acc with
  | Return acc1 => account_summary env l2 acc1
  | Raise e => Raise e
  end.
Proof.
  revert acc. induction l1 as [|v l1 IH]; intros acc; simpl; [reflexivity|].
  destruct (String.eqb (tag v) "NetLiquidation" || String.eqb (tag v) "TotalCashValue"
            || String.eqb (tag v) "ExcessLiquidity"
            || String.eqb (tag v) "FullInitMarginReq"); [|apply IH].
  destruct (float_of_str env (value v)); [apply IH|reflexivity].
Qed.

(** X11: the account summary is read through four tags only.  Entries with
    any other tag are skipped without being parsed, so dropping them changes
    nothing, whatever their value; the result is that of the entries with a
    known tag. *)
Theorem account_summary_known_tags (env : Env) (values : list AccountValue)
    (acc : Account) :
  account_summary env values acc
  = account_summary env (filter (fun v => known_tag (tag v)) values) acc.
Proof.
  revert acc. induction values as [|v values IH]; intros acc; [reflexivity|].
  cbn [filter]. unfold known_tag at 1.
  destruct (String.eqb (tag v) "NetLiquidation" || String.eqb (tag v) "TotalCashValue"
            || String.eqb (tag v) "ExcessLiquidity"
            || String.eqb (tag v) "FullInitMarginReq") eqn:K.
  - cbn [account_summary]. rewrite K.
    destruct (float_of_str env (value v)); [apply IH|reflexivity].
  - cbn [account_summary]. rewrite K. apply IH.
Qed.

Lemma account_summary_step (env : Env) (v : AccountValue) (acc acc' : Account)
    (t : string) :
  known_tag t = true ->
  account_summary env [v] acc = Return acc' ->
  (tag v <> t -> account_field t acc' = account_field t acc) /\
  (tag v = t -> exists x, float_of_str env (value v) = Return x /\
                          account_field t acc' = Some x).
Proof.
  unfold known_tag, account_field. intros K. cbn [account_summary].
  destruct (String.eqb_spec (tag v) "NetLiquidation") as [E1|E1];
  destruct (String.eqb_spec (tag v) "TotalCashValue") as [E2|E2];
  destruct (String.eqb_spec (tag v) "ExcessLiquidity") as [E3|E3];
  destruct (String.eqb_spec (tag v) "FullInitMarginReq") as [E4|E4];
  try congruence; cbn [orb];
  try (destruct (float_of_str env (value v)) as [x|e]; [|discriminate]);
  intros [= <-];
  (split; [intros Hne|intros He]);
  try (rewrite He in *; clear He);
  repeat match goal with
  | H : tag v = _ |- _ => rewrite H in *
  end;
  try (exists x; split; [reflexivity|]);
  destruct (String.eqb_spec t "NetLiquidation") as [T1|T1];
  destruct (String.eqb_spec t "TotalCashValue") as [T2|T2];
  destruct (String.eqb_spec t "ExcessLiquidity") as [T3|T3];
  destruct (String.eqb_spec t "FullInitMarginReq") as [T4|T4];
  try subst t; simpl in *; try reflexivity; try congruence; try discriminate.
Qed.

Lemma account_summary_unchanged (env : Env) (l : list AccountValue)
    (acc acc' : Account) (t : string) :
  known_tag t = true ->
  account_summary env l acc = Return acc' ->
  (forall v, In v l -> tag v <> t) ->
  account_field t acc' = account_field t acc.
Proof.
  intros K. revert acc. induction l as [|v l IH]; intros acc H Hne.
  - simpl in H. now injection H as <-.
  - change (v :: l) with ([v] ++ l)%list in H. rewrite account_summary_app in H.
    destruct (account_summary env [v] acc) as [a1|e] eqn:S; [|discriminate].
    destruct (account_summary_step env v acc a1 t K S) as [U _].
    rewrite (IH a1 H) by (intros u Hu; apply Hne; now right).
    apply U, Hne. now left.
Qed.

(** X12: the keys of the account follow the tags of the summary.  For each
    of the four tags: when no entry carries the tag, the key is absent; when
    entries carry it, the key holds the value of the last of them, parsed by
    [float]. *)
Theorem account_summary_fields (env : Env) (values : list AccountValue)
    (acc : Account) (t : string) :
  known_tag t = true ->
  account_summary env values empty_account = Return acc ->
  ((forall v, In v values -> tag v <> t) -> account_field t acc = None) /\
  (forall pre v post,
     values = (pre ++ v :: post)%list ->
     tag v = t ->
     (forall u, In u post -> tag u <> t) ->
     exists x, float_of_str env (value v) = Return x /\ account_field t acc = Some x).
Proof.
  intros K H. split.
  - intros Hne. rewrite (account_summary_unchanged env values empty_account acc t K H Hne).
    unfold account_field. simpl.
    now destruct (String.eqb t "NetLiquidation"), (String.eqb t "TotalCashValue"),
      (String.eqb t "ExcessLiquidity"), (String.eqb t "FullInitMarginReq").
  - intros pre v post -> Ht Hpost.
    rewrite account_summary_app in H.
    destruct (account_summary env pre empty_account) as [a1|e]; [|discriminate].
    change (v :: post) with ([v] ++ post)%list in H. rewrite account_summary_app in H.
    destruct (account_summary env [v] a1) as [a2|e] eqn:S; [|discriminate].
    destruct (account_summary_step env v a1 a2 t K S) as [_ U].
    destruct (U Ht) as (x & Hx & Hf). exists x. split; [exact Hx|].
    now rewrite (account_summary_unchanged env post a2 acc t K H Hpost).
Qed.

(** Two cash entries and an entry of a tag that is not read, whose value
    is no number: the cash is that of the last entry. *)
Lemma account_summary_fields_witness :
  exists x,
    float_of_str
      (MoreFakes.summary
         [ {| tag := "TotalCashValue"; value := "1250.5" |};
           {| tag := "Currency"; value := "USD" |};
           {| tag := "TotalCashValue"; value := "900" |} ]) "900" = Return x /\
    account_field "TotalCashValue"
      {| net_liquidation := None; cash := Some 900%float;
         excess_liquidity := None; margin := None |} = Some x.
Proof.
  exact (proj2 (account_summary_fields
                  (MoreFakes.summary
                     [ {| tag := "TotalCashValue"; value := "1250.5" |};
                       {| tag := "Currency"; value := "USD" |};
                       {| tag := "TotalCashValue"; value := "900" |} ])
                  [ {| tag := "TotalCashValue"; value := "1250.5" |};
                    {| tag := "Currency"; value := "USD" |};
                    {| tag := "TotalCashValue"; value := "900" |} ]
                  {| net_liquidation := None; cash := Some 900%float;
                     excess_liquidity := None; margin := None |}
                  "TotalCashValue" eq_refl eq_refl)
               [ {| tag := "TotalCashValue"; value := "1250.5" |};
                 {| tag := "Currency"; value := "USD" |} ]
               {| tag := "TotalCashValue"; value := "900" |} []
               eq_refl eq_refl (fun u (H : In u []) => match H with end)).
Defined.

(** The summary is that of the first managed account; a value that is no
    number under a tag that is read fails the whole portfolio. *)
Example get_portfolio_summary_examples :
  fst (get_portfolio
         (MoreFakes.summary
            [ {| tag := "TotalCashValue"; value := "1250.5" |};
              {| tag := "Currency"; value := "USD" |};
              {| tag := "NetLiquidation"; value := "900" |} ]) Fakes.fresh)
    = Return (PortfolioDict
                {| account := {| net_liquidation := Some 900%float;
                                 cash := Some 1250.5%float;
                                 excess_liquidity := None; margin := None |};
                   positions := [] |}) /\
  fst (get_portfolio
         (MoreFakes.summary [ {| tag := "TotalCashValue"; value := "n/a" |} ]) Fakes.fresh)
    = Return (ErrorDict "could not convert string to float").
Proof. split; vm_compute; reflexivity. Qed.

Lemma stock_positions_in (items : list PortfolioItem) (pos : Position) :
  In pos (stock_positions items) <->
  exists item,
    In item items /\ contract_is_stock item = true /\
    pos = {| pos_symbol := contract_symbol item;
             shares := position item;
             avg_cost := averageCost item;
             market_value := marketValue item;
             unrealized_pnl := unrealizedPNL item |}.
Proof.
  unfold stock_positions. rewrite in_map_iff. split.
  - intros (item & <- & Hin). apply filter_In in Hin. destruct Hin as [Hin Hs].
    now exists item.
  - intros (item & Hin & Hs & ->). exists item. split; [reflexivity|].
    apply filter_In. now split.
Qed.

(** X13: the share count that picks the branch is that of the broker's stock
    entries.  For the dictionary [get_portfolio] returns, [has_stock] holds
    exactly when the dictionary is no error and [ib.portfolio()] lists an
    entry that is a stock, in the symbol, with a position above zero: an
    option or another contract in the symbol does not count. *)
Theorem held_iff_stock_item (env : Env) (w w' : World) (d : pydict) (symbol : string) :
  get_portfolio env w = (Return d, w') ->
  (has_stock d symbol = true <->
   has_error d = false /\
   exists items item,
     ib_portfolio env = Return items /\
     In item items /\
     contract_is_stock item = true /\
     contract_symbol item = symbol /\
     (0 <? position item) = true).
Proof.
  intros G.
  assert (C : (exists msg, d = ErrorDict msg) \/
              (exists acc items, ib_portfolio env = Return items /\
                 d = PortfolioDict {| account := acc;
                                      positions := stock_positions items |})).
  { destruct (get_portfolio_cases env w)
      as [(w1 & _ & H)|(w1 & _ & [(e & _ & H)|[(_ & H)|(a & o & _ &
           [(e & _ & H)|(vs & _ & [(e & _ & H)|(acc & _ &
             [(e & _ & H)|(items & Hi & H)])])])]])];
      rewrite G in H; simpl in H; inversion H; subst;
      try (left; eexists; reflexivity).
    right. now exists acc, items. }
  destruct C as [(msg & ->)|(acc & items & Hi & ->)].
  - simpl. split; [discriminate|]. intros [H _]. discriminate.
  - rewrite has_stock_spec. split.
    + intros (folio & pos & [= <-] & Hin & Hs & Hc). simpl in Hin.
      apply stock_positions_in in Hin. destruct Hin as (item & Hin & Hst & ->).
      split; [reflexivity|]. now exists items, item.
    + intros (_ & items' & item & Hi' & Hin & Hst & Hs & Hc).
      rewrite Hi in Hi'. injection Hi' as <-.
      eexists _, _. split; [reflexivity|]. split.
      * simpl. apply stock_positions_in. exists item. repeat split; assumption.
      * simpl. now split.
Qed.

(** Fifty shares of XYZ, reported as a stock and as another contract. *)
Lemma held_iff_stock_item_witness :
  (has_stock
     (PortfolioDict {| account := empty_account;
                       positions := stock_positions [Fakes.holding "XYZ" 50] |}) "XYZ" = true <->
   has_error
     (PortfolioDict {| account := empty_account;
                       positions := stock_positions [Fakes.holding "XYZ" 50] |}) = false /\
   exists items item,
     ib_portfolio (Fakes.broker [Fakes.holding "XYZ" 50]) = Return items /\
     In item items /\
     contract_is_stock item = true /\
     contract_symbol item = "XYZ" /\
     (0 <? position item) = true).
Proof.
  exact (held_iff_stock_item (Fakes.broker [Fakes.holding "XYZ" 50]) Fakes.fresh
           (snd (get_portfolio (Fakes.broker [Fakes.holding "XYZ" 50]) Fakes.fresh))
           (PortfolioDict {| account := empty_account;
                             positions := stock_positions [Fakes.holding "XYZ" 50] |})
           "XYZ" eq_refl).
Defined.

Example held_examples :
  has_stock (PortfolioDict
               {| account := empty_account;
                  positions := stock_positions
                    [ {| contract_is_stock := false; contract_symbol := "XYZ";
                         position := 5; averageCost := 2; marketValue := 10;
                         unrealizedPNL := 0 |} ] |}) "XYZ" = false /\
  fst (get_portfolio
         (Fakes.provider (Return true) 100 [] (Fakes.quoting 100) (Raise (ProviderError "")))
         Fakes.fresh)
    = Return (PortfolioDict {| account := empty_account; positions := [] |}).
Proof. split; vm_compute; reflexivity. Qed.

End PortfolioExtras.

(** ** The recommendation, further *)

Section RecommendationExtras.

Import PyFloat Pandas PyStr IBWheel.

Local Open Scope string_scope.
Local Open Scope float_scope.

Ltac run := unfold bind, call, lift, ret, raise, try_except, get_world; simpl.

Lemma get_stock_price_returns (env : Env) (symbol : string) (w : World) :
  exists r w', get_stock_price env symbol w = (Return r, w').
Proof.
  destruct (get_stock_price_cases env symbol w)
    as [(w1 & w2 & p & _ & _ & G)|(w1 & _ & G)].
  - now exists (Some p), w2.
  - destruct (secondary_price_returns env symbol w1) as (r & w' & S & _).
    exists r, w'. now rewrite G.
Qed.

Lemma get_portfolio_returns (env : Env) (w : World) :
  exists d w', get_portfolio env w = (Return d, w').
Proof.
  destruct (get_portfolio env w) as [r w'] eqn:G.
  destruct (get_portfolio_cases env w)
    as [(w1 & _ & H)|(w1 & _ & [(e & _ & H)|[(_ & H)|(a & o & _ &
         [(e & _ & H)|(vs & _ & [(e & _ & H)|(acc & _ &
           [(e & _ & H)|(items & _ & H)])])])]])];
    rewrite G in H; simpl in H; inversion H; subst; now eexists _, _.
Qed.

Lemma sell_put_returns (env : Env) (symbol : string) (cash_available : option float)
    (p : float) (w : World) :
  truthy_opt cash_available = false ->
  exists d w',
    sell_put env symbol cash_available p w = (Return d, w') /\
    ((exists msg, d = ErrorDict msg) \/
     (exists r, d = RecommendationDict r /\ action r = SELL_PUT /\
                rec_max_contracts r = Some 1%Z)).
Proof.
  intros Hc. unfold sell_put, bind, lift, ret, max_contracts. rewrite Hc.
  destruct (get_option_chain_returns env symbol 10 "PUT" None w)
    as (d & w' & -> & [(msg & ->)|(o & ->)]); simpl.
  - eexists _, _. split; [reflexivity|]. left. now eexists.
  - rewrite put_return_pct_returns.
    replace (times (opt_premium o) 1) with (Return (opt_premium o * 1))
      by reflexivity.
    eexists _, _. split; [reflexivity|]. right. eexists. now split.
Qed.

Lemma sell_call_returns (env : Env) (symbol : string) (p : float) (w : World) :
  exists d w',
    sell_call env symbol p w = (Return d, w') /\
    ((exists msg, d = ErrorDict msg) \/
     (exists r, d = RecommendationDict r /\ action r = SELL_CALL)).
Proof.
  unfold sell_call, bind, lift, ret.
  destruct (get_option_chain_returns env symbol 10 "CALL" None w)
    as (d & w' & -> & [(msg & ->)|(o & ->)]); simpl.
  - eexists _, _. split; [reflexivity|]. left. now eexists.
  - rewrite call_return_pct_returns.
    eexists _, _. split; [reflexivity|]. right. eexists. now split.
Qed.

Lemma wheel_recommendation_returns (env : Env) (symbol : string)
    (cash_available : option float) (w : World) :
  truthy_opt cash_available = false ->
  exists d w',
    wheel_recommendation env symbol cash_available w = (Return d, w') /\
    ((exists msg, d = ErrorDict msg) \/ (exists r, d = RecommendationDict r)).
Proof.
  intros Hc. unfold wheel_recommendation, bind.
  destruct (get_stock_price_returns env symbol w) as (price & w1 & ->).
  destruct price as [p|]; simpl.
  2:{ eexists _, _. split; [reflexivity|]. left. now eexists. }
  destruct (truthy p); simpl.
  2:{ eexists _, _. split; [reflexivity|]. left. now eexists. }
  destruct (get_portfolio_returns env w1) as (pf & w2 & ->).
  destruct (has_stock pf symbol); simpl.
  - destruct (sell_call_returns env symbol p w2) as (d & w' & -> & [S|(r & -> & _)]).
    + eexists _, _. split; [reflexivity|]. now left.
    + eexists _, _. split; [reflexivity|]. right. now eexists.
  - destruct (sell_put_returns env symbol cash_available p w2 Hc)
      as (d & w' & -> & [S|(r & -> & _)]).
    + eexists _, _. split; [reflexivity|]. now left.
    + eexists _, _. split; [reflexivity|]. right. now eexists.
Qed.

(** X14: when [cash_available] is left out, or is 0, [wheel_recommendation]
    never raises, whatever the two providers answer or raise: it returns an
    error dictionary or a recommendation. *)
Theorem wheel_recommendation_never_raises (env : Env) (symbol : string)
    (cash_available : option float) (w : World) :
  truthy_opt cash_available = false ->
  exists d w',
    wheel_recommendation env symbol cash_available w = (Return d, w') /\
    ((exists msg, d = ErrorDict msg) \/ (exists r, d = RecommendationDict r)).
Proof. apply wheel_recommendation_returns. Qed.

Lemma wheel_recommendation_never_raises_witness :
  exists d w',
    wheel_recommendation MoreFakes.unqualified "XYZ" None Fakes.fresh = (Return d, w') /\
    ((exists msg, d = ErrorDict msg) \/ (exists r, d = RecommendationDict r)).
Proof.
  exact (wheel_recommendation_never_raises MoreFakes.unqualified "XYZ" None Fakes.fresh
           eq_refl).
Defined.

(** X15: when both sources of the price fail, [wheel_recommendation] returns
    the error that names the symbol and stops there: the world is the one
    the price resolver left, so neither the portfolio nor the option chain is
    asked for. *)
Theorem wheel_recommendation_no_price (env : Env) (symbol : string)
    (cash_available : option float) (w : World) :
  primary_fails env symbol w ->
  secondary_fails env symbol ->
  wheel_recommendation env symbol cash_available w
    = (Return (ErrorDict ("無法取得 " ++ symbol ++ " 股價")),
       snd (get_stock_price env symbol w)).
Proof.
  intros Hp Hs.
  destruct (get_stock_price_cases env symbol w)
    as [(w1 & w2 & p & E & P & G)|(w1 & _ & G)].
  - exfalso. apply (Hp w1 E p). now rewrite P.
  - destruct (secondary_price_returns env symbol w1) as (r & w' & S & _ & N).
    assert (r = None).
    { unfold secondary_fails in Hs. destruct (yf_info env symbol); [now apply N|exact N]. }
    subst r. unfold wheel_recommendation, bind. rewrite G, S. reflexivity.
Qed.

(** No session and a snapshot that raises. *)
Lemma wheel_recommendation_no_price_witness :
  wheel_recommendation
    (Fakes.provider (Return false) nan [] (Raise (ProviderError "timeout"))
       (Raise (ProviderError "")))
    "XYZ" (Some 20000) Fakes.fresh
  = (Return (ErrorDict "無法取得 XYZ 股價"),
     {| _connected := false; isConnected := false;
        sent := [YFInfo "XYZ"; IBConnect] |}).
Proof.
  apply (wheel_recommendation_no_price
           (Fakes.provider (Return false) nan [] (Raise (ProviderError "timeout"))
              (Raise (ProviderError "")))
           "XYZ" (Some 20000) Fakes.fresh).
  - intros w1 H. discriminate H.
  - exact I.
Defined.





(** X17: where the fields of a recommendation come from.  The spot price is
    the one [get_stock_price] returned, not the snapshot price the chain
    resolver worked with; the strike is that of the contract the resolver
    returned; and the keys [max_contracts] and [max_premium] are there in a
    SELL_PUT recommendation and only there. *)
Theorem recommendation_fields (env : Env) (symbol : string)
    (cash_available : option float) (w w1 w3 : World) (p : float)
    (r : Recommendation) :
  get_stock_price env symbol w = (Return (Some p), w1) ->
  wheel_recommendation env symbol cash_available w = (Return (RecommendationDict r), w3) ->
  rec_stock_price r = p /\
  (exists w2 option_type o,
     get_option_chain env symbol 10 option_type None w2 = (Return (OptionDict o), w3) /\
     option_type = (if match action r with SELL_PUT => true | SELL_CALL => false end
                    then "PUT" else "CALL") /\
     rec_strike r = opt_strike o /\
     rec_premium r = round2 (opt_premium o)) /\
  (action r = SELL_PUT /\
   (exists n x, rec_max_contracts r = Some n /\ rec_max_premium r = Some x) \/
   action r = SELL_CALL /\ rec_max_contracts r = None /\ rec_max_premium r = None).
Proof.
  intros Hp H. unfold wheel_recommendation, bind in H. rewrite Hp in H.
  cbn [truthy_opt] in H. destruct (truthy p); cbn [negb] in H; [|discriminate].
  destruct (get_portfolio_returns env w1) as (pf & w2 & Hf). rewrite Hf in H.
  destruct (has_stock pf symbol); cbn [negb] in H.
  - apply sell_call_inv in H.
    destruct H as (d & pct & Hd & He & _ & Ha & Hs & Hk & Hr & _ & Hn & Hm).
    destruct d as [msg|o|f|r']; try discriminate.
    + split; [exact Hs|]. split.
      * exists w2, "CALL", o. rewrite Ha. repeat split; assumption.
      * right. repeat split; assumption.
    + exfalso. destruct (get_option_chain_returns env symbol 10 "CALL" None w2)
        as (d' & w' & Hd' & [(m & ->)|(o & ->)]); congruence.
    + exfalso. destruct (get_option_chain_returns env symbol 10 "CALL" None w2)
        as (d' & w' & Hd' & [(m & ->)|(o & ->)]); congruence.
  - apply sell_put_inv in H.
    destruct H as (n & d & pct & total & _ & Hd & He & _ & _ & Ha & Hs & Hk & Hr & _
                   & Hn & Hm).
    destruct d as [msg|o|f|r']; try discriminate.
    + split; [exact Hs|]. split.
      * exists w2, "PUT", o. rewrite Ha. repeat split; assumption.
      * left. split; [exact Ha|]. exists n, (round2 total). now split.
    + exfalso. destruct (get_option_chain_returns env symbol 10 "PUT" None w2)
        as (d' & w' & Hd' & [(m & ->)|(o & ->)]); congruence.
    + exfalso. destruct (get_option_chain_returns env symbol 10 "PUT" None w2)
        as (d' & w' & Hd' & [(m & ->)|(o & ->)]); congruence.
Qed.

(** The gateway shows 101 where the snapshot quotes 100: the recommendation
    reports 101, with the strike 90 that the resolver chose from 100. *)
Lemma recommendation_fields_witness :
  fst (wheel_recommendation MoreFakes.two_prices "XYZ" None Fakes.fresh)
    = Return (RecommendationDict MoreFakes.two_prices_put) /\
  fst (get_option_chain MoreFakes.two_prices "XYZ" 10 "PUT" None Fakes.fresh)
    = Return (OptionDict (option_data "XYZ" 100 (Fakes.row 90 1.8 2.2 2))) /\
  rec_stock_price MoreFakes.two_prices_put = 101.
Proof.
  split; [reflexivity|]. split; [reflexivity|].
  exact (proj1 (recommendation_fields MoreFakes.two_prices "XYZ" None Fakes.fresh
                  (snd (get_stock_price MoreFakes.two_prices "XYZ" Fakes.fresh))
                  (snd (wheel_recommendation MoreFakes.two_prices "XYZ" None Fakes.fresh))
                  101 MoreFakes.two_prices_put eq_refl eq_refl)).
Defined.

End RecommendationExtras.

(** ** The tool functions *)

Section ToolExtras.

Import PyFloat Pandas PyStr IBWheel Tools.

Local Open Scope string_scope.
Local Open Scope float_scope.

Lemma upper_ascii_idempotent (c : ascii) : upper_ascii (upper_ascii c) = upper_ascii c.
Proof. destruct c as [[] [] [] [] [] [] [] []]; reflexivity. Qed.

Lemma upper_idempotent (s : string) : upper (upper s) = upper s.
Proof.
  induction s as [|c s IH]; simpl; [reflexivity|].
  now rewrite upper_ascii_idempotent, IH.
Qed.

Lemma new_wheel_spec (w : World) :
  new_wheel w = (Return tt,
                 {| _connected := false; isConnected := false; sent := sent w |}).
Proof. reflexivity. Qed.

Lemma disconnect_spec (w : World) :
  _connected w = isConnected w ->
  exists w', disconnect w = (Return tt, w') /\
             _connected w' = false /\ isConnected w' = false.
Proof.
  intros E. unfold disconnect, bind, get_world, call, set_isConnected, set_connected, ret.
  simpl. destruct (_connected w) eqn:C; simpl.
  - eexists. split; [reflexivity|]. now split.
  - exists w. split; [reflexivity|]. split; [exact C|congruence].
Qed.

(** A method that keeps the flags in step and returns, run on a new object
    and followed by [disconnect], leaves both flags down. *)
Lemma released {A : Type} (m : M A) (w : World) :
  steady m ->
  (forall w0, exists a w1, m w0 = (Return a, w1)) ->
  exists a w1 w2,
    m {| _connected := false; isConnected := false; sent := sent w |} = (Return a, w1) /\
    disconnect w1 = (Return tt, w2) /\
    _connected w2 = false /\ isConnected w2 = false.
Proof.
  intros S R.
  destruct (R {| _connected := false; isConnected := false; sent := sent w |})
    as (a & w1 & Hm).
  pose proof (S {| _connected := false; isConnected := false; sent := sent w |} eq_refl) as E.
  rewrite Hm in E. simpl in E.
  destruct (disconnect_spec w1 E) as (w2 & Hd & F1 & F2).
  now exists a, w1, w2.
Qed.

(** X18: once their [IBWheel()] object is built, the four tool functions
    never raise and always release the session: whatever the providers
    answer or raise, [get_price], [get_options], [wheel_recommend] and
    [portfolio_status] return a text, and the object they created is left
    with its flag and its session down.  (The constructor itself, which
    reads the configuration file, is outside the model, and so is a
    [disconnect] request that would raise.) *)
Theorem tools_release_session (env : Env) (fmt : Formats) (symbol : string)
    (otm_pct : float) (option_type : string) (w : World) :
  (exists text w', get_price env symbol w = (Return text, w') /\
                   _connected w' = false /\ isConnected w' = false) /\
  (exists text w', get_options env fmt symbol otm_pct option_type w = (Return text, w') /\
                   _connected w' = false /\ isConnected w' = false) /\
  (exists text w', wheel_recommend env symbol w = (Return text, w') /\
                   _connected w' = false /\ isConnected w' = false) /\
  (exists text w', portfolio_status env fmt w = (Return text, w') /\
                   _connected w' = false /\ isConnected w' = false).
Proof.
  repeat apply conj.
  - destruct (released (get_stock_price env (upper symbol)) w
                (steady_get_stock_price _ _) (get_stock_price_returns _ _))
      as (price & w1 & w2 & Hm & Hd & F).
    unfold get_price, bind. rewrite new_wheel_spec, Hm, Hd.
    destruct price as [p|]; [destruct (truthy p)|]; now eexists _, _.
  - destruct (released (get_option_chain env (upper symbol) otm_pct option_type None) w
                (neutral_steady _ (neutral_get_option_chain _ _ _ _ _)))
      as (d & w1 & w2 & Hm & Hd & F).
    { intros w0.
      destruct (get_option_chain_returns env (upper symbol) otm_pct option_type None w0)
        as (d & w' & H & _). now exists d, w'. }
    destruct (get_option_chain_returns env (upper symbol) otm_pct option_type None
                {| _connected := false; isConnected := false; sent := sent w |})
      as (d' & w' & H & S).
    rewrite Hm in H. injection H as <- <-.
    unfold get_options, bind. rewrite new_wheel_spec, Hm, Hd.
    destruct S as [(msg & ->)|(o & ->)]; now eexists _, _.
  - destruct (released (wheel_recommendation env (upper symbol) None) w
                (steady_wheel_recommendation _ _ _))
      as (d & w1 & w2 & Hm & Hd & F).
    { intros w0.
      destruct (wheel_recommendation_returns env (upper symbol) None w0 eq_refl)
        as (d & w' & H & _). now exists d, w'. }
    destruct (wheel_recommendation_returns env (upper symbol) None
                {| _connected := false; isConnected := false; sent := sent w |} eq_refl)
      as (d' & w' & H & S).
    rewrite Hm in H. injection H as <- <-.
    unfold wheel_recommend, bind. rewrite new_wheel_spec, Hm, Hd.
    destruct S as [(msg & ->)|(r & ->)]; now eexists _, _.
  - destruct (released (get_portfolio env) w
                (steady_get_portfolio _) (get_portfolio_returns _))
      as (d & w1 & w2 & Hm & Hd & F).
    unfold portfolio_status, bind. rewrite new_wheel_spec, Hm, Hd.
    destruct d; now eexists _, _.
Qed.

(** X19: [get_options] never talks to the broker: it sends the snapshot
    request for the upper-cased symbol and at most one chain request, with no
    date, and neither connects nor disconnects. *)
Theorem get_options_requests (env : Env) (fmt : Formats) (symbol : string)
    (otm_pct : float) (option_type : string) (w : World) :
  sent (snd (get_options env fmt symbol otm_pct option_type w))
    = YFInfo (upper symbol) :: sent w \/
  sent (snd (get_options env fmt symbol otm_pct option_type w))
    = YFOptionChain (upper symbol) None :: YFInfo (upper symbol) :: sent w.
Proof.
  pose proof (resolver_requests env (upper symbol) otm_pct option_type
                {| _connected := false; isConnected := false; sent := sent w |}) as R.
  pose proof (neutral_resolver env (upper symbol) otm_pct option_type
                {| _connected := false; isConnected := false; sent := sent w |}) as N.
  destruct (get_option_chain_returns env (upper symbol) otm_pct option_type None
              {| _connected := false; isConnected := false; sent := sent w |})
    as (d & w1 & H & S).
  unfold get_options, bind. rewrite new_wheel_spec, H.
  rewrite get_option_chain_resolver in H. rewrite H in R, N.
  simpl in R, N. destruct N as [N1 _].
  unfold disconnect, bind, get_world, ret. simpl. rewrite N1.
  destruct S as [(msg & ->)|(o & ->)]; exact R.
Qed.

Lemma get_stock_price_truthy (env : Env) (symbol : string) (w : World) (p : float) :
  fst (get_stock_price env symbol w) = Return (Some p) -> truthy p = true.
Proof.
  destruct (get_stock_price_cases env symbol w)
    as [(w1 & w2 & q & _ & P & G)|(w1 & _ & G)]; rewrite G.
  - simpl. intros [= <-]. now apply primary_price_sound in P.
  - destruct (secondary_price_returns env symbol w1) as (r & w' & S & T & _).
    rewrite S. simpl. intros [= ->]. now apply T.
Qed.

(** X20: the case of the ticker does not matter to [get_price] when a price
    is found: the lookup and the reply use the upper-cased symbol, so the
    symbol as typed and its upper-cased form give the same reply and the same
    world. *)
Theorem get_price_any_case (env : Env) (symbol : string) (w : World) (p : float) :
  fst (get_stock_price env (upper symbol)
         {| _connected := false; isConnected := false; sent := sent w |})
    = Return (Some p) ->
  get_price env symbol w = get_price env (upper symbol) w.
Proof.
  intros H. pose proof (get_stock_price_truthy _ _ _ _ H) as T.
  unfold get_price, bind. rewrite new_wheel_spec, upper_idempotent.
  destruct (get_stock_price env (upper symbol)
              {| _connected := false; isConnected := false; sent := sent w |})
    as [r w1].
  simpl in H. subst r.
  destruct (disconnect w1) as [[u|e] w2]; [|reflexivity].
  now rewrite T.
Qed.

Lemma get_price_any_case_witness :
  get_price (Fakes.broker []) "xyz" Fakes.fresh
  = get_price (Fakes.broker []) (upper "xyz") Fakes.fresh.
Proof.
  exact (get_price_any_case (Fakes.broker []) "xyz" Fakes.fresh 100 eq_refl).
Defined.

Example get_price_examples :
  fst (get_price (Fakes.broker []) "xyz" Fakes.fresh)
    = Return "**XYZ** 現在價格: **$**" /\
  sent (snd (get_price (Fakes.broker []) "xyz" Fakes.fresh))
    = [IBDisconnect; IBCancelMktData "XYZ"; IBReqMktData "XYZ";
       IBReqMarketDataType 1; IBQualifyContracts "XYZ"; IBConnect] /\
  fst (get_price
         (Fakes.provider (Return false) nan [] (Raise (ProviderError "timeout"))
            (Raise (ProviderError "")))
         "xyz" Fakes.fresh)
    = Return "無法取得 xyz 股價" /\
  sent (snd (get_price
               (Fakes.provider (Return false) nan [] (Raise (ProviderError "timeout"))
                  (Raise (ProviderError "")))
               "xyz" Fakes.fresh))
    = [YFInfo "XYZ"; IBConnect].
Proof. repeat split; vm_compute; reflexivity. Qed.

Lemma parse_args_app (ops : StrOps) (l1 l2 : list string) (otm : Z) (opt_type : string) :
  parse_args ops (l1 ++ l2) otm opt_type =
  match parse_args ops l1 otm opt_type with
  | Return (otm1, type1) => parse_args ops l2 otm1 type1
  | Raise e => Raise e
  end.
Proof.
  revert otm opt_type. induction l1 as [|a l1 IH]; intros otm opt_type;
    cbn [parse_args app]; [reflexivity|].
  destruct (isdigit ops a).
  - destruct (int_of_str ops a); [apply IH|reflexivity].
  - destruct (among (upper a) ["CALL"; "PUT"; "C"; "P"]); apply IH.
Qed.

Lemma parse_args_type (ops : StrOps) (args : list string) (otm otm' : Z)
    (opt_type opt_type' : string) :
  parse_args ops args otm opt_type = Return (otm', opt_type') ->
  opt_type' = opt_type \/ opt_type' = "CALL" \/ opt_type' = "PUT".
Proof.
  revert otm opt_type. induction args as [|a args IH]; intros otm opt_type;
    cbn [parse_args].
  - intros [= <- <-]. now left.
  - destruct (isdigit ops a).
    + destruct (int_of_str ops a); [apply IH|discriminate].
    + destruct (among (upper a) ["CALL"; "PUT"; "C"; "P"]) eqn:A; [|apply IH].
      intros H. apply IH in H. destruct H as [->|H]; [|now right].
      right. unfold among. simpl.
      destruct (String.eqb_spec (upper a) "CALL") as [->|]; [now left|].
      destruct (String.eqb_spec (upper a) "PUT") as [->|]; [now right|].
      simpl. destruct (String.eqb (upper a) "C"); [now left|now right].
Qed.

Lemma parse_args_raise (ops : StrOps) (args : list string) (otm : Z)
    (opt_type : string) (e : exn) :
  parse_args ops args otm opt_type = Raise e ->
  exists a, In a args /\ isdigit ops a = true /\ int_of_str ops a = Raise e.
Proof.
  revert otm opt_type. induction args as [|a args IH]; intros otm opt_type;
    cbn [parse_args]; [discriminate|].
  destruct (isdigit ops a) eqn:D.
  - destruct (int_of_str ops a) as [n|e'] eqn:I.
    + intros H. destruct (IH _ _ H) as (b & Hb & R). exists b. split; [now right|exact R].
    + intros [= <-]. exists a. split; [now left|now split].
  - destruct (among (upper a) ["CALL"; "PUT"; "C"; "P"]);
      intros H; destruct (IH _ _ H) as (b & Hb & R); exists b;
      (split; [now right|exact R]).
Qed.

(** X21: what [handle_wheel_command] passes on for an options command.  The
    symbol is the first argument in upper case, which the tool function's own
    upper-casing leaves as it is; the option type is always CALL or PUT,
    whatever the arguments, so the resolver never gets another one from the
    command surface; and the handler raises only when [int] raises on an
    argument that [isdigit] accepts. *)
Theorem handle_wheel_command_options (ops : StrOps) (command : string)
    (args : list string) :
  (forall symbol otm opt_type,
     handle_wheel_command ops command args = Return (GetOptions symbol otm opt_type) ->
     (opt_type = "CALL" \/ opt_type = "PUT") /\
     exists first rest,
       args = first :: rest /\ symbol = upper first /\ upper symbol = symbol) /\
  (forall e,
     handle_wheel_command ops command args = Raise e ->
     exists a, In a (tl args) /\ isdigit ops a = true /\ int_of_str ops a = Raise e).
Proof.
  unfold handle_wheel_command. destruct args as [|first rest].
  { split; [intros s o t H|intros e H]; discriminate. }
  destruct (contains "price" command || contains "股價" command).
  { split; [intros s o t H|intros e H]; discriminate. }
  destruct (contains "option" command || contains "期權" command).
  - destruct (parse_args ops rest 10 "PUT") as [[otm ty]|e] eqn:P.
    + split; [|intros e H; discriminate].
      intros s o t [= <- <- <-]. split.
      * apply parse_args_type in P. destruct P as [->|P]; [now right|exact P].
      * exists first, rest. repeat split. apply upper_idempotent.
    + split; [intros s o t H; discriminate|].
      intros e' [= <-]. simpl. now apply parse_args_raise in P.
  - destruct (contains "wheel" command).
    { split; [intros s o t H|intros e H]; discriminate. }
    destruct (contains "portfolio" command || contains "持倉" command
              || contains "帳戶" command);
      split; try (intros s o t H); try (intros e H); discriminate.
Qed.

(** X22: how the arguments of an options command are read.  An argument
    that is neither a digit string nor one of CALL, PUT, C, P (in any case)
    is skipped, so dropping such arguments changes nothing; and the option
    type is that of the last argument that names one, C standing for CALL
    and P for PUT. *)
Theorem parse_args_last_wins (ops : StrOps) (args : list string) (otm : Z)
    (opt_type : string) :
  parse_args ops args otm opt_type
    = parse_args ops (filter (fun a => isdigit ops a || type_word a) args) otm opt_type /\
  (forall pre a post otm' opt_type',
     args = (pre ++ a :: post)%list ->
     isdigit ops a = false ->
     type_word a = true ->
     (forall b, In b post -> isdigit ops b = false -> type_word b = false) ->
     parse_args ops args otm opt_type = Return (otm', opt_type') ->
     opt_type' = type_of_word a).
Proof.
  split.
  - revert otm opt_type. induction args as [|a args IH]; intros otm opt_type;
      [reflexivity|].
    cbn [filter]. unfold type_word at 1.
    destruct (isdigit ops a) eqn:D; cbn [orb].
    + cbn [parse_args]. rewrite D.
      destruct (int_of_str ops a); [apply IH|reflexivity].
    + destruct (among (upper a) ["CALL"; "PUT"; "C"; "P"]) eqn:A.
      * cbn [parse_args]. rewrite D, A. apply IH.
      * cbn [parse_args]. rewrite D, A. apply IH.
  - intros pre a post otm' opt_type' -> D T Hpost.
    rewrite parse_args_app.
    destruct (parse_args ops pre otm opt_type) as [[o1 t1]|e]; [|discriminate].
    cbn [parse_args]. rewrite D. unfold type_word in T. rewrite T.
    assert (K : forall o t, parse_args ops post o t = Return (otm', opt_type') ->
                            opt_type' = t).
    { clear T D. induction post as [|b post IH]; intros o t; cbn [parse_args].
      - now intros [= _ <-].
      - destruct (isdigit ops b) eqn:Db.
        + destruct (int_of_str ops b); [|discriminate].
          apply IH. intros c Hc. apply Hpost. now right.
        + pose proof (Hpost b (or_introl eq_refl) Db) as Tb.
          unfold type_word in Tb. rewrite Tb.
          apply IH. intros c Hc. apply Hpost. now right. }
    intros H. apply K in H. subst opt_type'. unfold type_of_word, among.
    simpl.
    destruct (String.eqb_spec (upper a) "CALL") as [E|]; [now rewrite E|].
    destruct (String.eqb_spec (upper a) "PUT") as [E|]; [now rewrite E|].
    reflexivity.
Qed.

(** Commands as they are typed. *)
Example handle_wheel_command_examples :
  handle_wheel_command MoreFakes.ascii_digits "options" ["nvda"; "15"; "c"]
    = Return (GetOptions "NVDA" 15 "CALL") /\
  handle_wheel_command MoreFakes.ascii_digits "option" ["nvda"; "call"; "x"; "p"; "5"]
    = Return (GetOptions "NVDA" 5 "PUT") /\
  handle_wheel_command MoreFakes.ascii_digits "options" ["nvda"]
    = Return (GetOptions "NVDA" 10 "PUT") /\
  handle_wheel_command MoreFakes.ascii_digits "wheel price" ["nvda"]
    = Return (GetPrice "NVDA") /\
  handle_wheel_command MoreFakes.ascii_digits "wheel" ["nvda"]
    = Return (WheelRecommend "NVDA") /\
  handle_wheel_command MoreFakes.ascii_digits "portfolio" ["x"]
    = Return PortfolioStatus /\
  handle_wheel_command MoreFakes.ascii_digits "portfolio" []
    = Return (Reply "請提供股票代碼，例如: wheel NVDA") /\
  handle_wheel_command MoreFakes.ascii_digits "buy" ["nvda"]
    = Return (Reply "未知命令: buy。可用: price, options, wheel, portfolio").
Proof. repeat split. Qed.

End ToolExtras.

(** ** The next expiration *)

Section ExpirationExtras.

Import Expirations.

Local Open Scope string_scope.

Lemma ascii_compare_refl (x : ascii) : Ascii.compare x x = Eq.
Proof. unfold Ascii.compare. apply N.compare_refl. Qed.

Lemma string_leb_trans (a b c : string) :
  String.leb a b = true -> String.leb b c = true -> String.leb a c = true.
Proof.
  unfold String.leb. revert b c.
  induction a as [|x a IH]; intros [|y b] [|z c]; simpl; try easy.
  unfold Ascii.compare.
  destruct (N.compare_spec (N_of_ascii x) (N_of_ascii y)) as [E1|L1|G1];
    destruct (N.compare_spec (N_of_ascii y) (N_of_ascii z)) as [E2|L2|G2];
    try easy.
  - rewrite E1, E2, N.compare_refl. apply IH.
  - rewrite E1. now rewrite (proj2 (N.compare_lt_iff _ _) L2).
  - rewrite <- E2. now rewrite (proj2 (N.compare_lt_iff _ _) L1).
  - now rewrite (proj2 (N.compare_lt_iff _ _) (N.lt_trans _ _ _ L1 L2)).
Qed.

Lemma string_leb_refl (a : string) : String.leb a a = true.
Proof. destruct (String.leb_total a a); assumption. Qed.

Lemma insert_str_in (x y : string) (l : list string) :
  In y (insert_str x l) <-> y = x \/ In y l.
Proof.
  induction l as [|z l IH]; simpl; [intuition|].
  destruct (String.leb x z); simpl; [intuition|].
  rewrite IH. intuition.
Qed.

Lemma sorted_in (y : string) (l : list string) : In y (sorted l) <-> In y l.
Proof.
  induction l as [|x l IH]; simpl; [reflexivity|].
  rewrite insert_str_in, IH. intuition.
Qed.

Lemma hd_insert_str (x : string) (l : list string) :
  hd_error (insert_str x l) =
  match hd_error l with
  | None => Some x
  | Some y => if String.leb x y then Some x else Some y
  end.
Proof.
  destruct l as [|y l]; simpl; [reflexivity|]. now destruct (String.leb x y).
Qed.

(** [sorted(l)[0]] is a least element of [l]. *)
Lemma hd_sorted_least (l : list string) (e : string) :
  hd_error (sorted l) = Some e ->
  In e l /\ forall e', In e' l -> String.leb e e' = true.
Proof.
  revert e. induction l as [|x l IH]; intros e; simpl; [discriminate|].
  rewrite hd_insert_str.
  destruct (hd_error (sorted l)) as [y|] eqn:H.
  - destruct (IH y eq_refl) as [Hin Hmin].
    destruct (String.leb x y) eqn:L; intros [= <-].
    + split; [now left|]. intros e' [<-|He']; [apply string_leb_refl|].
      apply string_leb_trans with y; [exact L|now apply Hmin].
    + split; [now right|]. intros e' [<-|He']; [|now apply Hmin].
      destruct (String.leb_total x y); congruence.
  - intros [= <-]. split; [now left|].
    destruct l as [|z l].
    + intros e' [<-|[]]. apply string_leb_refl.
    + exfalso. simpl in H. rewrite hd_insert_str in H.
      destruct (hd_error (sorted l)); [destruct (String.leb z s)|]; discriminate.
Qed.

Lemma hd_sorted_some (l : list string) : l <> [] -> exists e, hd_error (sorted l) = Some e.
Proof.
  destruct l as [|x l]; [easy|]. intros _. simpl. rewrite hd_insert_str.
  destruct (hd_error (sorted l)) as [y|]; [destruct (String.leb x y)|]; now eexists.
Qed.

(** X23: [_get_next_expiration] returns the earliest expiration of the first
    parameter set that is not before today: a date it returns is one of that
    set's expirations, is today or later in the order of strings, and no
    other such expiration of the set comes before it.  It returns [None]
    exactly when a request raises, when no parameter set comes back, or when
    the first set has no expiration from today on. *)
Theorem next_expiration_earliest (provider : ParamsProvider) (symbol : string) :
  (forall e,
     _get_next_expiration provider symbol = Some e ->
     exists chain others,
       ib_reqSecDefOptParams provider symbol = Return (chain :: others) /\
       In e (expirations chain) /\
       String.leb (today provider) e = true /\
       forall e', In e' (expirations chain) ->
                  String.leb (today provider) e' = true ->
                  String.leb e e' = true) /\
  (_get_next_expiration provider symbol = None <->
   (exists x, ib_qualifyStock provider symbol = Raise x) \/
   (exists x, ib_reqSecDefOptParams provider symbol = Raise x) \/
   ib_reqSecDefOptParams provider symbol = Return [] \/
   (exists chain others,
      ib_reqSecDefOptParams provider symbol = Return (chain :: others) /\
      forall e, In e (expirations chain) -> String.leb (today provider) e = false)).
Proof.
  unfold _get_next_expiration.
  destruct (ib_qualifyStock provider symbol) as [u|x].
  2:{ split; [discriminate|]. split; [intros _; left; now eexists|reflexivity]. }
  destruct (ib_reqSecDefOptParams provider symbol) as [[|chain others]|x].
  - split; [discriminate|]. split; [intros _; now right; right; left|reflexivity].
  - set (valid := filter (fun e => String.leb (today provider) e) (expirations chain)).
    assert (V : forall e, In e valid <->
                  In e (expirations chain) /\ String.leb (today provider) e = true)
      by (intros e; apply filter_In).
    destruct valid as [|v more] eqn:Ev.
    + split; [discriminate|]. split; [|reflexivity].
      intros _. right. right. right. exists chain, others. split; [reflexivity|].
      intros e He. destruct (String.leb (today provider) e) eqn:L; [|reflexivity].
      exfalso. apply (proj2 (V e)). now split.
    + split.
      * intros e H. apply hd_sorted_least in H. destruct H as [Hin Hmin].
        apply V in Hin. destruct Hin as [Hin Hle].
        exists chain, others. repeat split; try assumption.
        intros e' He' Hl. apply Hmin, V. now split.
      * split.
        -- intros H. exfalso.
           destruct (hd_sorted_some (v :: more)) as (e & He); [discriminate|].
           congruence.
        -- intros [(x & H)|[(x & H)|[H|(c & o & H & Hno)]]]; try discriminate.
           injection H as <- <-. exfalso.
           assert (Hv : In v (v :: more)) by now left.
           apply V in Hv. destruct Hv as [Hin Hl]. rewrite (Hno v Hin) in Hl.
           discriminate.
  - split; [discriminate|].
    split; [intros _; right; left; now eexists|reflexivity].
Qed.

Example next_expiration_examples :
  _get_next_expiration
    {| ib_qualifyStock := fun _ => Return tt;
       ib_reqSecDefOptParams := fun _ =>
         Return [ {| exchange := "SMART";
                     expirations := ["20261218"; "20261016"; "20261120"; "20270115"];
                     strikes := [] |};
                  {| exchange := "CBOE"; expirations := ["20261106"]; strikes := [] |} ];
       today := "20261104" |} "XYZ" = Some "20261120" /\
  _get_next_expiration
    {| ib_qualifyStock := fun _ => Return tt;
       ib_reqSecDefOptParams := fun _ =>
         Return [ {| exchange := "SMART"; expirations := ["20261016"]; strikes := [] |};
                  {| exchange := "CBOE"; expirations := ["20261106"]; strikes := [] |} ];
       today := "20261104" |} "XYZ" = None /\
  _get_next_expiration
    {| ib_qualifyStock := fun _ => Raise (ProviderError "not connected");
       ib_reqSecDefOptParams := fun _ => Return [];
       today := "20261104" |} "XYZ" = None.
Proof. repeat split. Qed.

End ExpirationExtras.

(** ** The strike of a broker contract *)

Section StrikeExtras.

Import PyFloat Expirations Strikes.

Local Open Scope float_scope.

Lemma max_by_first {A : Type} (key : A -> nat) (l : list A) (b : A) :
  exists pre post,
    (b :: l = pre ++ max_by key b l :: post)%list /\
    (forall c, In c pre -> (key c < key (max_by key b l))%nat) /\
    (forall c, In c post -> (key c <= key (max_by key b l))%nat).
Proof.
  revert b. induction l as [|x l IH]; intros b.
  - exists [], []. repeat split; intros c [].
  - cbn [max_by]. destruct (Nat.ltb (key b) (key x)) eqn:L.
    + apply Nat.ltb_lt in L.
      destruct (IH x) as (pre & post & E & Hpre & Hpost).
      set (r := max_by key x l) in *.
      assert (Hx : (key x <= key r)%nat).
      { destruct pre as [|y pre]; simpl in E; injection E as E1 E2.
        - rewrite <- E1. lia.
        - subst y. apply Nat.lt_le_incl, Hpre. now left. }
      exists (b :: pre), post. split; [simpl; now rewrite E|]. split; [|exact Hpost].
      intros c [<-|Hc]; [lia|now apply Hpre].
    + apply Nat.ltb_ge in L.
      destruct (IH b) as (pre & post & E & Hpre & Hpost).
      set (r := max_by key b l) in *.
      destruct pre as [|y pre]; simpl in E; injection E as E1 E2.
      * exists [], (x :: post). split; [simpl; now rewrite <- E1, E2|].
        split; [intros c []|].
        intros c [<-|Hc]; [rewrite <- E1; exact L|now apply Hpost].
      * subst y. exists (b :: x :: pre), post.
        split; [simpl; now rewrite E2|]. split; [|exact Hpost].
        assert (Hb : (key b < key r)%nat) by (apply Hpre; now left).
        intros c [<-|[<-|Hc]]; [exact Hb|lia|apply Hpre; now right].
Qed.

(** X24: the parameter set [_get_option_data] works with is the first of
    those that list the most strikes: every set before it lists fewer
    strikes, no set after it lists more; and there is one as soon as the
    broker returns any set. *)
Theorem richest_chain_most_strikes (chains : list OptionParams) :
  (chains <> [] -> exists r, richest_chain chains = Some r) /\
  (forall r, richest_chain chains = Some r ->
     exists pre post,
       chains = (pre ++ r :: post)%list /\
       (forall c, In c pre -> (List.length (strikes c) < List.length (strikes r))%nat) /\
       (forall c, In c post -> (List.length (strikes c) <= List.length (strikes r))%nat)).
Proof.
  assert (K : forall c, strike_count c = List.length (strikes c))
    by (intros c; unfold strike_count; now destruct (strikes c)).
  destruct chains as [|c cs]; simpl.
  - split; [easy|discriminate].
  - split; [intros _; now eexists|]. intros r [= <-].
    destruct (max_by_first strike_count cs c) as (pre & post & E & Hpre & Hpost).
    exists pre, post. split; [exact E|].
    split; intros c' Hc'; rewrite <- !K; auto.
Qed.

Lemma ltb_fle (x y : float) : (x <? y) = true -> fle x y = true.
Proof.
  intros H. destruct (fle_total x y) as [L|L]; [exact L|].
  assert (Ny : is_nan y = false).
  { rewrite is_nan_spec. rewrite FloatAxioms.ltb_spec in H.
    destruct (Prim2SF x) as [?|?| |? ? ?], (Prim2SF y) as [?|?| |? ? ?];
      try reflexivity; discriminate. }
  assert (Nx : is_nan x = false).
  { rewrite is_nan_spec. rewrite FloatAxioms.ltb_spec in H.
    destruct (Prim2SF x) as [?|?| |? ? ?], (Prim2SF y) as [?|?| |? ? ?];
      try reflexivity; discriminate. }
  rewrite fle_leb in L by assumption.
  apply leb_not_ltb in L. congruence.
Qed.

Lemma not_ltb_fle (x y : float) :
  is_nan y = false -> (x <? y) = false -> fle y x = true.
Proof.
  intros Ny H. destruct (fle y x) eqn:L; [reflexivity|].
  apply fle_false_ltb in L. destruct L as [_ [L|L]]; congruence.
Qed.

Lemma min_by_in (key : float -> float) (l : list float) (b : float) :
  In (min_by key b l) (b :: l).
Proof.
  revert b. induction l as [|x l IH]; intros b; [now left|].
  cbn [min_by]. destruct (IH (if key x <? key b then x else b)) as [H|H].
  - destruct (key x <? key b); [right; left|left]; exact H.
  - right. right. exact H.
Qed.

Lemma min_by_least (key : float -> float) (l : list float) (b : float) :
  (forall s, In s (b :: l) -> is_nan (key s) = false) ->
  forall s, In s (b :: l) -> fle (key (min_by key b l)) (key s) = true.
Proof.
  revert b. induction l as [|x l IH]; intros b N s Hs.
  - destruct Hs as [<-|[]]. apply fle_refl.
  - cbn [min_by].
    assert (Nb : is_nan (key b) = false) by (apply N; now left).
    assert (Nx : is_nan (key x) = false) by (apply N; right; now left).
    destruct (key x <? key b) eqn:L.
    + assert (M : forall s', In s' (x :: l) ->
                    fle (key (min_by key x l)) (key s') = true).
      { apply IH. intros s' Hs'. apply N. now right. }
      destruct Hs as [<-|Hs]; [|now apply M].
      apply fle_trans with (key x); [apply M; now left|now apply ltb_fle].
    + assert (M : forall s', In s' (b :: l) ->
                    fle (key (min_by key b l)) (key s') = true).
      { apply IH. intros s' [<-|Hs']; [exact Nb|]. apply N. right. now right. }
      destruct Hs as [<-|[<-|Hs]]; [apply M; now left| |apply M; now right].
      apply fle_trans with (key b); [apply M; now left|].
      now apply not_ltb_fle.
Qed.

(** X25: the strike [_get_option_data] asks the broker for.  There are
    always strikes to choose from, those of the parameter set or, when it
    lists none, nine made up around the price, so [min] never raises; the
    strike chosen is one of them; and when no distance to the target is NaN,
    no strike to choose from is nearer to the target than the chosen one. *)
Theorem closest_strike_nearest (chain : OptionParams) (price : option float)
    (target_strike : float) :
  exists r,
    closest_strike (candidate_strikes chain price target_strike) target_strike = Return r /\
    In r (candidate_strikes chain price target_strike) /\
    (strikes chain <> [] -> In r (strikes chain)) /\
    ((forall s, In s (candidate_strikes chain price target_strike) ->
                is_nan (abs (s - target_strike)) = false) ->
     forall s, In s (candidate_strikes chain price target_strike) ->
               (abs (r - target_strike) <=? abs (s - target_strike)) = true).
Proof.
  assert (C : exists s l, candidate_strikes chain price target_strike = s :: l).
  { unfold candidate_strikes, price_ladder.
    destruct (strikes chain) as [|s l]; now eexists _, _. }
  destruct C as (s0 & l & C).
  exists (min_by (fun s => abs (s - target_strike)) s0 l).
  rewrite C. split; [reflexivity|]. split; [apply min_by_in|]. split.
  - intros Hne. unfold candidate_strikes in C.
    destruct (strikes chain) as [|s l'] eqn:E; [easy|].
    rewrite C. apply min_by_in.
  - intros N s Hs.
    pose proof (min_by_least (fun s => abs (s - target_strike)) l s0 N s Hs) as L.
    apply fle_true_leb in L; [apply L|now apply N].
Qed.

Example closest_strike_examples :
  closest_strike
    (candidate_strikes {| exchange := "SMART"; expirations := [];
                          strikes := [90; 95; 100; 105; 110] |} None 97)
    97 = Return 95 /\
  closest_strike
    (candidate_strikes {| exchange := "SMART"; expirations := [];
                          strikes := [90; 100; 110] |} None 95)
    95 = Return 90 /\
  closest_strike
    (candidate_strikes {| exchange := "SMART"; expirations := []; strikes := [] |}
       (Some 100) 90)
    90 = Return 90 /\
  closest_strike
    (candidate_strikes {| exchange := "SMART"; expirations := []; strikes := [] |}
       None 90)
    90 = Return 90 /\
  richest_chain
    [ {| exchange := "A"; expirations := []; strikes := [1] |};
      {| exchange := "B"; expirations := []; strikes := [1; 2] |};
      {| exchange := "C"; expirations := []; strikes := [3; 4] |} ]
  = Some {| exchange := "B"; expirations := []; strikes := [1; 2] |}.
Proof. repeat split. Qed.

End StrikeExtras.
